(** * File-to-link bot: the link resolver and the HTTP range responder

    A shallow embedding of the serving path of the bot and of what it
    rests on:

    - [utils.py]: [get_media_from_message], [get_hash], [get_file_size],
      [get_file_type], [format_duration], [get_readable_time],
      [validate_file_extension];
    - [database.py]: [FileStats], [update_file_stats], [User.full_name],
      [get_or_create_user];
    - [server.py]: [stream_handler], [download_handler], [_serve_file],
      [_parse_range], [short_link_handler], [thumbnail_handler], and the
      names the module binds.

    The libraries are modelled as the code meets them: [int] refuses a
    literal of more than 4300 digits, a [StreamResponse] does not let its
    status be assigned, a session whose commit raised refuses further
    queries, and [message.media] of a message of the platform has no
    [file_id].

    Python values are modelled as follows.  An [int] is a [Z].  A [str] is a
    [string]; each character stands for the code point of the same number, so
    the model covers the strings whose code points are below 256.  A value
    that may be [None] is an [option].  A call that may raise returns an
    [outcome].  Code that reads or changes the database session, writes to
    the client or logs is a function of the state [Server.State]. *)

From Stdlib Require Import ZArith List String Ascii Bool Lia.
Import ListNotations.
Open Scope string_scope.
Open Scope Z_scope.

(** ** Python primitives *)

Module Py.

(** The exceptions that can occur on the serving path. *)
Inductive exn : Type :=
| NameError (name : string)
| AttributeError (attr : string)
| ValueError
| TypeError
| MessageNotFound
| RPCError (descr : string)
| SQLAlchemyError (descr : string)
| ConnectionResetError
| CancelledError.

(** [except Exception] catches every exception class except those that
    derive from [BaseException] only; [asyncio.CancelledError] is one. *)
Definition is_Exception (e : exn) : bool :=
  match e with
  | CancelledError => false
  | _ => true
  end.

Definition is_MessageNotFound (e : exn) : bool :=
  match e with
  | MessageNotFound => true
  | _ => false
  end.

Inductive outcome (A : Type) : Type :=
| Ret (a : A)
| Raise (e : exn).
Arguments Ret {A} a.
Arguments Raise {A} e.

(** Truth value of a [str]: the empty string is false. *)
Definition truthy (s : string) : bool :=
  match s with
  | EmptyString => false
  | String _ _ => true
  end.

(** Truth value of an optional [str]: [None] and the empty string are false. *)
Definition truthy_opt (o : option string) : bool :=
  match o with
  | None => false
  | Some s => truthy s
  end.

(** [s.replace(old, new)] for a non-empty [old]: every occurrence of [old],
    found from left to right and without overlap, becomes [new].  [skip]
    counts the characters of a matched occurrence still to be dropped. *)
Fixpoint replace_from (skip : nat) (old new s : string) : string :=
  match s with
  | EmptyString => EmptyString
  | String c r =>
      match skip with
      | S k => replace_from k old new r
      | O =>
          if prefix old s
          then new ++ replace_from (Nat.pred (String.length old)) old new r
          else String c (replace_from O old new r)
      end
  end.

Definition replace (old new s : string) : string := replace_from O old new s.

(** [s.split(sep)] for a separator of one character. *)
Fixpoint split (sep : ascii) (s : string) : list string :=
  match s with
  | EmptyString => [EmptyString]
  | String c r =>
      if Ascii.eqb c sep then EmptyString :: split sep r
      else match split sep r with
           | x :: xs => String c x :: xs
           | [] => [String c EmptyString]
           end
  end.

(** The white space that [int] drops around a literal, below code point
    256: tab to carriage return, space, next line and no-break space. *)
Definition is_space (c : ascii) : bool :=
  let n := nat_of_ascii c in
  ((9 <=? n) && (n <=? 13) || (n =? 32) || (n =? 133) || (n =? 160))%nat.

Definition is_digit (c : ascii) : bool :=
  let n := nat_of_ascii c in ((48 <=? n) && (n <=? 57))%nat.

Definition digit_value (c : ascii) : Z := Z.of_nat (nat_of_ascii c) - 48.

Fixpoint lstrip (s : string) : string :=
  match s with
  | EmptyString => EmptyString
  | String c r => if is_space c then lstrip r else s
  end.

Fixpoint rstrip (s : string) : string :=
  match s with
  | EmptyString => EmptyString
  | String c r =>
      match rstrip r with
      | EmptyString => if is_space c then EmptyString else String c EmptyString
      | r' => String c r'
      end
  end.

Definition strip (s : string) : string := rstrip (lstrip s).

(** The digits of an [int] literal: decimal digits, a single underscore
    allowed between two digits.  [after_digit] tells whether the previous
    character was a digit. *)
Fixpoint digits (acc : Z) (after_digit : bool) (s : string) : option Z :=
  match s with
  | EmptyString => if after_digit then Some acc else None
  | String c r =>
      if is_digit c then digits (10 * acc + digit_value c) true r
      else if Ascii.eqb c "_"
           then if after_digit then digits acc false r else None
           else None
  end.

(** The number of digit characters of a literal; signs, underscores and
    white space do not count, leading zeros do. *)
Fixpoint count_digits (s : string) : Z :=
  match s with
  | EmptyString => 0
  | String c r => (if is_digit c then 1 else 0) + count_digits r
  end.

(** [sys.get_int_max_str_digits()]: the longest decimal literal that the
    interpreter converts to or from an [int]. *)
Definition max_str_digits : Z := 4300.

(** [int(s)] in base 10: surrounding white space is dropped, a sign may
    precede the digits, anything else raises [ValueError]; so does a
    literal of more than [max_str_digits] digits. *)
Definition int (s : string) : outcome Z :=
  let t := strip s in
  let body :=
    match t with
    | String "-" r => option_map Z.opp (digits 0 false r)
    | String "+" r => digits 0 false r
    | _ => digits 0 false t
    end in
  match body with
  | Some n => if max_str_digits <? count_digits t then Raise ValueError
              else Ret n
  | None => Raise ValueError
  end.

(** Decimal digits of a non-negative [n], most significant first, put in
    front of [acc]; [fuel] bounds the number of digits. *)
Fixpoint decimal (fuel : nat) (n : Z) (acc : string) : string :=
  let acc' := String (ascii_of_nat (Z.to_nat (48 + n mod 10))) acc in
  match fuel with
  | O => acc'
  | S f => if n <? 10 then acc' else decimal f (n / 10) acc'
  end.

(** [str(n)] for an [int] of at most [max_str_digits] digits; the
    interpreter refuses to print a longer one.  The code prints the ids
    that [int] has read and the sizes that the platform reports. *)
Definition str (n : Z) : string :=
  if n <? 0
  then String "-" (decimal (Z.to_nat (Z.log2 (- n))) (- n) EmptyString)
  else decimal (Z.to_nat (Z.log2 n)) n EmptyString.

(** [str(x)] for an [int] that may be [None]. *)
Definition str_opt (x : option Z) : string :=
  match x with
  | None => "None"
  | Some n => str n
  end.

(** Whether every character of [s] satisfies [p]. *)
Fixpoint all_chars (p : ascii -> bool) (s : string) : bool :=
  match s with
  | EmptyString => true
  | String c r => p c && all_chars p r
  end.

(** [s] between double quotes, as [f'"{s}"'] formats it. *)
Definition quoted (s : string) : string :=
  String (ascii_of_nat 34) (s ++ String (ascii_of_nat 34) EmptyString).

(** [s[:n]]: the first [n] characters, or all of [s] if it is shorter. *)
Fixpoint slice_to (n : nat) (s : string) : string :=
  match n, s with
  | S k, String c r => String c (slice_to k r)
  | _, _ => EmptyString
  end.

(** [s.encode()]: the UTF-8 bytes of [s].  A code point below 128 is one
    byte, one from 128 to 255 is two. *)
Fixpoint encode (s : string) : list Z :=
  match s with
  | EmptyString => []
  | String c r =>
      let n := Z.of_nat (nat_of_ascii c) in
      if n <? 128 then n :: encode r
      else (192 + n / 64) :: (128 + n mod 64) :: encode r
  end.

End Py.

(** ** hashlib: MD5 (RFC 1321) *)

Module Hashlib.

Definition w32 (x : Z) : Z := x mod 4294967296.

Definition rotl (x c : Z) : Z :=
  w32 (Z.lor (Z.shiftl x c) (Z.shiftr x (32 - c))).

Definition K : list Z :=
  [ 0xd76aa478; 0xe8c7b756; 0x242070db; 0xc1bdceee;
    0xf57c0faf; 0x4787c62a; 0xa8304613; 0xfd469501;
    0x698098d8; 0x8b44f7af; 0xffff5bb1; 0x895cd7be;
    0x6b901122; 0xfd987193; 0xa679438e; 0x49b40821;
    0xf61e2562; 0xc040b340; 0x265e5a51; 0xe9b6c7aa;
    0xd62f105d; 0x02441453; 0xd8a1e681; 0xe7d3fbc8;
    0x21e1cde6; 0xc33707d6; 0xf4d50d87; 0x455a14ed;
    0xa9e3e905; 0xfcefa3f8; 0x676f02d9; 0x8d2a4c8a;
    0xfffa3942; 0x8771f681; 0x6d9d6122; 0xfde5380c;
    0xa4beea44; 0x4bdecfa9; 0xf6bb4b60; 0xbebfbc70;
    0x289b7ec6; 0xeaa127fa; 0xd4ef3085; 0x04881d05;
    0xd9d4d039; 0xe6db99e5; 0x1fa27cf8; 0xc4ac5665;
    0xf4292244; 0x432aff97; 0xab9423a7; 0xfc93a039;
    0x655b59c3; 0x8f0ccc92; 0xffeff47d; 0x85845dd1;
    0x6fa87e4f; 0xfe2ce6e0; 0xa3014314; 0x4e0811a1;
    0xf7537e82; 0xbd3af235; 0x2ad7d2bb; 0xeb86d391 ].

Definition shifts : list Z :=
  [ 7; 12; 17; 22; 7; 12; 17; 22; 7; 12; 17; 22; 7; 12; 17; 22;
    5; 9; 14; 20; 5; 9; 14; 20; 5; 9; 14; 20; 5; 9; 14; 20;
    4; 11; 16; 23; 4; 11; 16; 23; 4; 11; 16; 23; 4; 11; 16; 23;
    6; 10; 15; 21; 6; 10; 15; 21; 6; 10; 15; 21; 6; 10; 15; 21 ].

Definition lnot32 (x : Z) : Z := Z.lxor x 0xffffffff.

(** One of the 64 operations on a block of 16 words [M]. *)
Definition step (M : list Z) (st : Z * Z * Z * Z) (i : nat) : Z * Z * Z * Z :=
  let '(a, b, c, d) := st in
  let '(f, g) :=
    if (i <? 16)%nat
    then (Z.lor (Z.land b c) (Z.land (lnot32 b) d), i)
    else if (i <? 32)%nat
    then (Z.lor (Z.land d b) (Z.land (lnot32 d) c), ((5 * i + 1) mod 16)%nat)
    else if (i <? 48)%nat
    then (Z.lxor (Z.lxor b c) d, ((3 * i + 5) mod 16)%nat)
    else (Z.lxor c (Z.lor b (lnot32 d)), ((7 * i) mod 16)%nat) in
  let f' := w32 (f + a + nth i K 0 + nth g M 0) in
  (d, w32 (b + rotl f' (nth i shifts 0)), b, c).

(** The compression of one block into the running state. *)
Definition compress (st : Z * Z * Z * Z) (M : list Z) : Z * Z * Z * Z :=
  let '(a0, b0, c0, d0) := st in
  let '(a, b, c, d) := fold_left (step M) (seq 0 64) st in
  (w32 (a0 + a), w32 (b0 + b), w32 (c0 + c), w32 (d0 + d)).

(** The first [n] little-endian 32-bit words of a list of bytes. *)
Fixpoint words (n : nat) (bs : list Z) : list Z :=
  match n with
  | O => []
  | S k =>
      match bs with
      | b0 :: b1 :: b2 :: b3 :: r =>
          (b0 + 256 * b1 + 65536 * b2 + 16777216 * b3) :: words k r
      | _ => []
      end
  end.

Fixpoint le_bytes (n : nat) (x : Z) : list Z :=
  match n with
  | O => []
  | S k => x mod 256 :: le_bytes k (x / 256)
  end.

(** The message, a 1 bit, zero bits up to 56 bytes modulo 64, then the
    length of the message in bits as 8 little-endian bytes. *)
Definition pad (msg : list Z) : list Z :=
  let len := Z.of_nat (List.length msg) in
  msg ++ [128] ++ repeat 0 (Z.to_nat ((55 - len) mod 64))
      ++ le_bytes 8 ((8 * len) mod 18446744073709551616).

Fixpoint blocks (n : nat) (bs : list Z) (st : Z * Z * Z * Z) : Z * Z * Z * Z :=
  match n with
  | O => st
  | S k => blocks k (skipn 64 bs) (compress st (words 16 (firstn 64 bs)))
  end.

(** [hashlib.md5(msg).digest()] as a list of 16 bytes. *)
Definition md5 (msg : list Z) : list Z :=
  let bs := pad msg in
  let '(a, b, c, d) :=
    blocks (List.length bs / 64)%nat bs
           (0x67452301, 0xefcdab89, 0x98badcfe, 0x10325476) in
  le_bytes 4 a ++ le_bytes 4 b ++ le_bytes 4 c ++ le_bytes 4 d.

Definition hex_digit (n : Z) : ascii :=
  nth (Z.to_nat n) (list_ascii_of_string "0123456789abcdef") "0"%char.

Definition is_hex (c : ascii) : bool :=
  existsb (Ascii.eqb c) (list_ascii_of_string "0123456789abcdef").

Fixpoint hex (bs : list Z) : string :=
  match bs with
  | [] => EmptyString
  | b :: r => String (hex_digit (b / 16)) (String (hex_digit (b mod 16)) (hex r))
  end.

(** [hashlib.md5(msg).hexdigest()]. *)
Definition md5_hexdigest (msg : list Z) : string := hex (md5 msg).

End Hashlib.

(** ** utils.py *)

Module Utils.

(** An attribute read with [getattr(obj, name, default)]: the object may
    lack the attribute, and an attribute that is there may hold [None]. *)
Inductive attribute (A : Type) : Type :=
| Absent
| Holds (v : option A).
Arguments Absent {A}.
Arguments Holds {A} v.

Definition getattr {A : Type} (a : attribute A) (default : option A) : option A :=
  match a with
  | Absent => default
  | Holds v => v
  end.

(** A media object of the messaging platform (a document, a video, ...). *)
Record Media : Type := {
  file_id : string;
  file_unique_id : string;
  file_size : attribute Z;
  mime_type : attribute string
}.

(** The value of [message.media].  The serving code reads its truth value
    and its attribute [file_id]; [None] says the value has no such
    attribute, which is the case of what the platform puts there, the kind
    of the media. *)
Record MediaAttr : Type := {
  media_file_id : option string
}.

(** A message of the platform; an attribute that is [None] is falsy. *)
Record Message : Type := {
  media : option MediaAttr;
  document : option Media;
  video : option Media;
  audio : option Media;
  animation : option Media;
  voice : option Media;
  video_note : option Media;
  photo : option Media;
  sticker : option Media
}.

Definition media_types : list (Message -> option Media) :=
  [document; video; audio; animation; voice; video_note; photo; sticker].

Fixpoint first_media (types : list (Message -> option Media)) (message : Message)
  : option Media :=
  match types with
  | [] => None
  | media_type :: rest =>
      match media_type message with
      | Some m => Some m
      | None => first_media rest message
      end
  end.

Definition get_media_from_message (message : Message) : option Media :=
  first_media media_types message.

Definition get_hash (message : Message) : string :=
  match get_media_from_message message with
  | Some m =>
      Py.slice_to 12 (Hashlib.md5_hexdigest (Py.encode (file_unique_id m)))
  | None => EmptyString
  end.

End Utils.

(** ** database.py *)

Module Database.
Import Py.

Record FileStats : Type := {
  file_id : string;
  message_id : Z;
  user_id : Z;
  file_name : option string;
  file_size : Z;
  file_type : string;
  mime_type : option string;
  views : Z;
  downloads : Z;
  last_accessed : option Z
}.

(** The session: the rows of [file_stats] as the session sees them, and
    whether its next query or commit raises. *)
Record Session : Type := {
  rows : list FileStats;
  query_raises : option exn;
  commit_raises : option exn
}.

Definition with_rows (rs : list FileStats) (s : Session) : Session :=
  {| rows := rs; query_raises := query_raises s;
     commit_raises := commit_raises s |}.

(** [session.query(FileStats).filter_by(file_id=file_id).first()]. *)
Definition first_by_file_id (fid : string) (rs : list FileStats)
  : option FileStats :=
  find (fun r => String.eqb (file_id r) fid) rs.

(** The assignments of [update_file_stats] to the row it found. *)
Definition touch (action : string) (now : Z) (r : FileStats) : FileStats :=
  {| file_id := file_id r; message_id := message_id r; user_id := user_id r;
     file_name := file_name r; file_size := file_size r;
     file_type := file_type r; mime_type := mime_type r;
     views := if String.eqb action "view" then views r + 1 else views r;
     downloads :=
       if String.eqb action "view" then downloads r
       else if String.eqb action "download" then downloads r + 1
       else downloads r;
     last_accessed := Some now |}.

(** The rows after the first one with this [file_id] has been changed: the
    row is an object of the session, changed in place. *)
Fixpoint touch_first (fid action : string) (now : Z) (rs : list FileStats)
  : list FileStats :=
  match rs with
  | [] => []
  | r :: rest =>
      if String.eqb (file_id r) fid then touch action now r :: rest
      else r :: touch_first fid action now rest
  end.

(** The session after a commit that raised: the transaction is rolled
    back, so the rows are those before the change, and the session refuses
    every further query with [PendingRollbackError] until
    [session.rollback()] is called, which nothing in the repository does. *)
Definition rolled_back (s : Session) : Session :=
  {| rows := rows s;
     query_raises := Some (SQLAlchemyError "PendingRollbackError");
     commit_raises := commit_raises s |}.

(** [update_file_stats(session, file_id, action)]; [now] is what
    [datetime.utcnow()] returns at this call. *)
Definition update_file_stats (now : Z) (session : Session)
           (fid action : string) : outcome unit * Session :=
  match query_raises session with
  | Some e => (Raise e, session)
  | None =>
      match first_by_file_id fid (rows session) with
      | None => (Ret tt, session)
      | Some _ =>
          match commit_raises session with
          | Some e => (Raise e, rolled_back session)
          | None =>
              (Ret tt,
               with_rows (touch_first fid action now (rows session)) session)
          end
      end
  end.

(** A session whose queries and commits go through. *)
Definition healthy (s : Session) : bool :=
  match query_raises s, commit_raises s with
  | None, None => true
  | _, _ => false
  end.

(** A row without the time of its last access. *)
Definition forget_time (r : FileStats) : FileStats :=
  {| file_id := file_id r; message_id := message_id r; user_id := user_id r;
     file_name := file_name r; file_size := file_size r;
     file_type := file_type r; mime_type := mime_type r;
     views := views r; downloads := downloads r;
     last_accessed := None |}.

(** What [update_file_stats] may do to a row [r], giving [r']: the
    columns that identify and describe the file stay, and each counter
    stays or goes up by one. *)
Definition counted_up (r r' : FileStats) : Prop :=
  file_id r' = file_id r /\ message_id r' = message_id r /\
  user_id r' = user_id r /\ file_name r' = file_name r /\
  file_size r' = file_size r /\ file_type r' = file_type r /\
  mime_type r' = mime_type r /\
  views r <= views r' <= views r + 1 /\
  downloads r <= downloads r' <= downloads r + 1.

End Database.

(** ** server.py *)

Module Server.
Import Py.

(** *** The range parser *)

(** The body of the [try] block of [_parse_range]. *)
Definition _parse_range_try (range_header : string) (file_size : Z)
  : outcome (Z * Z) :=
  let range_value := replace "bytes=" EmptyString range_header in
  match split "-" range_value with
  | [from_bytes; to_bytes] =>
      match (if truthy from_bytes then int from_bytes else Ret 0) with
      | Raise e => Raise e
      | Ret from_bytes' =>
          match (if truthy to_bytes then int to_bytes
                 else Ret (file_size - 1)) with
          | Raise e => Raise e
          | Ret to_bytes' =>
              Ret (Z.max 0 from_bytes', Z.min to_bytes' (file_size - 1))
          end
      end
  | _ => Raise ValueError
  end.

(** [_parse_range]: when the [try] block raises, the [except Exception]
    clause returns the full interval. *)
Definition _parse_range (range_header : string) (file_size : Z) : Z * Z :=
  match _parse_range_try range_header file_size with
  | Ret r => r
  | Raise _ => (0, file_size - 1)
  end.

(** *** Requests, responses, collaborators *)

Definition bytes : Type := string.

(** What the handlers read of a [web.Request]. *)
Record Request : Type := {
  match_info_message_id : string;
  match_info_filename : string;
  query_hash : option string;
  headers_Range : option string
}.

Definition headers_t : Type := list (string * string).

(** [headers[k] = v]. *)
Fixpoint set_header (k v : string) (hs : headers_t) : headers_t :=
  match hs with
  | [] => [(k, v)]
  | (k', v') :: r =>
      if String.eqb k' k then (k, v) :: r else (k', v') :: set_header k v r
  end.

Definition get_header (k : string) (hs : headers_t) : option string :=
  option_map snd (find (fun p => String.eqb (fst p) k) hs).

(** [web.Response(text=..., status=...)], or a [StreamResponse] with the
    status and headers it had when the handler returned it. *)
Inductive Response : Type :=
| Text (text : string) (status : Z)
| Stream (status : Z) (headers : headers_t).

Definition status_of (r : Response) : Z :=
  match r with
  | Text _ s => s
  | Stream s _ => s
  end.

(** What a run does to its collaborators, in order. *)
Inductive event : Type :=
| GetMessages (chat_id message_id : Z)
| UpdateFileStats (file_id action : string)
| Prepare (status : Z) (headers : headers_t)
| StreamMedia (message : Utils.Message) (arg1 arg2 : Z)
| Write (chunk : bytes)
| LogError (e : exn).

Record State : Type := {
  db_session : Database.Session;
  trace : list event
}.

(** The collaborators of the server: the configuration, the platform
    client ([get_messages], and [stream_media], which yields chunks and then
    ends or raises), the connection to the HTTP client (whether the write
    number [k] raises), [mimetypes.guess_type] and what the clock reads
    when a request is served. *)
Record World : Type := {
  BIN_CHANNEL : Z;
  get_messages : Z -> Z -> outcome (option Utils.Message);
  stream_media : Utils.Message -> Z -> Z -> list bytes * option exn;
  write_raises : nat -> option exn;
  guess_type : string -> option string;
  utcnow : Z
}.

(** *** Name resolution *)

(** The names that the statements of server.py bind at module level: its
    imports and its class.  Built-in names ([int], [str], [getattr], [max],
    [min], [Exception]) always resolve and are not listed. *)
Definition module_names : list string :=
  [ "os"; "logging"; "mimetypes"; "Optional"; "datetime"; "web"; "Response";
    "StreamResponse"; "FileId"; "MessageNotFound"; "Config"; "FileStats";
    "update_file_stats"; "get_readable_file_size"; "get_readable_time";
    "WebServer" ].

(** What a free name of [_serve_file] resolves to: the global names that
    are bound, each to the object of that name, and the value of [request]
    where that name is bound. *)
Record Scope : Type := {
  names : list string;
  request : option Request
}.

(** The scope of [_serve_file] as server.py is written: [request] is
    neither a parameter, nor a local, nor a global. *)
Definition server_scope : Scope :=
  {| names := module_names; request := None |}.

(** *** Stateful code *)

Definition M (A : Type) : Type := State -> outcome A * State.

Definition ret {A : Type} (a : A) : M A := fun st => (Ret a, st).

Definition raise {A : Type} (e : exn) : M A := fun st => (Raise e, st).

Definition bind {A B : Type} (c : M A) (k : A -> M B) : M B :=
  fun st =>
    match c st with
    | (Ret a, st') => k a st'
    | (Raise e, st') => (Raise e, st')
    end.

Notation "x <- c ;; k" := (bind c (fun x => k))
  (at level 61, c at next level, right associativity).
Notation "c ;;; k" := (bind c (fun _ => k))
  (at level 61, right associativity).

Definition lift {A : Type} (o : outcome A) : M A := fun st => (o, st).

Definition emit (e : event) : M unit :=
  fun st => (Ret tt, {| db_session := db_session st; trace := trace st ++ [e] |}).

(** Reading a global name. *)
Definition lookup (sc : Scope) (name : string) : M unit :=
  if existsb (String.eqb name) (names sc) then ret tt
  else raise (NameError name).

(** Reading the name [request]. *)
Definition lookup_request (sc : Scope) : M Request :=
  match request sc with
  | Some r => ret r
  | None => raise (NameError "request")
  end.

(** [await self.bot.get_messages(chat_id, message_id)]. *)
Definition bot_get_messages (w : World) (chat_id message_id : Z)
  : M (option Utils.Message) :=
  emit (GetMessages chat_id message_id) ;;;
  lift (get_messages w chat_id message_id).

(** [await update_file_stats(self.db_session, file_id, action)]. *)
Definition await_update_file_stats (w : World) (file_id action : string)
  : M unit :=
  fun st =>
    let '(r, session') :=
      Database.update_file_stats (utcnow w) (db_session st) file_id action in
    (r, {| db_session := session';
           trace := trace st ++ [UpdateFileStats file_id action] |}).

(** [await response.write(chunk)], the write number [k] of the response. *)
Definition response_write (w : World) (k : nat) (chunk : bytes) : M unit :=
  match write_raises w k with
  | Some e => raise e
  | None => emit (Write chunk)
  end.

(** [async for chunk in ...: await response.write(chunk)]. *)
Fixpoint stream_loop (w : World) (k : nat) (chunks : list bytes)
         (finish : option exn) : M unit :=
  match chunks with
  | [] => match finish with
          | Some e => raise e
          | None => ret tt
          end
  | chunk :: rest =>
      response_write w k chunk ;;; stream_loop w (S k) rest finish
  end.

(** The status, the headers and the interval [from_bytes], [to_bytes] of
    the response, as [_serve_file] computes them between the construction of
    the [StreamResponse] and [response.prepare].  A [file_size] that is
    [None] makes the arithmetic on it raise.  With a [Range] header that is
    not empty, [response.status = 206] assigns to a property of
    [StreamResponse] that has no setter: the assignment raises
    [AttributeError] once [_parse_range] has returned, and the two headers
    of the lines after it are never set. *)
Definition response_head (mode filename mime_type : string)
           (file_size : option Z) (range_header : option string)
  : outcome (Z * headers_t * Z * Z) :=
  let headers : headers_t :=
    [ ("Content-Type", mime_type);
      ("Content-Length", str_opt file_size);
      ("Accept-Ranges", "bytes");
      ("Cache-Control", "public, max-age=3600") ] in
  let headers :=
    if String.eqb mode "download"
    then set_header "Content-Disposition"
                    ("attachment; filename=" ++ quoted filename) headers
    else set_header "Content-Disposition"
                    ("inline; filename=" ++ quoted filename) headers in
  match file_size with
  | None => Raise TypeError
  | Some file_size =>
      match range_header with
      | Some range_header =>
          if truthy range_header
          then
            let '(from_bytes, to_bytes) := _parse_range range_header file_size in
            Raise (AttributeError "status")
          else Ret (200, headers, 0, file_size - 1)
      | None => Ret (200, headers, 0, file_size - 1)
      end
  end.

(** The body of the [try] block of [_serve_file]. *)
Definition _serve_file_try (sc : Scope) (w : World) (message_id : Z)
           (filename file_hash mode : string) : M Response :=
  message <- bot_get_messages w (BIN_CHANNEL w) message_id ;;
  match message with
  | None => lookup sc "web" ;;; ret (Text "File not found" 404)
  | Some message =>
  match Utils.media message with
  | None => lookup sc "web" ;;; ret (Text "File not found" 404)
  | Some message_media =>
  (* Verify hash *)
  lookup sc "get_hash" ;;;
  if negb (String.eqb (Utils.get_hash message) file_hash)
  then lookup sc "web" ;;; ret (Text "Invalid hash" 403)
  else
  (* Update statistics *)
  lookup sc "update_file_stats" ;;;
  file_id <- match Utils.media_file_id message_media with
             | Some fid => ret fid
             | None => raise (AttributeError "file_id")
             end ;;
  await_update_file_stats w file_id mode ;;;
  (* Get file info *)
  lookup sc "get_media_from_message" ;;;
  let media := Utils.get_media_from_message message in
  let file_size : option Z :=
    match media with
    | Some m => Utils.getattr (Utils.file_size m) (Some 0)
    | None => Some 0
    end in
  let mime_type : option string :=
    match media with
    | Some m => Utils.getattr (Utils.mime_type m) None
    | None => None
    end in
  mime_type <- (if truthy_opt mime_type
                then ret (match mime_type with Some t => t | None => EmptyString end)
                else lookup sc "mimetypes" ;;;
                     ret (if truthy_opt (guess_type w filename)
                          then match guess_type w filename with
                               | Some t => t
                               | None => EmptyString
                               end
                          else "application/octet-stream")) ;;
  (* Prepare response, handle range requests *)
  lookup sc "StreamResponse" ;;;
  request <- lookup_request sc ;;
  head <- lift (response_head mode filename mime_type file_size
                              (headers_Range request)) ;;
  let '(status, headers, from_bytes, to_bytes) := head in
  emit (Prepare status headers) ;;;
  (* Stream file *)
  emit (StreamMedia message from_bytes (to_bytes - from_bytes + 1)) ;;;
  let '(chunks, finish) :=
    stream_media w message from_bytes (to_bytes - from_bytes + 1) in
  stream_loop w 0 chunks finish ;;;
  ret (Stream status headers)
  end
  end.

(** The [except] clauses of [_serve_file], for an exception [e] that the
    [try] block raised. *)
Definition except_clauses (sc : Scope) (e : exn) : M Response :=
  lookup sc "MessageNotFound" ;;;
  if is_MessageNotFound e
  then lookup sc "web" ;;; ret (Text "File not found" 404)
  else if is_Exception e
  then emit (LogError e) ;;;
       lookup sc "web" ;;; ret (Text "Internal server error" 500)
  else raise e.

Definition _serve_file (sc : Scope) (w : World) (message_id : Z)
           (filename file_hash mode : string) : M Response :=
  fun st =>
    match _serve_file_try sc w message_id filename file_hash mode st with
    | (Ret r, st') => (Ret r, st')
    | (Raise e, st') => except_clauses sc e st'
    end.

(** The common body of [stream_handler] and [download_handler]. *)
Definition handler (mode : string) (sc : Scope) (w : World) (req : Request)
  : M Response :=
  message_id <- lift (int (match_info_message_id req)) ;;
  let filename := match_info_filename req in
  let file_hash := query_hash req in
  if negb (truthy_opt file_hash)
  then lookup sc "web" ;;; ret (Text "Invalid request" 400)
  else _serve_file sc w message_id filename
                   (match file_hash with Some h => h | None => EmptyString end) mode.

Definition stream_handler : Scope -> World -> Request -> M Response :=
  handler "stream".

Definition download_handler : Scope -> World -> Request -> M Response :=
  handler "download".

(** *** Reading a trace *)

(** The chunks written to the client, in order. *)
Fixpoint writes (tr : list event) : list bytes :=
  match tr with
  | [] => []
  | Write chunk :: r => chunk :: writes r
  | _ :: r => writes r
  end.

(** The number of calls of the stats update. *)
Fixpoint stats_calls (tr : list event) : nat :=
  match tr with
  | [] => O
  | UpdateFileStats _ _ :: r => S (stats_calls r)
  | _ :: r => stats_calls r
  end.

(** Whether an event sends something of the response to the client. *)
Definition is_output (e : event) : bool :=
  match e with
  | Prepare _ _ | Write _ => true
  | _ => false
  end.

(** The chunks that the streaming loop gets through to the client, and the
    exception that ends the loop, if any: the first write that raises, or
    else the end of the stream itself. *)
Fixpoint delivered (w : World) (k : nat) (chunks : list bytes)
         (finish : option exn) : list bytes * option exn :=
  match chunks with
  | [] => ([], finish)
  | chunk :: rest =>
      match write_raises w k with
      | Some e => ([], Some e)
      | None =>
          let '(sent, ending) := delivered w (S k) rest finish in
          (chunk :: sent, ending)
      end
  end.

(** What the [except] clauses add: nothing, or one logged error. *)
Definition is_log (tr : list event) : Prop :=
  tr = [] \/ exists e, tr = [LogError e].

(** A computation that leaves the state as it is. *)
Definition quiet {A : Type} (c : M A) : Prop := forall st, snd (c st) = st.

(** The statuses that [_serve_file] can return: 206 is written in the
    code but the assignment that would set it raises. *)
Definition known_status (rs : outcome Response * State) : Prop :=
  forall r, fst rs = Ret r -> In (status_of r) [200; 403; 404; 500].

(** The responses of [_serve_file] in a scope [sc], for a file name and a
    mode: one of three texts, or the stream response with the head of the
    request that the scope binds. *)
Definition answers (sc : Scope) (mode filename : string) (r : Response)
  : Prop :=
  r = Text "File not found" 404 \/
  r = Text "Invalid hash" 403 \/
  r = Text "Internal server error" 500 \/
  exists (req : Request) (mime : string) (size : option Z)
         (hdrs : headers_t) (a b : Z),
    request sc = Some req /\
    response_head mode filename mime size (headers_Range req)
    = Ret (200, hdrs, a, b) /\
    r = Stream 200 hdrs.

(** *** Scopes in which the free names of [_serve_file] resolve *)

Definition free_names : list string :=
  [ "web"; "get_hash"; "update_file_stats"; "get_media_from_message";
    "mimetypes"; "StreamResponse"; "MessageNotFound" ].

Definition resolves (sc : Scope) : bool :=
  forallb (fun name => existsb (String.eqb name) (names sc)) free_names.

End Server.

(** ** A concrete deployment, for the examples *)

Module Fixture.
Import Py Server.

(** A video of 1000 bytes stored as message 123 of the channel, as the
    platform delivers it: [message.media] tells the kind of the media and
    has no [file_id]. *)
Definition movie : Utils.Media :=
  {| Utils.file_id := "BAACAgIAAxkBAAIBZ2";
     Utils.file_unique_id := "AgADBAADq6cxG0";
     Utils.file_size := Utils.Holds (Some 1000);
     Utils.mime_type := Utils.Holds (Some "video/mp4") |}.

Definition message : Utils.Message :=
  {| Utils.media := Some {| Utils.media_file_id := None |};
     Utils.document := None;
     Utils.video := Some movie;
     Utils.audio := None;
     Utils.animation := None;
     Utils.voice := None;
     Utils.video_note := None;
     Utils.photo := None;
     Utils.sticker := None |}.

Definition token : string := Eval vm_compute in Utils.get_hash message.

Fixpoint content (n : nat) : string :=
  match n with
  | O => EmptyString
  | S k => String (ascii_of_nat (97 + k mod 26)) (content k)
  end.

Fixpoint drop (n : nat) (s : string) : string :=
  match n, s with
  | S k, String _ r => drop k r
  | _, _ => s
  end.

Fixpoint chunked (fuel size : nat) (s : string) : list string :=
  match fuel with
  | O => []
  | S f => if truthy s then slice_to size s :: chunked f size (drop size s)
           else []
  end.

(** A platform client that yields the bytes from [offset], [length] of
    them, in chunks of 256 bytes. *)
Definition world : World :=
  {| BIN_CHANNEL := -1001234567890;
     get_messages := fun chat_id message_id =>
       if (chat_id =? -1001234567890) && (message_id =? 123)
       then Ret (Some message) else Raise MessageNotFound;
     stream_media := fun _ offset length =>
       (chunked 4 256 (substring (Z.to_nat offset) (Z.to_nat length)
                                 (content 1000)), None);
     write_raises := fun _ => None;
     guess_type := fun _ => None;
     utcnow := 1730000000 |}.

(** The same, with a client that closes the connection after one chunk. *)
Definition world_disconnect : World :=
  {| BIN_CHANNEL := BIN_CHANNEL world;
     get_messages := get_messages world;
     stream_media := stream_media world;
     write_raises := fun k => if (k =? 0)%nat then None
                              else Some ConnectionResetError;
     guess_type := guess_type world;
     utcnow := utcnow world |}.

Definition row : Database.FileStats :=
  {| Database.file_id := "BAACAgIAAxkBAAIBZ2";
     Database.message_id := 123;
     Database.user_id := 42;
     Database.file_name := Some "movie.mp4";
     Database.file_size := 1000;
     Database.file_type := "video";
     Database.mime_type := Some "video/mp4";
     Database.views := 0;
     Database.downloads := 0;
     Database.last_accessed := None |}.

Definition state : State :=
  {| db_session := {| Database.rows := [row];
                      Database.query_raises := None;
                      Database.commit_raises := None |};
     trace := [] |}.

(** The session of [state] on a database that refuses the next commit. *)
Definition session_disk_full : Database.Session :=
  {| Database.rows := [row];
     Database.query_raises := None;
     Database.commit_raises := Some (SQLAlchemyError "disk full") |}.

Definition get (path_id : string) (hash range : option string) : Request :=
  {| match_info_message_id := path_id;
     match_info_filename := "movie.mp4";
     query_hash := hash;
     headers_Range := range |}.

(** server.py with the imports of [get_hash] and [get_media_from_message]
    added and the request passed on to [_serve_file]: not the module as it
    is written, but the scope of the statements that assume the names
    bound. *)
Definition resolved (req : Request) : Scope :=
  {| names := "get_hash" :: "get_media_from_message" :: module_names;
     request := Some req |}.

End Fixture.


(** ** More of the Python library: strings and paths *)

Module PyLib.
Import Py.

(** [c.lower()] for a code point below 256: the letters A to Z and the
    accented capitals of Latin-1 (192 to 222, without the multiplication
    sign 215) move up by 32. *)
Definition lower_char (c : ascii) : ascii :=
  let n := nat_of_ascii c in
  if ((65 <=? n) && (n <=? 90)
      || (192 <=? n) && (n <=? 222) && negb (n =? 215))%nat
  then ascii_of_nat (n + 32)
  else c.

(** [s.lower()]. *)
Fixpoint lower (s : string) : string :=
  match s with
  | EmptyString => EmptyString
  | String c r => String (lower_char c) (lower r)
  end.

(** [s[n:]]. *)
Fixpoint slice_from (n : nat) (s : string) : string :=
  match n, s with
  | S k, String _ r => slice_from k r
  | _, _ => s
  end.

(** [sep.join(parts)]. *)
Fixpoint join (sep : string) (parts : list string) : string :=
  match parts with
  | [] => EmptyString
  | [x] => x
  | x :: rest => x ++ sep ++ join sep rest
  end.

(** [x in xs] for a list of strings. *)
Definition mem (x : string) (xs : list string) : bool :=
  existsb (String.eqb x) xs.

(** [s.rfind(c)] for one character: the index of its last occurrence, or
    -1.  [i] is the index of the head of [s], [last] the result so far. *)
Fixpoint rfind_from (c : ascii) (i : Z) (s : string) (last : Z) : Z :=
  match s with
  | EmptyString => last
  | String x r => rfind_from c (i + 1) r (if Ascii.eqb x c then i else last)
  end.

Definition rfind (c : ascii) (s : string) : Z := rfind_from c 0 s (-1).

(** The loop of [os.path.splitext] that skips the leading dots of the
    file name. *)
Fixpoint skip_dots (p : string) (dotIndex : Z) (fuel : nat)
         (filenameIndex : Z) : string * string :=
  match fuel with
  | O => (p, EmptyString)
  | S f =>
      let split_here :=
        (slice_to (Z.to_nat dotIndex) p, slice_from (Z.to_nat dotIndex) p) in
      match String.get (Z.to_nat filenameIndex) p with
      | Some c =>
          if Ascii.eqb c "." then skip_dots p dotIndex f (filenameIndex + 1)
          else split_here
      | None => split_here
      end
  end.

(** [os.path.splitext(p)] of [posixpath]: the extension starts at the last
    dot of the last component, unless that component has only leading
    dots before it. *)
Definition splitext (p : string) : string * string :=
  let sepIndex := rfind "/" p in
  let dotIndex := rfind "." p in
  if sepIndex <? dotIndex
  then skip_dots p dotIndex (Z.to_nat (dotIndex - (sepIndex + 1)))
                 (sepIndex + 1)
  else (p, EmptyString).

(** A character that is neither a dot nor a slash. *)
Definition plain_char (c : ascii) : bool :=
  negb (Ascii.eqb c ".") && negb (Ascii.eqb c "/").

End PyLib.

(** ** utils.py: the other helpers *)

Module UtilsMore.
Import Py PyLib Utils.

(** [get_file_size]. *)
Definition get_file_size (message : Message) : Z :=
  match get_media_from_message message with
  | Some m =>
      match file_size m with
      | Absent => 0
      | Holds None => 0
      | Holds (Some n) => if n =? 0 then 0 else n
      end
  | None => 0
  end.

(** The names of the attributes, in the order in which
    [get_media_from_message] reads them. *)
Definition media_type_names : list string :=
  [ "document"; "video"; "audio"; "animation";
    "voice"; "video_note"; "photo"; "sticker" ].

(** Truth value of an attribute of a message. *)
Definition present (o : option Media) : bool :=
  match o with
  | Some _ => true
  | None => false
  end.

(** [get_file_type]. *)
Definition get_file_type (message : Message) : string :=
  if present (document message) then "document"
  else if present (video message) then "video"
  else if present (audio message) then "audio"
  else if present (photo message) then "photo"
  else if present (voice message) then "voice"
  else if present (video_note message) then "video_note"
  else if present (sticker message) then "sticker"
  else if present (animation message) then "animation"
  else "unknown".

(** [format_duration]. *)
Definition format_duration (seconds : Z) : string :=
  if seconds <? 60 then str seconds ++ "s"
  else if seconds <? 3600
  then let minutes := seconds / 60 in
       let secs := seconds mod 60 in
       str minutes ++ "m " ++ str secs ++ "s"
  else let hours := seconds / 3600 in
       let minutes := (seconds mod 3600) / 60 in
       str hours ++ "h " ++ str minutes ++ "m".

(** [get_readable_time], for an [int] number of seconds. *)
Definition get_readable_time (seconds : Z) : string :=
  let result := EmptyString in
  let days := seconds / 86400 in
  let remainder := seconds mod 86400 in
  let result := if negb (days =? 0) then result ++ str days ++ "d "
                else result in
  let hours := remainder / 3600 in
  let remainder := remainder mod 3600 in
  let result := if negb (hours =? 0) then result ++ str hours ++ "h "
                else result in
  let minutes := remainder / 60 in
  let seconds := remainder mod 60 in
  let result := if negb (minutes =? 0) then result ++ str minutes ++ "m "
                else result in
  result ++ str seconds ++ "s".

(** [validate_file_size]; [format_size] is [humanize.naturalsize] with
    binary units, taken as it comes. *)
Definition validate_file_size (format_size : Z -> string)
           (size min_size max_size : Z) : bool * string :=
  if size <? min_size
  then (false, "File too small. Minimum size: " ++ format_size min_size)
  else if max_size <? size
  then (false, "File too large. Maximum size: " ++ format_size max_size)
  else (true, EmptyString).

(** The default of [max_size]. *)
Definition default_max_size : Z := 2147483648.

(** [validate_file_extension]. *)
Definition validate_file_extension (filename : string)
           (allowed_extensions : list string) : bool * string :=
  match allowed_extensions with
  | [] => (true, EmptyString)
  | _ =>
      let ext := lower (snd (splitext filename)) in
      if truthy ext && mem (slice_from 1 ext) allowed_extensions
      then (true, EmptyString)
      else (false,
            "File type not allowed. Allowed types: "
              ++ join ", " allowed_extensions)
  end.

End UtilsMore.

(** ** database.py: the users *)

Module Users.
Import Py PyLib.

(** The model [User], without its [DateTime] columns. *)
Record User : Type := {
  id : Z;
  username : option string;
  first_name : option string;
  last_name : option string;
  language_code : option string;
  files_uploaded : Z;
  total_size_uploaded : Z;
  is_banned : bool;
  is_premium : bool;
  notification_enabled : bool;
  show_file_info : bool;
  custom_caption : option string
}.

(** The property [full_name]. *)
Definition full_name (self : User) : string :=
  let parts : list string := [] in
  let parts :=
    if truthy_opt (first_name self)
    then (parts ++ [match first_name self with
                    | Some n => n
                    | None => EmptyString
                    end])%list
    else parts in
  let parts :=
    if truthy_opt (last_name self)
    then (parts ++ [match last_name self with
                    | Some n => n
                    | None => EmptyString
                    end])%list
    else parts in
  let joined := join " " parts in
  if truthy joined then joined else "Anonymous".

(** The keyword arguments that [start_handler] passes to
    [get_or_create_user]: the four are always given, [None] for what the
    platform does not tell. *)
Record Kwargs : Type := {
  kw_username : option string;
  kw_first_name : option string;
  kw_last_name : option string;
  kw_language_code : option string
}.

(** The users as the session sees them, and whether its next query or
    commit raises. *)
Record Session : Type := {
  users : list User;
  query_raises : option exn;
  commit_raises : option exn
}.

Definition with_users (us : list User) (s : Session) : Session :=
  {| users := us; query_raises := query_raises s;
     commit_raises := commit_raises s |}.

(** [session.query(User).filter_by(id=user_id).first()]. *)
Definition first_by_id (user_id : Z) (us : list User) : option User :=
  find (fun u => id u =? user_id) us.

(** [value if value is not None else old]: what the loop over the keyword
    arguments leaves in an attribute. *)
Definition assigned (value old : option string) : option string :=
  match value with
  | Some v => Some v
  | None => old
  end.

(** The loop [for key, value in kwargs.items()] on an existing user. *)
Definition update_info (kwargs : Kwargs) (u : User) : User :=
  {| id := id u;
     username := assigned (kw_username kwargs) (username u);
     first_name := assigned (kw_first_name kwargs) (first_name u);
     last_name := assigned (kw_last_name kwargs) (last_name u);
     language_code := assigned (kw_language_code kwargs) (language_code u);
     files_uploaded := files_uploaded u;
     total_size_uploaded := total_size_uploaded u;
     is_banned := is_banned u;
     is_premium := is_premium u;
     notification_enabled := notification_enabled u;
     show_file_info := show_file_info u;
     custom_caption := custom_caption u |}.

(** The users after the first one with this id has been changed in
    place. *)
Fixpoint update_first (user_id : Z) (kwargs : Kwargs) (us : list User)
  : list User :=
  match us with
  | [] => []
  | u :: rest =>
      if id u =? user_id then update_info kwargs u :: rest
      else u :: update_first user_id kwargs rest
  end.

(** The session after a commit that raised: the users are those before
    the change, and the session refuses every further query until
    [session.rollback()] is called. *)
Definition rolled_back (s : Session) : Session :=
  {| users := users s;
     query_raises := Some (SQLAlchemyError "PendingRollbackError");
     commit_raises := commit_raises s |}.

(** [get_or_create_user(session, user_id, **kwargs)].  [new_user] is the
    constructor [User(id=user_id, **kwargs)] together with the column
    defaults that the insert fills in. *)
Definition get_or_create_user (new_user : Z -> Kwargs -> User)
           (session : Session) (user_id : Z) (kwargs : Kwargs)
  : outcome User * Session :=
  match query_raises session with
  | Some e => (Raise e, session)
  | None =>
      match first_by_id user_id (users session) with
      | None =>
          let user := new_user user_id kwargs in
          match commit_raises session with
          | Some e => (Raise e, rolled_back session)
          | None =>
              (Ret user, with_users (users session ++ [user]) session)
          end
      | Some user =>
          match commit_raises session with
          | Some e => (Raise e, rolled_back session)
          | None =>
              (Ret (update_info kwargs user),
               with_users (update_first user_id kwargs (users session))
                          session)
          end
      end
  end.

End Users.

(** ** server.py: the short links and the thumbnails *)

Module ServerMore.
Import Py Server.

(** What [short_link_handler] returns: a plain response, or the page of
    lines 345 to 440 filled in with a row and the hash of the link. *)
Inductive ShortLinkResponse : Type :=
| Plain (r : Response)
| FilePage (file_stat : Database.FileStats) (file_hash : string).

(** [get_hash(msg)] for what [get_messages] returned: of [None] every
    attribute read with a default is [None], so there is no media. *)
Definition get_hash_of (msg : option Utils.Message) : string :=
  match msg with
  | Some m => Utils.get_hash m
  | None => EmptyString
  end.

(** The loop of [short_link_handler] over the rows: the first row whose
    message has the hash of the link. *)
Fixpoint find_by_hash (sc : Scope) (w : World) (file_hash : string)
         (rows : list Database.FileStats) : M (option Database.FileStats) :=
  match rows with
  | [] => ret None
  | fs :: rest =>
      msg <- bot_get_messages w (BIN_CHANNEL w) (Database.message_id fs) ;;
      lookup sc "get_hash" ;;;
      if String.eqb (get_hash_of msg) file_hash
      then ret (Some fs)
      else find_by_hash sc w file_hash rest
  end.

(** [short_link_handler], for the path segment [file_hash]. *)
Definition short_link_handler (sc : Scope) (w : World) (file_hash : string)
  : M ShortLinkResponse :=
  lookup sc "FileStats" ;;;
  rows <- (fun st =>
             match Database.query_raises (db_session st) with
             | Some e => (Raise e, st)
             | None => (Ret (Database.rows (db_session st)), st)
             end) ;;
  file_stat <- find_by_hash sc w file_hash rows ;;
  match file_stat with
  | None => lookup sc "web" ;;; ret (Plain (Text "File not found" 404))
  | Some fs =>
      lookup sc "get_readable_file_size" ;;;
      lookup sc "web" ;;;
      ret (FilePage fs file_hash)
  end.

(** The free names of [short_link_handler] that are not built in. *)
Definition short_link_names : list string :=
  [ "FileStats"; "get_hash"; "get_readable_file_size"; "web" ].

Definition resolves_short_link (sc : Scope) : bool :=
  forallb (fun name => existsb (String.eqb name) (names sc)) short_link_names.

(** The hash of the message that the platform returns for a row. *)
Definition hash_of_row (w : World) (fs : Database.FileStats) : string :=
  get_hash_of
    match get_messages w (BIN_CHANNEL w) (Database.message_id fs) with
    | Ret msg => msg
    | Raise _ => None
    end.

(** The fetch of the message of a row. *)
Definition fetch_of (w : World) (fs : Database.FileStats) : event :=
  GetMessages (BIN_CHANNEL w) (Database.message_id fs).

(** The rows that a scan for [file_hash] goes through: those before the
    first row whose message has that hash, and that row. *)
Fixpoint scanned (w : World) (file_hash : string)
         (rows : list Database.FileStats) : list Database.FileStats :=
  match rows with
  | [] => []
  | fs :: rest =>
      fs :: (if String.eqb (hash_of_row w fs) file_hash then []
             else scanned w file_hash rest)
  end.

(** What [thumbnail_handler] returns: the image with status 200, or a
    plain response. *)
Inductive ThumbnailResponse : Type :=
| Image (body : bytes)
| NoImage (r : Response).

(** The platform and the file system as [thumbnail_handler] uses them:
    [download_media] returns the path of the file it wrote, or [None];
    reading the file and removing it may raise. *)
Record Files : Type := {
  download_media : string -> string -> outcome (option string);
  read_file : string -> outcome bytes;
  os_remove : string -> outcome unit
}.

Inductive io_event : Type :=
| Fetched (chat_id message_id : Z)
| Downloaded (file_id file_name : string)
| Opened (path : string)
| Removed (path : string)
| Logged (e : exn).

(** The body of the [try] block of [thumbnail_handler]: the image, or
    [None] when the message has no photo and the block falls through. *)
Definition thumbnail_try (w : World) (fs : Files) (message_id : Z)
  : outcome (option bytes) * list io_event :=
  let tr := [Fetched (BIN_CHANNEL w) message_id] in
  match get_messages w (BIN_CHANNEL w) message_id with
  | Raise e => (Raise e, tr)
  | Ret None => (Raise (AttributeError "photo"), tr)
  | Ret (Some message) =>
      match Utils.photo message with
      | None => (Ret None, tr)
      | Some photo =>
          let file_name := "thumb_" ++ str message_id ++ ".jpg" in
          let tr := (tr ++ [Downloaded (Utils.file_id photo) file_name])%list in
          match download_media fs (Utils.file_id photo) file_name with
          | Raise e => (Raise e, tr)
          | Ret None => (Raise TypeError, tr)
          | Ret (Some thumb_path) =>
              let tr := (tr ++ [Opened thumb_path])%list in
              match read_file fs thumb_path with
              | Raise e => (Raise e, tr)
              | Ret data =>
                  let tr := (tr ++ [Removed thumb_path])%list in
                  match os_remove fs thumb_path with
                  | Raise e => (Raise e, tr)
                  | Ret _ => (Ret (Some data), tr)
                  end
              end
          end
      end
  end.

(** [thumbnail_handler], for the path segment [path_id]. *)
Definition thumbnail_handler (w : World) (fs : Files) (path_id : string)
  : outcome ThumbnailResponse * list io_event :=
  match int path_id with
  | Raise e => (Raise e, [])
  | Ret message_id =>
      match thumbnail_try w fs message_id with
      | (Ret (Some data), tr) => (Ret (Image data), tr)
      | (Ret None, tr) => (Ret (NoImage (Text "No thumbnail" 404)), tr)
      | (Raise e, tr) =>
          if is_Exception e
          then (Ret (NoImage (Text "No thumbnail" 404)), (tr ++ [Logged e])%list)
          else (Raise e, tr)
      end
  end.

End ServerMore.

(** ** More of the deployment, for the examples *)

Module Album.
Import Py Server ServerMore.

(** A picture stored as message 124 of the channel. *)
Definition cover : Utils.Media :=
  {| Utils.file_id := "AgACAgIAAxkBAAIBaW";
     Utils.file_unique_id := "AQADs6cxG2";
     Utils.file_size := Utils.Holds (Some 512);
     Utils.mime_type := Utils.Absent |}.

Definition picture : Utils.Message :=
  {| Utils.media := Some {| Utils.media_file_id := None |};
     Utils.document := None;
     Utils.video := None;
     Utils.audio := None;
     Utils.animation := None;
     Utils.voice := None;
     Utils.video_note := None;
     Utils.photo := Some cover;
     Utils.sticker := None |}.

Definition picture_token : string := Eval vm_compute in Utils.get_hash picture.

(** The channel of [Fixture.world] with the picture as message 124. *)
Definition world : World :=
  {| BIN_CHANNEL := BIN_CHANNEL Fixture.world;
     get_messages := fun chat_id message_id =>
       if (chat_id =? BIN_CHANNEL Fixture.world) && (message_id =? 124)
       then Ret (Some picture)
       else get_messages Fixture.world chat_id message_id;
     stream_media := stream_media Fixture.world;
     write_raises := write_raises Fixture.world;
     guess_type := guess_type Fixture.world;
     utcnow := utcnow Fixture.world |}.

Definition picture_row : Database.FileStats :=
  {| Database.file_id := "AgACAgIAAxkBAAIBaW";
     Database.message_id := 124;
     Database.user_id := 42;
     Database.file_name := Some "photo_AQADs6cxG2.jpg";
     Database.file_size := 512;
     Database.file_type := "photo";
     Database.mime_type := None;
     Database.views := 0;
     Database.downloads := 0;
     Database.last_accessed := None |}.

(** A row whose message is no longer in the channel. *)
Definition lost_row : Database.FileStats :=
  {| Database.file_id := "BAACAgIAAxkBAAIBZ0";
     Database.message_id := 99;
     Database.user_id := 42;
     Database.file_name := Some "gone.bin";
     Database.file_size := 1;
     Database.file_type := "document";
     Database.mime_type := None;
     Database.views := 0;
     Database.downloads := 0;
     Database.last_accessed := None |}.

Definition state : State :=
  {| db_session := {| Database.rows := [Fixture.row; picture_row];
                      Database.query_raises := None;
                      Database.commit_raises := None |};
     trace := [] |}.

Definition state_lost : State :=
  {| db_session := {| Database.rows := [Fixture.row; lost_row; picture_row];
                      Database.query_raises := None;
                      Database.commit_raises := None |};
     trace := [] |}.

(** A file system on which the download lands in [downloads/], and one
    where that directory is on a network mount whose connection drops
    when the file is read. *)
Definition files : Files :=
  {| download_media := fun _ file_name => Ret (Some ("downloads/" ++ file_name));
     read_file := fun _ => Ret "JFIF";
     os_remove := fun _ => Ret tt |}.

Definition files_unreadable : Files :=
  {| download_media := download_media files;
     read_file := fun _ => Raise ConnectionResetError;
     os_remove := os_remove files |}.

(** The constructor [User(id=user_id, **kwargs)] with the defaults of the
    columns that are not given. *)
Definition new_user (user_id : Z) (kwargs : Users.Kwargs) : Users.User :=
  {| Users.id := user_id;
     Users.username := Users.kw_username kwargs;
     Users.first_name := Users.kw_first_name kwargs;
     Users.last_name := Users.kw_last_name kwargs;
     Users.language_code := Users.kw_language_code kwargs;
     Users.files_uploaded := 0;
     Users.total_size_uploaded := 0;
     Users.is_banned := false;
     Users.is_premium := false;
     Users.notification_enabled := true;
     Users.show_file_info := true;
     Users.custom_caption := None |}.

(** What [start_handler] passes for a user with a first name only. *)
Definition ada : Users.Kwargs :=
  {| Users.kw_username := None;
     Users.kw_first_name := Some "Ada";
     Users.kw_last_name := None;
     Users.kw_language_code := Some "en" |}.

(** A stored user, banned, who has since changed the user name. *)
Definition stored : Users.User :=
  {| Users.id := 42;
     Users.username := Some "old_name";
     Users.first_name := Some "Ada";
     Users.last_name := Some "L";
     Users.language_code := Some "en";
     Users.files_uploaded := 3;
     Users.total_size_uploaded := 3000;
     Users.is_banned := true;
     Users.is_premium := false;
     Users.notification_enabled := true;
     Users.show_file_info := true;
     Users.custom_caption := None |}.

(** A path segment of 4301 digits. *)
Definition long_id : string :=
  String.concat EmptyString (List.repeat "9" 4301).

Definition session : Users.Session :=
  {| Users.users := [stored];
     Users.query_raises := None;
     Users.commit_raises := None |}.

End Album.

(** * Properties *)

Import Py.

(** ** The primitives on known values *)

Example md5_empty :
  Hashlib.md5_hexdigest (encode EmptyString)
  = "d41d8cd98f00b204e9800998ecf8427e".
Proof. vm_compute. reflexivity. Qed.

Example md5_abc :
  Hashlib.md5_hexdigest (encode "abc") = "900150983cd24fb0d6963f7d28e17f72".
Proof. vm_compute. reflexivity. Qed.

Example md5_two_blocks :
  Hashlib.md5_hexdigest
    (encode ("1234567890123456789012345678901234567890"
               ++ "1234567890123456789012345678901234567890"))
  = "57edf4a22be3c955ac49da2e2107b67a".
Proof. vm_compute. reflexivity. Qed.

Example token_of_fixture : Utils.get_hash Fixture.message = "a99942cc8a5a".
Proof. vm_compute. reflexivity. Qed.

Example replace_all_occurrences :
  replace "bytes=" EmptyString "bybytes=tes=5-bytes=7" = "bytes=5-7".
Proof. reflexivity. Qed.

Example split_examples :
  split "-" EmptyString = [EmptyString] /\
  split "-" "abc" = ["abc"] /\
  split "-" "a-b-" = ["a"; "b"; EmptyString].
Proof. repeat split. Qed.

Example int_examples :
  int " 1_0 " = Ret 10 /\ int "+20" = Ret 20 /\ int "-0" = Ret 0 /\
  int "007" = Ret 7 /\ int "1__0" = Raise ValueError /\
  int "- 1" = Raise ValueError /\ int EmptyString = Raise ValueError /\
  int "abc" = Raise ValueError.
Proof. repeat split. Qed.

Example str_examples :
  str 0 = "0" /\ str 1000 = "1000" /\ str (-1000) = "-1000".
Proof. repeat split. Qed.

Example parse_range_examples :
  Server._parse_range "bytes=abc" 1000 = (0, 999) /\
  Server._parse_range "bytes=2000-3000" 1000 = (2000, 999) /\
  Server._parse_range "bytes=-500" 1000 = (0, 500) /\
  Server._parse_range "bytes=5--3" 1000 = (0, 999).
Proof. repeat split. Qed.

(** ** Strings and numbers *)

Section Strings.

Lemma all_chars_app (p : ascii -> bool) (a b : string) :
  all_chars p (a ++ b) = all_chars p a && all_chars p b.
Proof.
  induction a as [|c a IH]; simpl; [reflexivity|].
  now rewrite IH, andb_assoc.
Qed.

Lemma all_chars_impl (p q : ascii -> bool) (s : string) :
  (forall c, p c = true -> q c = true) ->
  all_chars p s = true -> all_chars q s = true.
Proof.
  intros Hpq. induction s as [|c s IH]; simpl; [reflexivity|].
  intros H. apply andb_true_iff in H as [Hc Hs].
  now rewrite (Hpq _ Hc), IH.
Qed.

Lemma digit_not (c d : ascii) :
  is_digit d = false -> is_digit c = true -> Ascii.eqb c d = false.
Proof.
  intros Hd Hc. destruct (Ascii.eqb_spec c d) as [->|]; congruence.
Qed.

Lemma digit_char (n : Z) :
  0 <= n < 10 ->
  let c := ascii_of_nat (Z.to_nat (48 + n)) in
  is_digit c = true /\ digit_value c = n.
Proof.
  intros Hn c. unfold is_digit, digit_value, c.
  rewrite nat_ascii_embedding by lia.
  split; [apply andb_true_iff; split; apply Nat.leb_le; lia | lia].
Qed.

Lemma decimal_all_digits (fuel : nat) :
  forall n acc, 0 <= n -> all_chars is_digit acc = true ->
                all_chars is_digit (decimal fuel n acc) = true.
Proof.
  assert (Hstep : forall n acc, all_chars is_digit acc = true ->
            all_chars is_digit
              (String (ascii_of_nat (Z.to_nat (48 + n mod 10))) acc) = true).
  { intros n acc Hacc. cbn [all_chars].
    rewrite (proj1 (digit_char (n mod 10) (Z.mod_pos_bound n 10 eq_refl))).
    exact Hacc. }
  induction fuel as [|f IH]; intros n acc Hn Hacc; cbn [decimal].
  - now apply Hstep.
  - destruct (n <? 10); [now apply Hstep|].
    apply IH; [apply Z.div_pos; lia | now apply Hstep].
Qed.

Lemma decimal_truthy (fuel : nat) :
  forall n acc, truthy (decimal fuel n acc) = true.
Proof.
  induction fuel as [|f IH]; intros n acc; simpl; [reflexivity|].
  destruct (n <? 10); [reflexivity | apply IH].
Qed.

Lemma digits_digit (a : Z) (flag : bool) (n : Z) (r : string) :
  0 <= n < 10 ->
  digits a flag (String (ascii_of_nat (Z.to_nat (48 + n))) r)
  = digits (10 * a + n) true r.
Proof.
  intros Hn. destruct (digit_char n Hn) as [Hd Hv].
  cbn [digits]. now rewrite Hd, Hv.
Qed.

(** Reading back what [decimal] printed in front of [acc]. *)
Lemma digits_decimal (fuel : nat) :
  forall n acc, 0 <= n < 10 ^ Z.of_nat (S fuel) ->
  exists k, 0 < k /\
    forall a flag, digits a flag (decimal fuel n acc) = digits (a * 10 ^ k + n) true acc.
Proof.
  induction fuel as [|f IH]; intros n acc Hn.
  - exists 1. split; [lia|]. intros a flag. cbn [decimal].
    change (10 ^ Z.of_nat 1) with 10 in Hn.
    rewrite Z.mod_small, digits_digit by lia. f_equal. lia.
  - cbn [decimal]. destruct (Z.ltb_spec n 10) as [Hlt|Hge].
    + exists 1. split; [lia|]. intros a flag.
      rewrite Z.mod_small, digits_digit by lia. f_equal. lia.
    + destruct (IH (n / 10)
                   (String (ascii_of_nat (Z.to_nat (48 + n mod 10))) acc))
        as [k [Hk Hd]].
      { split; [apply Z.div_pos; lia|].
        apply Z.div_lt_upper_bound; [lia|].
        replace (Z.of_nat (S (S f))) with (Z.of_nat (S f) + 1) in Hn by lia.
        rewrite Z.pow_add_r in Hn by lia. lia. }
      exists (k + 1). split; [lia|]. intros a flag.
      rewrite Hd, digits_digit by (apply Z.mod_pos_bound; lia).
      f_equal. rewrite Z.pow_add_r by lia.
      pose proof (Z.div_mod n 10 ltac:(lia)). lia.
Qed.

Lemma log2_fuel (n : Z) : 0 <= n -> n < 10 ^ Z.of_nat (S (Z.to_nat (Z.log2 n))).
Proof.
  intros Hn.
  assert (Hl : 0 <= Z.log2 n) by apply Z.log2_nonneg.
  replace (Z.of_nat (S (Z.to_nat (Z.log2 n)))) with (Z.succ (Z.log2 n)) by lia.
  destruct (Z.eq_dec n 0) as [->|Hnz]; [reflexivity|].
  apply Z.lt_le_trans with (2 ^ Z.succ (Z.log2 n)).
  - apply Z.log2_spec. lia.
  - apply Z.pow_le_mono_l. lia.
Qed.

Lemma str_nonneg (n : Z) :
  0 <= n -> str n = decimal (Z.to_nat (Z.log2 n)) n EmptyString.
Proof.
  intros Hn. unfold str. destruct (Z.ltb_spec n 0); [lia | reflexivity].
Qed.

Lemma str_all_digits (n : Z) : 0 <= n -> all_chars is_digit (str n) = true.
Proof.
  intros Hn. rewrite str_nonneg by assumption.
  now apply decimal_all_digits.
Qed.

Lemma str_truthy (n : Z) : truthy (str n) = true.
Proof.
  unfold str. destruct (n <? 0); [reflexivity | apply decimal_truthy].
Qed.

Lemma lstrip_no_space (s : string) :
  all_chars (fun c => negb (is_space c)) s = true -> lstrip s = s.
Proof.
  destruct s as [|c s]; simpl; [reflexivity|].
  intros H. apply andb_true_iff in H as [Hc _].
  apply negb_true_iff in Hc. now rewrite Hc.
Qed.

Lemma rstrip_no_space (s : string) :
  all_chars (fun c => negb (is_space c)) s = true -> rstrip s = s.
Proof.
  induction s as [|c s IH]; simpl; [reflexivity|].
  intros H. apply andb_true_iff in H as [Hc Hs].
  apply negb_true_iff in Hc. rewrite (IH Hs), Hc.
  now destruct s.
Qed.

Lemma digit_no_space (c : ascii) : is_digit c = true -> negb (is_space c) = true.
Proof.
  unfold is_digit, is_space. intros H.
  apply andb_true_iff in H as [H1 H2].
  apply Nat.leb_le in H1. apply Nat.leb_le in H2.
  apply negb_true_iff.
  repeat (apply orb_false_iff; split);
    try apply andb_false_iff; try (apply Nat.eqb_neq; lia).
  right. apply Nat.leb_gt. lia.
Qed.

(** [int] on a literal made of digits only. *)
Lemma int_of_digits (s : string) (n : Z) :
  all_chars is_digit s = true ->
  digits 0 false s = Some n ->
  int s = if max_str_digits <? count_digits s then Raise ValueError
          else Ret n.
Proof.
  intros Hd Hbody. unfold int, strip.
  rewrite lstrip_no_space, rstrip_no_space
    by (eapply all_chars_impl; [apply digit_no_space | exact Hd]).
  assert (Hm : match s with
               | String "-" r0 => option_map Z.opp (digits 0 false r0)
               | String "+" r0 => digits 0 false r0
               | _ => digits 0 false s
               end = digits 0 false s).
  { destruct s as [|c r]; [reflexivity|].
    cbn [all_chars] in Hd. apply andb_true_iff in Hd as [Hc _].
    assert (H1 : Ascii.eqb c "-" = false) by now apply digit_not.
    assert (H2 : Ascii.eqb c "+" = false) by now apply digit_not.
    clear - H1 H2.
    destruct c as [[] [] [] [] [] [] [] []]; try reflexivity; discriminate. }
  rewrite Hm, Hbody. reflexivity.
Qed.

Lemma digits_str (n : Z) : 0 <= n -> digits 0 false (str n) = Some n.
Proof.
  intros Hn. rewrite str_nonneg by assumption.
  destruct (digits_decimal (Z.to_nat (Z.log2 n)) n EmptyString) as [k [_ Hk]].
  { split; [assumption | now apply log2_fuel]. }
  rewrite Hk. reflexivity.
Qed.

Lemma count_digits_digit (n : Z) (acc : string) :
  count_digits (String (ascii_of_nat (Z.to_nat (48 + n mod 10))) acc)
  = 1 + count_digits acc.
Proof.
  cbn [count_digits].
  now rewrite (proj1 (digit_char (n mod 10) (Z.mod_pos_bound n 10 eq_refl))).
Qed.

(** A number below [10 ^ k] is printed with at most [k] digits. *)
Lemma decimal_count (fuel : nat) :
  forall n acc k, 0 <= n -> 1 <= k -> n < 10 ^ k ->
    count_digits (decimal fuel n acc) <= k + count_digits acc.
Proof.
  induction fuel as [|f IH]; intros n acc k Hn Hk Hlt; cbn [decimal].
  - rewrite count_digits_digit. lia.
  - destruct (Z.ltb_spec n 10) as [Hs|Hge].
    + rewrite count_digits_digit. lia.
    + assert (Hk2 : 2 <= k).
      { destruct (Z.eq_dec k 1) as [->|]; [|lia].
        change (10 ^ 1) with 10 in Hlt. lia. }
      specialize (IH (n / 10)
                     (String (ascii_of_nat (Z.to_nat (48 + n mod 10))) acc)
                     (k - 1)).
      rewrite count_digits_digit in IH.
      assert (Hdiv : n / 10 < 10 ^ (k - 1)).
      { apply Z.div_lt_upper_bound; [lia|].
        replace k with (1 + (k - 1)) in Hlt by lia.
        rewrite Z.pow_add_r in Hlt by lia.
        change (10 ^ 1) with 10 in Hlt. exact Hlt. }
      assert (Hpos : 0 <= n / 10) by (apply Z.div_pos; lia).
      specialize (IH Hpos ltac:(lia) Hdiv). lia.
Qed.

Lemma str_count (n k : Z) :
  0 <= n -> 1 <= k -> n < 10 ^ k -> count_digits (str n) <= k.
Proof.
  intros Hn Hk Hlt. rewrite str_nonneg by assumption.
  pose proof (decimal_count (Z.to_nat (Z.log2 n)) n EmptyString k Hn Hk Hlt)
    as H.
  cbn [count_digits] in H. lia.
Qed.

(** [int] reads back what [str] prints, for a number that is not negative
    and has at most [max_str_digits] digits; and it raises on a number
    that [int] does not read back. *)
Lemma int_str_cases (n : Z) :
  0 <= n ->
  int (str n) = Ret n \/
  10 ^ max_str_digits <= n /\ int (str n) = Raise ValueError.
Proof.
  intros Hn.
  rewrite (int_of_digits (str n) n (str_all_digits n Hn) (digits_str n Hn)).
  destruct (Z.ltb_spec max_str_digits (count_digits (str n))) as [Hlong|Hok];
    [right | now left].
  split; [|reflexivity].
  destruct (Z.lt_ge_cases n (10 ^ max_str_digits)) as [Hlt|Hge];
    [|exact Hge].
  pose proof (str_count n max_str_digits Hn ltac:(unfold max_str_digits; lia)
                Hlt).
  lia.
Qed.

Lemma int_str (n : Z) :
  0 <= n -> n < 10 ^ max_str_digits -> int (str n) = Ret n.
Proof.
  intros Hn Hlt. destruct (int_str_cases n Hn) as [H | [Hge _]];
    [exact H | lia].
Qed.

End Strings.

(** ** The range parser *)

Section RangeParser.
Import Server.

Lemma replace_unchanged (old' new : string) (s : string) :
  all_chars (fun c => negb (Ascii.eqb c "b")) s = true ->
  replace_from 0 (String "b" old') new s = s.
Proof.
  induction s as [|c s IH]; cbn [replace_from all_chars]; [reflexivity|].
  intros H. apply andb_true_iff in H as [Hc Hs].
  apply negb_true_iff in Hc. cbn [prefix].
  destruct (ascii_dec "b" c) as [<-|_]; [discriminate|].
  now rewrite IH.
Qed.

Lemma prefix_app (old s : string) : prefix old (old ++ s) = true.
Proof.
  induction old as [|c old IH]; cbn [append prefix].
  - now destruct s.
  - destruct (ascii_dec c c); [exact IH | congruence].
Qed.

Lemma replace_skip (old new : string) (a s : string) :
  replace_from (String.length a) old new (a ++ s) = replace_from 0 old new s.
Proof.
  induction a as [|c a IH]; cbn [String.length append replace_from];
    [reflexivity | exact IH].
Qed.

Lemma replace_bytes (s : string) :
  all_chars (fun c => negb (Ascii.eqb c "b")) s = true ->
  replace "bytes=" EmptyString ("bytes=" ++ s) = s.
Proof.
  intros H. unfold replace.
  change ("bytes=" ++ s) with (String "b" ("ytes=" ++ s)) at 1.
  cbn [replace_from].
  change (String "b" ("ytes=" ++ s)) with ("bytes=" ++ s).
  rewrite prefix_app.
  change (Nat.pred (String.length "bytes=")) with (String.length "ytes=").
  rewrite replace_skip. cbn [append].
  now apply replace_unchanged.
Qed.

Lemma split_no_sep (sep : ascii) (s : string) :
  all_chars (fun c => negb (Ascii.eqb c sep)) s = true -> split sep s = [s].
Proof.
  induction s as [|c s IH]; cbn [split all_chars]; [reflexivity|].
  intros H. apply andb_true_iff in H as [Hc Hs].
  apply negb_true_iff in Hc. now rewrite Hc, IH.
Qed.

Lemma split_at_sep (sep : ascii) (a b : string) :
  all_chars (fun c => negb (Ascii.eqb c sep)) a = true ->
  split sep (a ++ String sep b) = a :: split sep b.
Proof.
  induction a as [|c a IH]; cbn [split all_chars append].
  - intros _. now rewrite Ascii.eqb_refl.
  - intros H. apply andb_true_iff in H as [Hc Hs].
    apply negb_true_iff in Hc. now rewrite Hc, IH.
Qed.

Lemma digits_without (d : ascii) (s : string) :
  is_digit d = false ->
  all_chars is_digit s = true ->
  all_chars (fun c => negb (Ascii.eqb c d)) s = true.
Proof.
  intros Hd. apply all_chars_impl. intros c Hc.
  apply negb_true_iff. now apply digit_not.
Qed.

(** A header [bytes=<a>-<b>] with both numbers written out, neither
    longer than [int] reads. *)
Lemma parse_range_closed (a b file_size : Z) :
  0 <= a < 10 ^ max_str_digits -> 0 <= b < 10 ^ max_str_digits ->
  _parse_range ("bytes=" ++ str a ++ "-" ++ str b) file_size
  = (a, Z.min b (file_size - 1)).
Proof.
  intros [Ha Ha'] [Hb Hb']. unfold _parse_range, _parse_range_try.
  pose proof (str_all_digits a Ha) as Da.
  pose proof (str_all_digits b Hb) as Db.
  rewrite replace_bytes.
  2:{ rewrite !all_chars_app. cbn [all_chars].
      rewrite !(digits_without "b") by (assumption || reflexivity).
      reflexivity. }
  change (str a ++ "-" ++ str b) with (str a ++ String "-" (str b)).
  rewrite split_at_sep, split_no_sep
    by (apply digits_without; [reflexivity | assumption]).
  rewrite !str_truthy, !int_str by assumption.
  now rewrite Z.max_r.
Qed.

(** A header [bytes=<a>-] with the end left open. *)
Lemma parse_range_open (a file_size : Z) :
  0 <= a < 10 ^ max_str_digits ->
  _parse_range ("bytes=" ++ str a ++ "-") file_size = (a, file_size - 1).
Proof.
  intros [Ha Ha']. unfold _parse_range, _parse_range_try.
  pose proof (str_all_digits a Ha) as Da.
  rewrite replace_bytes.
  2:{ rewrite !all_chars_app. cbn [all_chars].
      rewrite !(digits_without "b") by (assumption || reflexivity).
      reflexivity. }
  change (str a ++ "-") with (str a ++ String "-" EmptyString).
  rewrite split_at_sep
    by (apply digits_without; [reflexivity | assumption]).
  cbn [split truthy].
  rewrite str_truthy, int_str by assumption.
  now rewrite Z.max_r, Z.min_id.
Qed.

(** The end of the interval is never beyond the last byte. *)
Lemma parse_range_end_le (range_header : string) (file_size : Z) :
  snd (_parse_range range_header file_size) <= file_size - 1.
Proof.
  unfold _parse_range, _parse_range_try.
  destruct (split "-" (replace "bytes=" EmptyString range_header))
    as [|x [|y [|z l]]]; cbn [snd]; try lia.
  destruct (if truthy x then int x else Ret 0); cbn [snd]; try lia.
  destruct (if truthy y then int y else Ret (file_size - 1)); cbn [snd]; lia.
Qed.

(** A header whose two parts read as integers. *)
Lemma parse_range_parts (range_header x y : string) (a b file_size : Z) :
  split "-" (replace "bytes=" EmptyString range_header) = [x; y] ->
  (if truthy x then int x else Ret 0) = Ret a ->
  truthy y = true ->
  int y = Ret b ->
  _parse_range range_header file_size = (Z.max 0 a, Z.min b (file_size - 1)).
Proof.
  intros Hs Hx Hy Hb. unfold _parse_range, _parse_range_try.
  now rewrite Hs, Hx, Hy, Hb.
Qed.

(** C8: [bytes=0-99] on a file of 1000 bytes gives the interval 0..99;
    [bytes=900-] gives 900..999; in general, for numbers that [int] reads
    (at most 4300 digits), an open end is the last byte of the file, an end
    at or beyond the size of the file is clamped to [file_size - 1], and
    an end below it is kept.  The clamp does not depend on how the numbers
    are written: for every header whose two parts read as integers, an end
    at or beyond the size gives [file_size - 1], and no header at all,
    readable or not, gives an end beyond that. *)
Theorem C8_parse_range_intervals_and_clamp :
  _parse_range "bytes=0-99" 1000 = (0, 99) /\
  _parse_range "bytes=900-" 1000 = (900, 999) /\
  (forall a b file_size : Z,
    0 <= a < 10 ^ max_str_digits -> 0 <= b < 10 ^ max_str_digits ->
    _parse_range ("bytes=" ++ str a ++ "-") file_size = (a, file_size - 1) /\
    (file_size <= b ->
     _parse_range ("bytes=" ++ str a ++ "-" ++ str b) file_size
     = (a, file_size - 1)) /\
    (b < file_size ->
     _parse_range ("bytes=" ++ str a ++ "-" ++ str b) file_size = (a, b))) /\
  (forall (range_header x y : string) (a b file_size : Z),
    split "-" (replace "bytes=" EmptyString range_header) = [x; y] ->
    (if truthy x then int x else Ret 0) = Ret a ->
    truthy y = true ->
    int y = Ret b ->
    file_size <= b ->
    _parse_range range_header file_size = (Z.max 0 a, file_size - 1)) /\
  (forall (range_header : string) (file_size : Z),
    snd (_parse_range range_header file_size) <= file_size - 1).
Proof.
  split; [reflexivity|]. split; [reflexivity|]. split; [|split].
  - intros a b file_size Ha Hb. split; [now apply parse_range_open|].
    split; intros H; rewrite parse_range_closed by assumption; f_equal; lia.
  - intros range_header x y a b file_size Hs Hx Hy Hb Hle.
    rewrite (parse_range_parts _ _ _ _ _ _ Hs Hx Hy Hb). f_equal. lia.
  - apply parse_range_end_le.
Qed.

End RangeParser.

(** ** The integrity token *)

Section Token.
Import Hashlib.

Lemma hex_length (bs : list Z) :
  String.length (hex bs) = (2 * List.length bs)%nat.
Proof.
  induction bs as [|b bs IH]; cbn [hex String.length List.length]; lia.
Qed.

Lemma md5_length (msg : list Z) : List.length (md5 msg) = 16%nat.
Proof.
  unfold md5.
  destruct (blocks _ _ _) as [[[a b] c] d]. reflexivity.
Qed.

Lemma md5_hexdigest_length (msg : list Z) :
  String.length (md5_hexdigest msg) = 32%nat.
Proof.
  unfold md5_hexdigest. now rewrite hex_length, md5_length.
Qed.

Lemma hex_digit_is_hex (n : Z) : is_hex (hex_digit n) = true.
Proof.
  unfold hex_digit, is_hex.
  apply existsb_exists. exists (nth (Z.to_nat n) (list_ascii_of_string "0123456789abcdef") "0"%char).
  split; [|apply Ascii.eqb_refl].
  destruct (nth_in_or_default (Z.to_nat n)
              (list_ascii_of_string "0123456789abcdef") "0"%char) as [H| ->].
  - exact H.
  - now left.
Qed.

Lemma hex_all_hex (bs : list Z) : all_chars is_hex (hex bs) = true.
Proof.
  induction bs as [|b bs IH]; cbn [hex all_chars]; [reflexivity|].
  now rewrite !hex_digit_is_hex, IH.
Qed.

Lemma slice_to_length (n : nat) :
  forall s, (n <= String.length s)%nat -> String.length (slice_to n s) = n.
Proof.
  induction n as [|n IH]; intros [|c s] H; cbn [slice_to String.length] in *;
    try reflexivity; try lia.
  rewrite IH; lia.
Qed.

Lemma slice_to_all (p : ascii -> bool) (n : nat) :
  forall s, all_chars p s = true -> all_chars p (slice_to n s) = true.
Proof.
  induction n as [|n IH]; intros [|c s] H; cbn [slice_to all_chars] in *;
    try reflexivity.
  apply andb_true_iff in H as [Hc Hs]. now rewrite Hc, IH.
Qed.

Lemma slice_to_prefix (n : nat) :
  forall s, prefix (slice_to n s) s = true.
Proof.
  induction n as [|n IH]; intros [|c s]; cbn [slice_to prefix];
    try reflexivity.
  destruct (ascii_dec c c); [apply IH | congruence].
Qed.

(** C9: the token of a message that carries media is the first 12
    characters of the MD5 hex digest of the UTF-8 bytes of the
    [file_unique_id]: 12 lowercase hexadecimal digits, a prefix of the 32 of
    the digest.  It depends on the [file_unique_id] only, so computing it
    again, from this message or from another one with the same id, gives the
    same token, and the comparison that [_serve_file] makes between the
    computed token and a hash equal to it does not reject. *)
Theorem C9_get_hash_prefix_of_md5 :
  forall (message : Utils.Message) (m : Utils.Media),
    Utils.get_media_from_message message = Some m ->
    let digest := md5_hexdigest (encode (Utils.file_unique_id m)) in
    let token := Utils.get_hash message in
    token = slice_to 12 digest /\
    String.length digest = 32%nat /\
    String.length token = 12%nat /\
    all_chars is_hex token = true /\
    prefix token digest = true /\
    negb (String.eqb (Utils.get_hash message) token) = false /\
    forall (message' : Utils.Message) (m' : Utils.Media),
      Utils.get_media_from_message message' = Some m' ->
      Utils.file_unique_id m' = Utils.file_unique_id m ->
      Utils.get_hash message' = token.
Proof.
  intros message m Hm digest token.
  assert (Ht : token = slice_to 12 digest).
  { unfold token, Utils.get_hash. now rewrite Hm. }
  assert (Hd : String.length digest = 32%nat) by apply md5_hexdigest_length.
  split; [exact Ht|]. split; [exact Hd|]. rewrite Ht.
  split; [apply slice_to_length; lia|].
  split; [apply slice_to_all, hex_all_hex|].
  split; [apply slice_to_prefix|].
  split.
  - fold token. rewrite Ht, String.eqb_refl. reflexivity.
  - intros message' m' Hm' Hid. unfold Utils.get_hash.
    rewrite Hm', Hid. reflexivity.
Qed.

End Token.

(** ** Running the stateful code *)

Section Running.
Import Server.

Lemma quiet_ret {A : Type} (a : A) : quiet (ret a).
Proof. intros st. reflexivity. Qed.

Lemma quiet_raise {A : Type} (e : exn) : quiet (@raise A e).
Proof. intros st. reflexivity. Qed.

Lemma quiet_lift {A : Type} (o : outcome A) : quiet (lift o).
Proof. intros st. reflexivity. Qed.

Lemma quiet_lookup (sc : Scope) (name : string) : quiet (lookup sc name).
Proof. intros st. unfold lookup. now destruct (existsb _ _). Qed.

Lemma quiet_lookup_request (sc : Scope) : quiet (lookup_request sc).
Proof. intros st. unfold lookup_request. now destruct (request sc). Qed.

Lemma quiet_bind {A B : Type} (c : M A) (k : A -> M B) :
  quiet c -> (forall a, quiet (k a)) -> quiet (bind c k).
Proof.
  intros Hc Hk st. unfold bind. specialize (Hc st).
  destruct (c st) as [[a|e] st']; cbn [snd] in Hc; subst st'.
  - apply Hk.
  - reflexivity.
Qed.

(** To show [Q] of a computation that starts with a quiet step, show it of
    the exception that the step may raise and of what follows the step. *)
Lemma bind_quiet {A B : Type} (c : M A) (k : A -> M B)
      (Q : outcome B * State -> Prop) (st : State) :
  quiet c ->
  (forall e, Q (Raise e, st)) ->
  (forall a, Q (k a st)) ->
  Q (bind c k st).
Proof.
  intros Hc He Hk. unfold bind. specialize (Hc st).
  destruct (c st) as [[a|e] st']; cbn [snd] in Hc; subst st'; auto.
Qed.

Lemma bind_ret {A B : Type} (a : A) (k : A -> M B) (st : State) :
  bind (ret a) k st = k a st.
Proof. reflexivity. Qed.

Lemma bind_lift_Ret {A B : Type} (a : A) (k : A -> M B) (st : State) :
  bind (lift (Ret a)) k st = k a st.
Proof. reflexivity. Qed.

Lemma bind_emit {B : Type} (e : event) (k : unit -> M B) (st : State) :
  bind (emit e) k st
  = k tt {| db_session := db_session st; trace := trace st ++ [e] |}.
Proof. reflexivity. Qed.

Lemma bind_assoc {A B C : Type} (c : M A) (f : A -> M B) (k : B -> M C)
      (st : State) :
  bind (bind c f) k st = bind c (fun a => bind (f a) k) st.
Proof.
  unfold bind. destruct (c st) as [[a|e] st']; reflexivity.
Qed.

Lemma bind_get_messages {B : Type} (w : World) (c m : Z)
      (k : option Utils.Message -> M B) (st : State) :
  bind (bot_get_messages w c m) k st
  = let st1 := {| db_session := db_session st;
                  trace := trace st ++ [GetMessages c m] |} in
    match get_messages w c m with
    | Ret a => k a st1
    | Raise e => (Raise e, st1)
    end.
Proof.
  unfold bind, bot_get_messages, emit, lift. cbn.
  now destruct (get_messages w c m).
Qed.

Lemma lookup_cases (sc : Scope) (name : string) (st : State) :
  lookup sc name st = (Ret tt, st) \/
  lookup sc name st = (Raise (NameError name), st).
Proof. unfold lookup. destruct (existsb _ _); [left | right]; reflexivity. Qed.

Lemma bind_lookup_ok {B : Type} (sc : Scope) (name : string)
      (k : unit -> M B) (st : State) :
  resolves sc = true -> In name free_names ->
  bind (lookup sc name) k st = k tt st.
Proof.
  unfold resolves, bind, lookup. intros H Hin.
  rewrite forallb_forall in H. now rewrite (H _ Hin).
Qed.

(** The streaming loop writes the chunks that [delivered] lists and ends
    as it says. *)
Lemma stream_loop_delivered (w : World) (finish : option exn)
      (chunks : list bytes) :
  forall k st,
    stream_loop w k chunks finish st
    = (match snd (delivered w k chunks finish) with
       | None => Ret tt
       | Some e => Raise e
       end,
       {| db_session := db_session st;
          trace := trace st ++ map Write (fst (delivered w k chunks finish)) |}).
Proof.
  induction chunks as [|c chunks IH]; intros k st;
    cbn [stream_loop delivered].
  - cbn [fst snd map]. rewrite app_nil_r.
    destruct finish; destruct st; reflexivity.
  - unfold bind, response_write.
    destruct (write_raises w k) as [e|].
    + cbn [fst snd map]. rewrite app_nil_r. destruct st; reflexivity.
    + unfold emit. rewrite IH.
      destruct (delivered w (S k) chunks finish) as [sent ending].
      cbn [fst snd map db_session trace]. now rewrite <- app_assoc.
Qed.

(** What the [except] clauses do in a scope where the names resolve. *)
Lemma except_clauses_resolved (sc : Scope) (e : exn) (st : State) :
  resolves sc = true ->
  except_clauses sc e st
  = if is_MessageNotFound e then (Ret (Text "File not found" 404), st)
    else if is_Exception e
    then (Ret (Text "Internal server error" 500),
          {| db_session := db_session st; trace := trace st ++ [LogError e] |})
    else (Raise e, st).
Proof.
  intros H. unfold except_clauses.
  rewrite bind_lookup_ok by (assumption || (cbn; tauto)).
  destruct (is_MessageNotFound e).
  - now rewrite bind_lookup_ok by (assumption || (cbn; tauto)).
  - destruct (is_Exception e); [|reflexivity].
    rewrite bind_emit.
    now rewrite bind_lookup_ok by (assumption || (cbn; tauto)).
Qed.

(** In any scope they leave the session alone and log at most once. *)
Lemma except_clauses_log (sc : Scope) (e : exn) (st : State) :
  exists log, is_log log /\
    snd (except_clauses sc e st)
    = {| db_session := db_session st; trace := trace st ++ log |}.
Proof.
  assert (Hnil : st = {| db_session := db_session st; trace := trace st ++ [] |}).
  { rewrite app_nil_r. now destruct st. }
  unfold except_clauses, bind.
  destruct (lookup_cases sc "MessageNotFound" st) as [-> | ->];
    [| exists []; split; [now left | exact Hnil]].
  destruct (is_MessageNotFound e).
  - exists []. split; [now left|].
    destruct (lookup_cases sc "web" st) as [-> | ->]; exact Hnil.
  - destruct (is_Exception e).
    + exists [LogError e]. split; [right; now exists e|].
      unfold emit.
      match goal with |- context [lookup ?s ?n ?x] =>
        destruct (lookup_cases s n x) as [-> | ->] end; reflexivity.
    + exists []. split; [now left | exact Hnil].
Qed.

End Running.

(** Tactics for a computation that starts with quiet steps. *)
Ltac quiet_tac :=
  repeat first
    [ apply quiet_ret | apply quiet_raise | apply quiet_lift
    | apply quiet_lookup | apply quiet_lookup_request
    | apply quiet_bind; [|intros ?]
    | match goal with
      | |- Server.quiet (if ?b then _ else _) => destruct b
      | |- Server.quiet (match ?x with _ => _ end) => destruct x
      end ].

Ltac peel :=
  match goal with
  | |- context [@Server.bind ?A ?B ?c ?k ?s] =>
      pattern (@Server.bind A B c k s); apply bind_quiet;
      [ solve [quiet_tac] | intros ? | intros ? ]
  end.

(** ** The head of the response *)

Section Head.
Import Server.

Lemma get_set_same (k v : string) (hs : headers_t) :
  get_header k (set_header k v hs) = Some v.
Proof.
  unfold get_header.
  induction hs as [|[k' v'] hs IH]; cbn [set_header find fst].
  - now rewrite String.eqb_refl.
  - destruct (String.eqb k' k) eqn:E; cbn [find fst].
    + now rewrite String.eqb_refl.
    + now rewrite E.
Qed.

Lemma get_set_other (k k' v : string) (hs : headers_t) :
  k <> k' -> get_header k (set_header k' v hs) = get_header k hs.
Proof.
  intros Hne. unfold get_header.
  assert (Hk : String.eqb k' k = false)
    by (apply String.eqb_neq; congruence).
  induction hs as [|[k0 v0] hs IH]; cbn [set_header find fst].
  - now rewrite Hk.
  - destruct (String.eqb k0 k') eqn:E; cbn [find fst].
    + apply String.eqb_eq in E. subst k0. now rewrite Hk.
    + destruct (String.eqb k0 k); [reflexivity | exact IH].
Qed.


(** A head that is returned is the one of a request without a [Range]
    header, or with an empty one. *)
Lemma response_head_returns (mode fn mime : string) (size : option Z)
      (range : option string) (status : Z) (hdrs : headers_t) (a b : Z) :
  response_head mode fn mime size range = Ret (status, hdrs, a, b) ->
  status = 200 /\ truthy_opt range = false /\
  get_header "Content-Range" hdrs = None /\
  exists n, size = Some n /\ a = 0 /\ b = n - 1.
Proof.
  unfold response_head. destruct size as [n|]; [|discriminate].
  destruct range as [h|]; cbn [truthy_opt].
  - destruct (truthy h).
    + destruct (_parse_range h n). discriminate.
    + intros H. injection H as <- <- <- <-.
      split; [reflexivity|]. split; [reflexivity|].
      split; [now destruct (String.eqb mode "download")|].
      now exists n.
  - intros H. injection H as <- <- <- <-.
    split; [reflexivity|]. split; [reflexivity|].
    split; [now destruct (String.eqb mode "download")|].
    now exists n.
Qed.

End Head.

(** ** What [_serve_file] returns *)

Section Returns.
Import Server.

Variables (sc : Scope) (mode fn : string).

Ltac leaf :=
  let Hr := fresh "Hr" in
  solve [ cbv beta; intros ? Hr; unfold ret, raise, bind in Hr;
          cbn [fst] in Hr; first
            [ discriminate
            | injection Hr as <-; unfold answers; tauto ] ].

Lemma except_clauses_returns (e : exn) (st : State) :
  forall r, fst (except_clauses sc e st) = Ret r -> answers sc mode fn r.
Proof.
  unfold except_clauses.
  peel; [leaf|].
  destruct (is_MessageNotFound e); [peel; leaf|].
  destruct (is_Exception e); [|leaf].
  rewrite bind_emit. peel; leaf.
Qed.

Lemma serve_try_returns (w : World) (mid : Z) (h : string) (st : State) :
  forall r, fst (_serve_file_try sc w mid fn h mode st) = Ret r ->
            answers sc mode fn r.
Proof.
  unfold _serve_file_try. rewrite bind_get_messages. cbv zeta.
  destruct (get_messages w (BIN_CHANNEL w) mid) as [[message|]|e];
    [ | peel; leaf | leaf ].
  destruct (Utils.media message) as [mm|]; [ | peel; leaf ].
  peel; [leaf|].
  destruct (negb _); [ peel; leaf | ].
  do 2 (peel; [leaf|]).
  unfold bind at 1.
  destruct (await_update_file_stats _ _ _ _) as [[[]|e] st2]; [|leaf].
  do 3 (peel; [leaf|]).
  unfold lookup_request.
  destruct (request sc) as [req|] eqn:Hreq; [rewrite bind_ret | leaf].
  unfold bind at 1, lift.
  destruct (response_head _ _ _ _ _) as [[[[status hdrs] x] y]|e] eqn:Hhead;
    [|leaf].
  rewrite !bind_emit.
  destruct (stream_media w message x (y - x + 1)) as [chunks finish].
  unfold bind. rewrite stream_loop_delivered.
  destruct (snd (delivered _ _ _ _)); [leaf|].
  intros r0 Hr. unfold ret in Hr. cbn [fst] in Hr. injection Hr as <-.
  destruct (response_head_returns _ _ _ _ _ _ _ _ _ Hhead) as (-> & _).
  right. right. right.
  do 6 eexists. split; [exact Hreq|]. split; [exact Hhead | reflexivity].
Qed.

Lemma serve_file_returns (w : World) (mid : Z) (h : string) (st : State) :
  forall r, fst (_serve_file sc w mid fn h mode st) = Ret r ->
            answers sc mode fn r.
Proof.
  unfold _serve_file.
  pose proof (serve_try_returns w mid h st) as Htry.
  destruct (_serve_file_try sc w mid fn h mode st) as [[r|e] st'].
  - exact Htry.
  - apply except_clauses_returns.
Qed.

End Returns.

Section Statuses.
Import Server.

Lemma answers_status (sc : Scope) (mode fn : string) (r : Response) :
  answers sc mode fn r -> In (status_of r) [200; 403; 404; 500].
Proof.
  intros [-> | [-> | [-> | (req & mime & size & hdrs & a & b & _ & _ & ->)]]];
    cbn; tauto.
Qed.

(** [_serve_file] answers 200, 403, 404 or 500, and nothing else. *)
Lemma serve_file_status (sc : Scope) (w : World) (mid : Z)
      (fn h mode : string) (st : State) :
  known_status (_serve_file sc w mid fn h mode st).
Proof.
  intros r Hr. apply (answers_status sc mode fn).
  exact (serve_file_returns sc mode fn w mid h st r Hr).
Qed.

End Statuses.

(** * The claims *)

Import Server Fixture.

Ltac conjuncts := repeat match goal with |- _ /\ _ => split end.

(** C1 (the code departs from the claim): the request
    [/watch/123/movie.mp4?hash=<token>] with the right token and no [Range]
    header is answered with 500 and nothing is streamed, because
    [_serve_file] reads the unbound name [get_hash].  Binding the names
    does not serve the file either: the argument [message.media.file_id]
    of the stats update raises [AttributeError], the answer is 500 again,
    the stats update is not called and no byte is sent.  And the handler
    passes the action ["stream"], which [update_file_stats] counts as
    nothing: the views stay at 0, where the action ["view"] counts one. *)
Theorem C1_correct_hash_is_500_and_view_not_counted :
  let req := get "123" (Some token) None in
  Utils.get_hash message = token /\
  stream_handler server_scope world req state
  = (Ret (Text "Internal server error" 500),
     {| db_session := db_session state;
        trace := [GetMessages (-1001234567890) 123;
                  LogError (NameError "get_hash")] |}) /\
  stream_handler (resolved req) world req state
  = (Ret (Text "Internal server error" 500),
     {| db_session := db_session state;
        trace := [GetMessages (-1001234567890) 123;
                  LogError (AttributeError "file_id")] |}) /\
  map Database.views
      (Database.rows
         (snd (Database.update_file_stats 1730000000 (db_session state)
                                          "BAACAgIAAxkBAAIBZ2" "stream")))
  = [0] /\
  map Database.views
      (Database.rows
         (snd (Database.update_file_stats 1730000000 (db_session state)
                                          "BAACAgIAAxkBAAIBZ2" "view")))
  = [1].
Proof.
  cbv zeta. conjuncts; vm_compute; reflexivity.
Qed.

(** C2: a request to [/watch/...] or [/dl/...] that supplies a hash, and
    whose message exists and carries media, is always answered with 500
    "Internal server error".  Neither [get_hash] nor [request] is bound in
    the scope of [_serve_file]; reading [get_hash] raises [NameError] right
    after the fetch, the catch-all clause logs it, and nothing else
    happens: no stats update, no byte sent. *)
Theorem C2_serve_file_always_500 :
  forall (w : World) (req : Request) (st : State) (mid : Z) (hash : string)
         (message : Utils.Message) (mm : Utils.MediaAttr),
    int (match_info_message_id req) = Ret mid ->
    query_hash req = Some hash ->
    truthy hash = true ->
    get_messages w (BIN_CHANNEL w) mid = Ret (Some message) ->
    Utils.media message = Some mm ->
    let fetched :=
      {| db_session := db_session st;
         trace := trace st ++ [GetMessages (BIN_CHANNEL w) mid] |} in
    let failed :=
      {| db_session := db_session st;
         trace := trace st ++ [GetMessages (BIN_CHANNEL w) mid;
                               LogError (NameError "get_hash")] |} in
    ~ In "get_hash" (names server_scope) /\
    ~ In "request" (names server_scope) /\
    request server_scope = None /\
    (forall mode,
        _serve_file_try server_scope w mid (match_info_filename req) hash
                        mode st
        = (Raise (NameError "get_hash"), fetched)) /\
    stream_handler server_scope w req st
    = (Ret (Text "Internal server error" 500), failed) /\
    download_handler server_scope w req st
    = (Ret (Text "Internal server error" 500), failed).
Proof.
  intros w req st mid hash message mm Hid Hq Hh Hmsg Hmedia fetched failed.
  assert (Hnot : forall name, existsb (String.eqb name) (names server_scope)
                              = false -> ~ In name (names server_scope)).
  { intros name Hex Hin.
    assert (existsb (String.eqb name) (names server_scope) = true).
    { apply existsb_exists. exists name. split; [exact Hin|].
      apply String.eqb_refl. }
    congruence. }
  assert (Htry : forall mode,
             _serve_file_try server_scope w mid (match_info_filename req)
                             hash mode st
             = (Raise (NameError "get_hash"), fetched)).
  { intros mode. unfold _serve_file_try.
    rewrite bind_get_messages, Hmsg. cbv zeta. rewrite Hmedia. reflexivity. }
  assert (Hserve : forall mode,
             handler mode server_scope w req st
             = (Ret (Text "Internal server error" 500), failed)).
  { intros mode. unfold handler.
    rewrite Hid, bind_lift_Ret, Hq. cbn [truthy_opt]. rewrite Hh. cbn [negb].
    unfold _serve_file. rewrite Htry. unfold failed.
    replace (trace st ++ [GetMessages (BIN_CHANNEL w) mid;
                          LogError (NameError "get_hash")])%list
      with (trace fetched ++ [LogError (NameError "get_hash")])%list
      by (cbn [trace fetched]; now rewrite <- app_assoc).
    reflexivity. }
  split; [now apply Hnot|]. split; [now apply Hnot|].
  split; [reflexivity|]. split; [exact Htry|].
  split; apply Hserve.
Qed.

(** The request for the video of the fixture, with its token. *)
Lemma C2_serve_file_always_500_witness :
  int "123" = Ret 123 /\
  truthy token = true /\
  get_messages world (BIN_CHANNEL world) 123 = Ret (Some message) /\
  stream_handler server_scope world (get "123" (Some token) None) state
  = (Ret (Text "Internal server error" 500),
     {| db_session := db_session state;
        trace := trace state ++ [GetMessages (BIN_CHANNEL world) 123;
                                 LogError (NameError "get_hash")] |}).
Proof.
  split; [reflexivity|]. split; [reflexivity|]. split; [reflexivity|].
  destruct (C2_serve_file_always_500 world (get "123" (Some token) None) state
              123 token message
              {| Utils.media_file_id := None |}
              eq_refl eq_refl eq_refl eq_refl eq_refl)
    as (_ & _ & _ & _ & H & _).
  exact H.
Defined.

(** C7 (the code departs from the claim): the request
    [/watch/123/movie.mp4?hash=wrong], like the one to [/dl/...], is
    answered with 500, not 403: the comparison of the hashes is never
    reached, because reading [get_hash] raises.  No byte is sent and the
    stats update is not called.  With the names bound the answer is 403. *)
Theorem C7_wrong_hash_is_500 :
  let req := get "123" (Some "wrong") None in
  let failed :=
    {| db_session := db_session state;
       trace := [GetMessages (-1001234567890) 123;
                 LogError (NameError "get_hash")] |} in
  Utils.get_hash message <> "wrong" /\
  stream_handler server_scope world req state
  = (Ret (Text "Internal server error" 500), failed) /\
  download_handler server_scope world req state
  = (Ret (Text "Internal server error" 500), failed) /\
  stream_handler (resolved req) world req state
  = (Ret (Text "Invalid hash" 403),
     {| db_session := db_session state;
        trace := [GetMessages (-1001234567890) 123] |}).
Proof.
  cbv zeta.
  assert (Htoken : Utils.get_hash message = token)
    by (vm_compute; reflexivity).
  split; [rewrite Htoken; discriminate|].
  conjuncts; vm_compute; reflexivity.
Qed.

(** C10, as the code has it: a request to [/watch/...] or [/dl/...]
    without the hash parameter changes nothing: no message is fetched and
    the stats store is not touched.  When [int] reads the [message_id]
    segment (an integer literal of at most 4300 digits) the answer is 400
    "Invalid request"; when it does not, the conversion raises before the
    hash is looked at and the handler returns no response. *)
Theorem C10_missing_hash_400_for_integer_id :
  forall (w : World) (req : Request) (st : State),
    query_hash req = None ->
    match int (match_info_message_id req) with
    | Ret _ =>
        stream_handler server_scope w req st
        = (Ret (Text "Invalid request" 400), st) /\
        download_handler server_scope w req st
        = (Ret (Text "Invalid request" 400), st)
    | Raise e =>
        stream_handler server_scope w req st = (Raise e, st) /\
        download_handler server_scope w req st = (Raise e, st)
    end.
Proof.
  intros w req st Hq. unfold stream_handler, download_handler, handler, bind, lift.
  rewrite Hq. destruct (int (match_info_message_id req)); split; reflexivity.
Qed.

(** The request [/watch/123/movie.mp4] without a hash. *)
Lemma C10_missing_hash_400_for_integer_id_witness :
  query_hash (get "123" None None) = None /\
  stream_handler server_scope world (get "123" None None) state
  = (Ret (Text "Invalid request" 400), state).
Proof.
  split; [reflexivity|].
  apply (C10_missing_hash_400_for_integer_id world (get "123" None None)
           state eq_refl).
Defined.

(** The request [/watch/abc/movie.mp4] without a hash: the path matches
    the route, [int('abc')] raises [ValueError], and no response with
    status 400 is returned. *)
Lemma C10_non_integer_id_counterexample :
  let req := get "abc" None None in
  query_hash req = None /\
  stream_handler server_scope world req state = (Raise ValueError, state) /\
  forall r st',
    stream_handler server_scope world req state <> (Ret r, st').
Proof.
  cbv zeta. split; [reflexivity|]. split; [reflexivity|].
  intros r st'. discriminate.
Qed.








(** The header [bytes=2000-3000] on a file of 1000 bytes. *)
Lemma C8_parse_range_intervals_and_clamp_witness :
  0 <= 2000 < 10 ^ max_str_digits /\ 0 <= 3000 < 10 ^ max_str_digits /\
  1000 <= 3000 /\
  _parse_range ("bytes=" ++ str 2000 ++ "-" ++ str 3000) 1000 = (2000, 999).
Proof.
  assert (Ha : 0 <= 2000 < 10 ^ max_str_digits)
    by (split; [lia | vm_compute; reflexivity]).
  assert (Hb : 0 <= 3000 < 10 ^ max_str_digits)
    by (split; [lia | vm_compute; reflexivity]).
  split; [exact Ha|]. split; [exact Hb|]. split; [lia|].
  destruct C8_parse_range_intervals_and_clamp as (_ & _ & H & _).
  apply (H 2000 3000 1000 Ha Hb). lia.
Defined.

(** The token of the video of the fixture. *)
Lemma C9_get_hash_prefix_of_md5_witness :
  Utils.get_media_from_message message = Some movie /\
  Utils.get_hash message
  = slice_to 12 (Hashlib.md5_hexdigest (encode "AgADBAADq6cxG0")) /\
  String.length (Utils.get_hash message) = 12%nat.
Proof.
  split; [reflexivity|].
  destruct (C9_get_hash_prefix_of_md5 message movie eq_refl)
    as (Ht & _ & Hl & _).
  split; [exact Ht | exact Hl].
Defined.

(** * More of the code *)

(** ** utils.py: the media of a message *)

Section MediaOfMessage.
Import Utils UtilsMore.

Lemma first_media_none (types : list (Message -> option Media))
      (message : Message) :
  first_media types message = None <->
  forall f, In f types -> f message = None.
Proof.
  induction types as [|g types IH]; cbn [first_media].
  - split; [intros _ f [] | reflexivity].
  - destruct (g message) as [m|] eqn:Hg.
    + split; [discriminate|]. intros H.
      specialize (H g (or_introl eq_refl)). congruence.
    + rewrite IH. split.
      * intros H f [<- | Hin]; [exact Hg | now apply H].
      * intros H f Hin. apply H. now right.
Qed.

Lemma first_media_some (types : list (Message -> option Media))
      (message : Message) (m : Media) :
  first_media types message = Some m ->
  exists pre f post,
    types = (pre ++ f :: post)%list /\ f message = Some m /\
    forall g, In g pre -> g message = None.
Proof.
  induction types as [|g types IH]; cbn [first_media]; [discriminate|].
  destruct (g message) as [m'|] eqn:Hg.
  - intros H. injection H as <-.
    exists [], g, types. repeat split; [exact Hg | intros ? []].
  - intros H. destruct (IH H) as (pre & f & post & -> & Hf & Hpre).
    exists (g :: pre), f, post. repeat split; [exact Hf|].
    intros g' [<- | Hin]; [exact Hg | now apply Hpre].
Qed.

(** X1: [get_media_from_message] returns [None] exactly when none of the
    eight attributes is set; otherwise it returns the attribute that comes
    first in the order document, video, audio, animation, voice,
    video_note, photo, sticker, all those before it being unset. *)
Theorem X1_get_media_is_first_attribute_set :
  forall message : Message,
    (get_media_from_message message = None <->
     forall f, In f media_types -> f message = None) /\
    (forall m, get_media_from_message message = Some m ->
       exists pre f post,
         media_types = (pre ++ f :: post)%list /\ f message = Some m /\
         forall g, In g pre -> g message = None) /\
    (forall d, document message = Some d ->
       get_media_from_message message = Some d).
Proof.
  intros message. split; [apply first_media_none|].
  split; [apply first_media_some|].
  intros d Hd. unfold get_media_from_message, media_types.
  cbn [first_media]. now rewrite Hd.
Qed.

(** X2: [get_file_type] says "unknown" exactly when
    [get_media_from_message] finds no media, and otherwise it names an
    attribute that the message has. *)
Theorem X2_file_type_unknown_iff_no_media :
  forall message : Message,
    (get_file_type message = "unknown" <->
     get_media_from_message message = None) /\
    (get_file_type message = "document" /\ present (document message) = true
     \/ get_file_type message = "video" /\ present (video message) = true
     \/ get_file_type message = "audio" /\ present (audio message) = true
     \/ get_file_type message = "photo" /\ present (photo message) = true
     \/ get_file_type message = "voice" /\ present (voice message) = true
     \/ get_file_type message = "video_note"
        /\ present (video_note message) = true
     \/ get_file_type message = "sticker" /\ present (sticker message) = true
     \/ get_file_type message = "animation"
        /\ present (animation message) = true
     \/ get_file_type message = "unknown"
        /\ get_media_from_message message = None).
Proof.
  intros message.
  unfold get_file_type, get_media_from_message, media_types.
  cbn [first_media].
  destruct (document message), (video message), (audio message),
    (animation message), (voice message), (video_note message),
    (photo message), (sticker message); cbn [present];
    (split; [split; (discriminate || reflexivity)|]); tauto.
Qed.

(** X3: the two functions read the attributes in different orders (the
    photo before the animation in one, after it in the other), and on a
    message that has one media attribute and no other, as the platform
    delivers them, this makes no difference: [get_media_from_message]
    returns the value of that attribute and [get_file_type] says its
    name. *)
Theorem X3_one_media_attribute_same_answer :
  forall (message : Message) (i : nat) (f : Message -> option Media)
         (name : string) (m : Media),
    nth_error media_types i = Some f ->
    nth_error media_type_names i = Some name ->
    f message = Some m ->
    (forall j g, j <> i -> nth_error media_types j = Some g ->
                 g message = None) ->
    get_media_from_message message = Some m /\
    get_file_type message = name.
Proof.
  intros message i f name m Hf Hname Hm Hothers.
  assert (H0 : 0%nat <> i -> document message = None)
    by (intros H; now apply (Hothers 0%nat)).
  assert (H1 : 1%nat <> i -> video message = None)
    by (intros H; now apply (Hothers 1%nat)).
  assert (H2 : 2%nat <> i -> audio message = None)
    by (intros H; now apply (Hothers 2%nat)).
  assert (H3 : 3%nat <> i -> animation message = None)
    by (intros H; now apply (Hothers 3%nat)).
  assert (H4 : 4%nat <> i -> voice message = None)
    by (intros H; now apply (Hothers 4%nat)).
  assert (H5 : 5%nat <> i -> video_note message = None)
    by (intros H; now apply (Hothers 5%nat)).
  assert (H6 : 6%nat <> i -> photo message = None)
    by (intros H; now apply (Hothers 6%nat)).
  assert (H7 : 7%nat <> i -> sticker message = None)
    by (intros H; now apply (Hothers 7%nat)).
  clear Hothers.
  unfold get_file_type, get_media_from_message, media_types.
  cbn [first_media].
  do 8 (destruct i as [|i];
        [ cbn [nth_error media_types media_type_names] in Hf, Hname;
          injection Hf as <-; injection Hname as <-;
          rewrite ?H0, ?H1, ?H2, ?H3, ?H4, ?H5, ?H6, ?H7, ?Hm
            by discriminate;
          cbn [present]; split; reflexivity |]).
  cbn [nth_error media_types] in Hf. destruct i; discriminate.
Qed.

(** X4: the size that [get_file_size] records at upload is the size that
    [_serve_file] reads from the same message whenever that one is a
    number; it is 0 for a message without media, and also where the
    attribute holds [None], the case in which [_serve_file] has no number
    to compute with. *)
Theorem X4_upload_size_is_serve_size :
  forall message : Message,
    let serve_size :=
      match get_media_from_message message with
      | Some m => getattr (file_size m) (Some 0)
      | None => Some 0
      end in
    (forall n, serve_size = Some n -> get_file_size message = n) /\
    (serve_size = None -> get_file_size message = 0) /\
    (get_media_from_message message = None -> get_file_size message = 0).
Proof.
  intros message serve_size. unfold serve_size, get_file_size.
  destruct (get_media_from_message message) as [m|].
  - destruct (file_size m) as [|[n|]]; cbn [getattr].
    + repeat split; try reflexivity; try discriminate.
      intros n H. now injection H as <-.
    + repeat split; try discriminate.
      intros n' H. injection H as <-.
      destruct (Z.eqb_spec n 0); congruence.
    + repeat split; try reflexivity; discriminate.
  - repeat split; try reflexivity; try discriminate.
    intros n H. now injection H as <-.
Qed.

Lemma X3_one_media_attribute_same_answer_witness :
  get_media_from_message Fixture.message = Some Fixture.movie /\
  get_file_type Fixture.message = "video".
Proof.
  apply (X3_one_media_attribute_same_answer
           Fixture.message 1%nat video "video" Fixture.movie
           eq_refl eq_refl eq_refl).
  intros j g Hj Hg.
  do 8 (destruct j as [|j];
        [ first [ now elim Hj
                | cbn [nth_error media_types] in Hg;
                  injection Hg as <-; reflexivity ] |]).
  cbn [nth_error media_types] in Hg. destruct j; discriminate.
Defined.

End MediaOfMessage.

(** ** utils.py: durations *)

Section Durations.
Import UtilsMore.

Lemma minutes_of_hour (s : Z) : (s mod 3600) / 60 = (s / 60) mod 60.
Proof.
  change 3600 with (60 * 60).
  rewrite Z.rem_mul_r by lia.
  rewrite Z.mul_comm, Z.div_add by lia.
  rewrite Z.div_small by (apply Z.mod_pos_bound; lia). lia.
Qed.

Lemma hours_of_minutes (s : Z) : s / 3600 = (s / 60) / 60.
Proof. change 3600 with (60 * 60). now rewrite Z.div_div by lia. Qed.

(** X5: from one hour on, [format_duration] drops the seconds: two
    durations of at least 3600 seconds in the same minute print the same.
    Below the hour the minutes printed are between 1 and 59 and the seconds
    between 0 and 59, and they add up to the duration. *)
Theorem X5_format_duration_drops_seconds_after_an_hour :
  (forall s s' : Z, 3600 <= s -> 3600 <= s' -> s / 60 = s' / 60 ->
     format_duration s = format_duration s') /\
  (forall s : Z, 60 <= s < 3600 ->
     exists m sec, 1 <= m <= 59 /\ 0 <= sec <= 59 /\ s = 60 * m + sec /\
       format_duration s = str m ++ "m " ++ str sec ++ "s") /\
  (forall s : Z, s < 60 -> format_duration s = str s ++ "s").
Proof.
  split; [|split].
  - intros s s' Hs Hs' Heq. unfold format_duration.
    destruct (Z.ltb_spec s 60); [lia|].
    destruct (Z.ltb_spec s 3600); [lia|].
    destruct (Z.ltb_spec s' 60); [lia|].
    destruct (Z.ltb_spec s' 3600); [lia|].
    cbv zeta. now rewrite !minutes_of_hour, !hours_of_minutes, Heq.
  - intros s Hs. exists (s / 60), (s mod 60).
    pose proof (Z.mod_pos_bound s 60 ltac:(lia)).
    pose proof (Z.div_mod s 60 ltac:(lia)).
    assert (1 <= s / 60) by (apply Z.div_le_lower_bound; lia).
    assert (s / 60 < 60) by (apply Z.div_lt_upper_bound; lia).
    repeat split; try lia.
    unfold format_duration.
    destruct (Z.ltb_spec s 60); [lia|].
    destruct (Z.ltb_spec s 3600); [reflexivity | lia].
  - intros s Hs. unfold format_duration.
    destruct (Z.ltb_spec s 60); [reflexivity | lia].
Qed.

Lemma X5_format_duration_drops_seconds_after_an_hour_witness :
  3600 <= 3600 /\ 3600 <= 3659 /\ 3600 / 60 = 3659 / 60 /\
  format_duration 3600 = format_duration 3659 /\
  format_duration 3659 = "1h 0m".
Proof.
  split; [lia|]. split; [lia|]. split; [reflexivity|].
  split; [|reflexivity].
  apply (proj1 X5_format_duration_drops_seconds_after_an_hour 3600 3659);
    [lia | lia | reflexivity].
Defined.

Lemma append_empty_r (s : string) : s ++ EmptyString = s.
Proof. induction s as [|c s IH]; cbn; [reflexivity | now rewrite IH]. Qed.

Lemma append_assoc_str (a b c : string) : (a ++ b) ++ c = a ++ b ++ c.
Proof. induction a as [|x a IH]; cbn; [reflexivity | now rewrite IH]. Qed.

(** X6: for a number of seconds that is not negative, [get_readable_time]
    prints days, hours, minutes and seconds that add up to the number, with
    hours below 24 and minutes and seconds below 60; a unit that is zero is
    left out, except the seconds, which are always printed. *)
Theorem X6_readable_time_units_add_up :
  forall seconds : Z, 0 <= seconds ->
    exists d h m s,
      0 <= d /\ 0 <= h < 24 /\ 0 <= m < 60 /\ 0 <= s < 60 /\
      seconds = 86400 * d + 3600 * h + 60 * m + s /\
      get_readable_time seconds
      = (if d =? 0 then EmptyString else str d ++ "d ")
          ++ (if h =? 0 then EmptyString else str h ++ "h ")
          ++ (if m =? 0 then EmptyString else str m ++ "m ")
          ++ str s ++ "s".
Proof.
  intros seconds Hs.
  exists (seconds / 86400), ((seconds mod 86400) / 3600),
    (((seconds mod 86400) mod 3600) / 60),
    (((seconds mod 86400) mod 3600) mod 60).
  pose proof (Z.mod_pos_bound seconds 86400 ltac:(lia)) as H1.
  pose proof (Z.div_mod seconds 86400 ltac:(lia)) as E1.
  pose proof (Z.mod_pos_bound (seconds mod 86400) 3600 ltac:(lia)) as H2.
  pose proof (Z.div_mod (seconds mod 86400) 3600 ltac:(lia)) as E2.
  pose proof (Z.mod_pos_bound ((seconds mod 86400) mod 3600) 60 ltac:(lia))
    as H3.
  pose proof (Z.div_mod ((seconds mod 86400) mod 3600) 60 ltac:(lia)) as E3.
  assert (0 <= seconds / 86400) by (apply Z.div_pos; lia).
  assert (0 <= (seconds mod 86400) / 3600 < 24)
    by (split; [apply Z.div_pos; lia | apply Z.div_lt_upper_bound; lia]).
  assert (0 <= ((seconds mod 86400) mod 3600) / 60 < 60)
    by (split; [apply Z.div_pos; lia | apply Z.div_lt_upper_bound; lia]).
  repeat split; try lia.
  unfold get_readable_time. cbv zeta.
  destruct (seconds / 86400 =? 0), ((seconds mod 86400) / 3600 =? 0),
    (((seconds mod 86400) mod 3600) / 60 =? 0);
    cbn [negb append]; now rewrite ?append_assoc_str.
Qed.

Lemma X6_readable_time_units_add_up_witness :
  0 <= 93784 /\
  get_readable_time 93784 = "1d 2h 3m 4s" /\
  exists d h m s,
    0 <= d /\ 0 <= h < 24 /\ 0 <= m < 60 /\ 0 <= s < 60 /\
    93784 = 86400 * d + 3600 * h + 60 * m + s /\
    get_readable_time 93784
    = (if d =? 0 then EmptyString else str d ++ "d ")
        ++ (if h =? 0 then EmptyString else str h ++ "h ")
        ++ (if m =? 0 then EmptyString else str m ++ "m ")
        ++ str s ++ "s".
Proof.
  split; [lia|]. split; [reflexivity|].
  apply (X6_readable_time_units_add_up 93784). lia.
Defined.

End Durations.

(** ** utils.py: the extension of a file name *)

Example splitext_examples :
  PyLib.splitext "a.TXT" = ("a", ".TXT") /\
  PyLib.splitext ".bashrc" = (".bashrc", EmptyString) /\
  PyLib.splitext "..a.b" = ("..a", ".b") /\
  PyLib.splitext "a..b" = ("a.", ".b") /\
  PyLib.splitext "x.tar.gz" = ("x.tar", ".gz") /\
  PyLib.splitext "dir.d/file" = ("dir.d/file", EmptyString) /\
  PyLib.splitext "dir.d/.f" = ("dir.d/.f", EmptyString) /\
  PyLib.splitext "/.x.y" = ("/.x", ".y") /\
  PyLib.splitext "a." = ("a", ".") /\
  PyLib.splitext "..." = ("...", EmptyString) /\
  PyLib.splitext EmptyString = (EmptyString, EmptyString).
Proof. repeat split. Qed.

Section Extensions.
Import PyLib UtilsMore.

Lemma lower_char_idem (c : ascii) : lower_char (lower_char c) = lower_char c.
Proof. destruct c as [[] [] [] [] [] [] [] []]; reflexivity. Qed.

Lemma lower_idem (s : string) : lower (lower s) = lower s.
Proof.
  induction s as [|c s IH]; cbn [lower]; [reflexivity|].
  now rewrite lower_char_idem, IH.
Qed.

Lemma lower_slice_from (n : nat) :
  forall s, slice_from n (lower s) = lower (slice_from n s).
Proof.
  induction n as [|n IH]; intros [|c s]; cbn [slice_from lower];
    try reflexivity.
  apply IH.
Qed.

Lemma mem_In (x : string) (xs : list string) : mem x xs = true <-> In x xs.
Proof.
  unfold mem. rewrite existsb_exists. split.
  - intros [y [Hin Heq]]. apply String.eqb_eq in Heq. now subst.
  - intros Hin. exists x. split; [exact Hin | apply String.eqb_refl].
Qed.

(** X7: the extension of the file name is put in lower case before it is
    looked up, and the entries of the list are not.  So a list that is not
    empty and whose entries all contain a capital letter accepts no file
    name at all; the empty list accepts every file name. *)
Theorem X7_capital_entries_accept_nothing :
  (forall filename : string,
     validate_file_extension filename [] = (true, EmptyString)) /\
  (forall (filename : string) (allowed_extensions : list string),
     allowed_extensions <> [] ->
     (forall e, In e allowed_extensions -> lower e <> e) ->
     fst (validate_file_extension filename allowed_extensions) = false).
Proof.
  split; [reflexivity|].
  intros filename allowed Hne Hcap. unfold validate_file_extension.
  destruct allowed as [|e0 rest]; [congruence|].
  set (ext := lower (snd (splitext filename))).
  destruct (truthy ext && mem (slice_from 1 ext) (e0 :: rest)) eqn:E;
    [|reflexivity].
  exfalso. apply andb_true_iff in E as [_ Hmem].
  apply mem_In in Hmem. apply (Hcap _ Hmem).
  unfold ext. now rewrite lower_slice_from, lower_idem.
Qed.

Lemma X7_capital_entries_accept_nothing_witness :
  ["PDF"] <> [] /\
  (forall e, In e ["PDF"] -> lower e <> e) /\
  fst (validate_file_extension "report.pdf" ["PDF"]) = false /\
  fst (validate_file_extension "report.PDF" ["PDF"]) = false /\
  fst (validate_file_extension "report.PDF" ["pdf"]) = true.
Proof.
  assert (H1 : ["PDF"] <> []) by discriminate.
  assert (H2 : forall e, In e ["PDF"] -> lower e <> e).
  { intros e [<- | []]. discriminate. }
  split; [exact H1|]. split; [exact H2|].
  split; [|split; [|reflexivity]];
    apply (proj2 X7_capital_entries_accept_nothing _ _ H1 H2).
Defined.

Lemma rfind_from_absent (c : ascii) (s : string) :
  forall i last,
    all_chars (fun x => negb (Ascii.eqb x c)) s = true ->
    rfind_from c i s last = last.
Proof.
  induction s as [|x s IH]; intros i last H; cbn [rfind_from all_chars] in *;
    [reflexivity|].
  apply andb_true_iff in H as [Hx Hs]. apply negb_true_iff in Hx.
  rewrite Hx. now apply IH.
Qed.

Lemma rfind_from_app (c : ascii) (a s : string) :
  forall i last,
    all_chars (fun x => negb (Ascii.eqb x c)) a = true ->
    rfind_from c i (a ++ s) last
    = rfind_from c (i + Z.of_nat (String.length a)) s last.
Proof.
  induction a as [|x a IH]; intros i last H;
    cbn [rfind_from all_chars append String.length] in *.
  - f_equal. lia.
  - apply andb_true_iff in H as [Hx Ha]. apply negb_true_iff in Hx.
    rewrite Hx, IH by assumption. f_equal. lia.
Qed.

Lemma slice_to_app (a b : string) : slice_to (String.length a) (a ++ b) = a.
Proof.
  induction a as [|x a IH]; cbn [String.length slice_to append].
  - now destruct b.
  - now rewrite IH.
Qed.

Lemma slice_from_app (a b : string) :
  slice_from (String.length a) (a ++ b) = b.
Proof.
  induction a as [|x a IH]; cbn [String.length slice_from append];
    [now destruct b | exact IH].
Qed.

Lemma plain_without (c : ascii) (s : string) :
  plain_char c = false ->
  all_chars plain_char s = true ->
  all_chars (fun x => negb (Ascii.eqb x c)) s = true.
Proof.
  intros Hc. apply all_chars_impl. intros x Hx.
  apply negb_true_iff. destruct (Ascii.eqb_spec x c) as [->|]; congruence.
Qed.

(** A name and an extension without dots and slashes. *)
Lemma splitext_plain (name ext : string) :
  name <> EmptyString ->
  all_chars plain_char name = true ->
  all_chars plain_char ext = true ->
  splitext (name ++ "." ++ ext) = (name, "." ++ ext).
Proof.
  intros Hne Hn He. unfold splitext, rfind.
  change (name ++ "." ++ ext) with (name ++ String "." ext).
  assert (Hsep : rfind_from "/" 0 (name ++ String "." ext) (-1) = -1).
  { apply rfind_from_absent. rewrite all_chars_app. cbn [all_chars].
    rewrite !(plain_without "/") by (assumption || reflexivity).
    reflexivity. }
  assert (Hdot : rfind_from "." 0 (name ++ String "." ext) (-1)
                 = Z.of_nat (String.length name)).
  { rewrite rfind_from_app by (apply plain_without; [reflexivity | assumption]).
    cbn [rfind_from]. rewrite Ascii.eqb_refl.
    rewrite rfind_from_absent
      by (apply plain_without; [reflexivity | assumption]).
    lia. }
  rewrite Hsep, Hdot.
  destruct name as [|c name]; [congruence|].
  cbn [all_chars] in Hn. apply andb_true_iff in Hn as [Hc _].
  assert (Hcd : Ascii.eqb c "." = false).
  { unfold plain_char in Hc. apply andb_true_iff in Hc as [Hc _].
    now apply negb_true_iff in Hc. }
  destruct (Z.ltb_spec (-1) (Z.of_nat (String.length (String c name))));
    [|lia].
  replace (Z.to_nat (Z.of_nat (String.length (String c name)) - (-1 + 1)))
    with (S (String.length name)) by (cbn [String.length]; lia).
  cbn [skip_dots]. change (-1 + 1) with 0. cbn [Z.to_nat append String.get].
  rewrite Hcd, Nat2Z.id.
  change (String c (name ++ String "." ext))
    with (String c name ++ String "." ext).
  now rewrite slice_to_app, slice_from_app.
Qed.

Lemma splitext_no_dot (name : string) :
  all_chars plain_char name = true ->
  splitext name = (name, EmptyString) /\
  splitext ("." ++ name) = ("." ++ name, EmptyString).
Proof.
  intros Hn. unfold splitext, rfind. cbn [append rfind_from].
  rewrite !rfind_from_absent
    by (apply plain_without; [reflexivity | assumption]).
  split; reflexivity.
Qed.

(** X8: against a list that is not empty, a file name [name.ext] (a name
    and an extension without dots and slashes, the name not empty) is
    accepted exactly when the extension in lower case is in the list; a
    name without a dot, and a name that only starts with a dot, has no
    extension and is refused. *)
Theorem X8_extension_accepted_iff_listed_in_lower_case :
  forall (name ext : string) (allowed_extensions : list string),
    allowed_extensions <> [] ->
    all_chars plain_char name = true ->
    all_chars plain_char ext = true ->
    (name <> EmptyString ->
     fst (validate_file_extension (name ++ "." ++ ext) allowed_extensions)
     = mem (lower ext) allowed_extensions) /\
    fst (validate_file_extension name allowed_extensions) = false /\
    fst (validate_file_extension ("." ++ name) allowed_extensions) = false.
Proof.
  intros name ext allowed Hne Hn He.
  destruct allowed as [|e0 rest]; [congruence|].
  destruct (splitext_no_dot name Hn) as [H1 H2].
  split; [|split].
  - intros Hname. unfold validate_file_extension.
    rewrite splitext_plain by assumption.
    cbn [snd append lower truthy slice_from andb].
    now destruct (mem (lower ext) (e0 :: rest)).
  - unfold validate_file_extension. now rewrite H1.
  - unfold validate_file_extension. now rewrite H2.
Qed.

Lemma X8_extension_accepted_iff_listed_in_lower_case_witness :
  ["mp4"; "mkv"] <> [] /\
  fst (validate_file_extension "movie.MP4" ["mp4"; "mkv"]) = true /\
  fst (validate_file_extension "movie" ["mp4"; "mkv"]) = false /\
  fst (validate_file_extension ".mp4" ["mp4"; "mkv"]) = false.
Proof.
  assert (H : ["mp4"; "mkv"] <> []) by discriminate.
  split; [exact H|].
  destruct (X8_extension_accepted_iff_listed_in_lower_case
              "movie" "MP4" ["mp4"; "mkv"] H eq_refl eq_refl)
    as (H1 & H2 & _).
  destruct (X8_extension_accepted_iff_listed_in_lower_case
              "mp4" "x" ["mp4"; "mkv"] H eq_refl eq_refl)
    as (_ & _ & H3).
  split; [exact (H1 ltac:(discriminate))|]. split; [exact H2 | exact H3].
Defined.

End Extensions.

(** ** database.py: the stats update *)

Section StatsUpdate.
Import Database.

Lemma counted_up_refl (r : FileStats) : counted_up r r.
Proof. unfold counted_up. repeat split; lia. Qed.

Lemma counted_up_touch (action : string) (now : Z) (r : FileStats) :
  counted_up r (touch action now r).
Proof.
  unfold counted_up, touch. cbn.
  destruct (String.eqb action "view"), (String.eqb action "download");
    repeat split; lia.
Qed.

Lemma touch_first_absent (fid action : string) (now : Z)
      (rs : list FileStats) :
  first_by_file_id fid rs = None -> touch_first fid action now rs = rs.
Proof.
  unfold first_by_file_id.
  induction rs as [|r rs IH]; cbn [find touch_first]; [reflexivity|].
  destruct (String.eqb (file_id r) fid); [discriminate|].
  intros H. now rewrite IH.
Qed.

(** The rows that the update leaves, whether it returns or raises: a
    change is kept only when nothing raises. *)
Lemma update_rows (now : Z) (session : Session) (fid action : string) :
  rows (snd (update_file_stats now session fid action))
  = if healthy session then touch_first fid action now (rows session)
    else rows session.
Proof.
  unfold update_file_stats, healthy.
  destruct (query_raises session); [reflexivity|].
  destruct (first_by_file_id fid (rows session)) eqn:Hf.
  - now destruct (commit_raises session).
  - rewrite touch_first_absent by exact Hf.
    now destruct (commit_raises session).
Qed.

Lemma update_healthy (now : Z) (session : Session) (fid action : string) :
  healthy (snd (update_file_stats now session fid action)) = healthy session.
Proof.
  unfold update_file_stats, healthy.
  destruct (query_raises session) eqn:Hq; [cbn [snd]; now rewrite Hq|].
  destruct (first_by_file_id fid (rows session));
    [destruct (commit_raises session) eqn:Hc|];
    cbn [snd with_rows rolled_back query_raises commit_raises];
    rewrite ?Hq, ?Hc; reflexivity.
Qed.

(** X9: for a [file_id] that no row has, [update_file_stats] returns
    without changing anything and without committing: it does not raise
    even on a session whose commit would. *)
Theorem X9_update_of_unknown_file_is_silent :
  forall (now : Z) (session : Session) (fid action : string),
    query_raises session = None ->
    (forall r, In r (rows session) -> file_id r <> fid) ->
    update_file_stats now session fid action = (Py.Ret tt, session).
Proof.
  intros now session fid action Hq Hno. unfold update_file_stats.
  rewrite Hq.
  destruct (first_by_file_id fid (rows session)) as [r|] eqn:Hf;
    [|reflexivity].
  exfalso. unfold first_by_file_id in Hf. apply find_some in Hf as [Hin Heq].
  apply String.eqb_eq in Heq. exact (Hno r Hin Heq).
Qed.

Lemma X9_update_of_unknown_file_is_silent_witness :
  let session :=
    {| rows := [Fixture.row]; query_raises := None;
       commit_raises := Some (Py.SQLAlchemyError "disk full") |} in
  update_file_stats 0 session "no such file" "view" = (Py.Ret tt, session).
Proof.
  intros session.
  apply (X9_update_of_unknown_file_is_silent 0 session "no such file" "view");
    [reflexivity|].
  intros r [<- | []]. discriminate.
Defined.

Lemma touch_first_counted_up (fid action : string) (now : Z)
      (rs : list FileStats) :
  Forall2 (fun r r' => counted_up r r' /\ (file_id r <> fid -> r' = r))
          rs (touch_first fid action now rs).
Proof.
  induction rs as [|r rs IH]; cbn [touch_first]; [constructor|].
  destruct (String.eqb_spec (file_id r) fid) as [Heq|Hne].
  - constructor.
    + split; [apply counted_up_touch | congruence].
    + clear IH. induction rs as [|x rs IHrs]; constructor;
        [split; [apply counted_up_refl | reflexivity] | exact IHrs].
  - constructor; [split; [apply counted_up_refl | reflexivity] | exact IH].
Qed.

(** X10: whatever the [file_id] and the action, and whether it returns or
    raises, [update_file_stats] keeps the rows in number and order; in
    every row the columns that identify and describe the file stay, no
    counter goes down and none goes up by more than one; and a row with
    another [file_id] is not changed at all.  When it raises, no row is
    changed: the change of a commit that failed is rolled back. *)
Theorem X10_update_keeps_rows_and_never_decreases :
  forall (now : Z) (session : Session) (fid action : string),
    let run := update_file_stats now session fid action in
    Forall2 (fun r r' => counted_up r r' /\ (file_id r <> fid -> r' = r))
            (rows session) (rows (snd run)) /\
    List.length (rows (snd run)) = List.length (rows session) /\
    (forall e, fst run = Py.Raise e -> rows (snd run) = rows session).
Proof.
  intros now session fid action run.
  assert (Hsame : forall rs : list FileStats,
             Forall2 (fun r r' => counted_up r r' /\
                                  (file_id r <> fid -> r' = r)) rs rs).
  { induction rs as [|x rs IH]; constructor;
      [split; [apply counted_up_refl | reflexivity] | exact IH]. }
  assert (H : Forall2 (fun r r' => counted_up r r' /\
                                   (file_id r <> fid -> r' = r))
                      (rows session) (rows (snd run))).
  { unfold run. rewrite update_rows.
    destruct (healthy session); [apply touch_first_counted_up | apply Hsame]. }
  split; [exact H|].
  split; [symmetry; exact (Forall2_length H)|].
  unfold run, update_file_stats.
  destruct (query_raises session); [reflexivity|].
  destruct (first_by_file_id fid (rows session)); [|discriminate].
  destruct (commit_raises session); [reflexivity | discriminate].
Qed.

Lemma first_after_touch (fid action : string) (now : Z)
      (rs : list FileStats) (r : FileStats) :
  first_by_file_id fid rs = Some r ->
  first_by_file_id fid (touch_first fid action now rs)
  = Some (touch action now r).
Proof.
  unfold first_by_file_id.
  induction rs as [|x rs IH]; cbn [find touch_first]; [discriminate|].
  destruct (String.eqb (file_id x) fid) eqn:E.
  - intros H. injection H as <-. cbn [find].
    change (file_id (touch action now x)) with (file_id x). now rewrite E.
  - intros H. cbn [find]. rewrite E. now apply IH.
Qed.

(** X11: when the query does not raise and a row has the [file_id], a
    commit that goes through leaves that row with [last_accessed] set, the
    views up by one for the action "view", the downloads up by one for
    "download", and neither counter changed for any other action, "stream"
    among them.  A commit that raises leaves the rows as they were, the
    exception leaves the function, and every later update of the session
    raises at its query. *)
Theorem X11_update_counts_view_and_download_only :
  forall (now : Z) (session : Session) (fid action : string) (r : FileStats),
    query_raises session = None ->
    first_by_file_id fid (rows session) = Some r ->
    let run := update_file_stats now session fid action in
    (commit_raises session = None ->
     fst run = Py.Ret tt /\
     exists r',
       first_by_file_id fid (rows (snd run)) = Some r' /\
       last_accessed r' = Some now /\
       (action = "view" ->
        views r' = views r + 1 /\ downloads r' = downloads r) /\
       (action = "download" ->
        views r' = views r /\ downloads r' = downloads r + 1) /\
       (action <> "view" -> action <> "download" ->
        views r' = views r /\ downloads r' = downloads r)) /\
    (forall e, commit_raises session = Some e ->
       fst run = Py.Raise e /\
       rows (snd run) = rows session /\
       forall now' fid' action',
         update_file_stats now' (snd run) fid' action'
         = (Py.Raise (Py.SQLAlchemyError "PendingRollbackError"), snd run)).
Proof.
  intros now session fid action r Hq Hf run. unfold run, update_file_stats.
  rewrite Hq, Hf. split.
  - intros Hc. rewrite Hc. cbn [fst snd with_rows rows].
    split; [reflexivity|].
    exists (touch action now r).
    split; [now apply first_after_touch|].
    split; [reflexivity|]. unfold touch. cbn [views downloads].
    split; [intros ->; cbn; split; reflexivity|].
    split; [intros ->; cbn; split; reflexivity|].
    intros Hv Hd.
    apply String.eqb_neq in Hv. apply String.eqb_neq in Hd.
    now rewrite Hv, Hd.
  - intros e Hc. rewrite Hc. cbn [fst snd rolled_back rows].
    split; [reflexivity|]. split; [reflexivity|].
    reflexivity.
Qed.

Lemma X11_update_counts_view_and_download_only_witness :
  (exists r',
      first_by_file_id "BAACAgIAAxkBAAIBZ2"
        (rows (snd (update_file_stats 7 (Server.db_session Fixture.state)
                                      "BAACAgIAAxkBAAIBZ2" "stream")))
      = Some r' /\
      views r' = 0 /\ downloads r' = 0 /\ last_accessed r' = Some 7) /\
  update_file_stats 7 Fixture.session_disk_full "BAACAgIAAxkBAAIBZ2" "view"
  = (Py.Raise (Py.SQLAlchemyError "disk full"),
     rolled_back Fixture.session_disk_full) /\
  map views (rows (rolled_back Fixture.session_disk_full)) = [0].
Proof.
  split.
  - destruct (X11_update_counts_view_and_download_only
                7 (Server.db_session Fixture.state) "BAACAgIAAxkBAAIBZ2"
                "stream" Fixture.row eq_refl eq_refl)
      as [Hok _].
    destruct (Hok eq_refl) as (_ & r' & Hf & Hl & _ & _ & Hother).
    exists r'. split; [exact Hf|].
    destruct (Hother ltac:(discriminate) ltac:(discriminate)) as [Hv Hd].
    split; [exact Hv|]. split; [exact Hd | exact Hl].
  - split; reflexivity.
Defined.

Lemma forget_touch_first (fid action : string) (now now' : Z)
      (rs : list FileStats) :
  map forget_time (touch_first fid action now rs)
  = map forget_time (touch_first fid action now' rs).
Proof.
  induction rs as [|r rs IH]; cbn [touch_first]; [reflexivity|].
  destruct (String.eqb (file_id r) fid); cbn [map];
    [reflexivity | now rewrite IH].
Qed.

(** Two updates of different files in either order, each at its own
    time: the rows differ in the times only. *)
Lemma touch_first_comm (f1 a1 f2 a2 : string) (t1 t2 t3 t4 : Z)
      (rs : list FileStats) :
  f1 <> f2 ->
  map forget_time (touch_first f2 a2 t2 (touch_first f1 a1 t1 rs))
  = map forget_time (touch_first f1 a1 t4 (touch_first f2 a2 t3 rs)).
Proof.
  intros Hne. induction rs as [|r rs IH]; cbn [touch_first]; [reflexivity|].
  destruct (String.eqb_spec (file_id r) f1) as [E1|N1];
    destruct (String.eqb_spec (file_id r) f2) as [E2|N2].
  - congruence.
  - cbn [touch_first]. change (file_id (touch a1 t1 r)) with (file_id r).
    destruct (String.eqb_spec (file_id r) f2); [congruence|].
    destruct (String.eqb_spec (file_id r) f1); [|congruence].
    cbn [map]. f_equal. apply forget_touch_first.
  - cbn [touch_first]. change (file_id (touch a2 t3 r)) with (file_id r).
    destruct (String.eqb_spec (file_id r) f1); [congruence|].
    destruct (String.eqb_spec (file_id r) f2); [|congruence].
    cbn [map]. f_equal. apply forget_touch_first.
  - cbn [touch_first].
    destruct (String.eqb_spec (file_id r) f1); [congruence|].
    destruct (String.eqb_spec (file_id r) f2); [congruence|].
    cbn [map]. now rewrite IH.
Qed.

(** X12: on a session whose queries and commits go through, updates for
    two different files can be made in either order: the rows at the end
    are the same in every column but [last_accessed], where each file has
    the time of its own update, which depends on the order. *)
Theorem X12_updates_of_different_files_commute :
  forall (t1 t2 t3 t4 : Z) (session : Session) (f1 a1 f2 a2 : string),
    query_raises session = None ->
    commit_raises session = None ->
    f1 <> f2 ->
    map forget_time
        (rows (snd (update_file_stats t2
                      (snd (update_file_stats t1 session f1 a1)) f2 a2)))
    = map forget_time
          (rows (snd (update_file_stats t4
                        (snd (update_file_stats t3 session f2 a2)) f1 a1))).
Proof.
  intros t1 t2 t3 t4 session f1 a1 f2 a2 Hq Hc Hne.
  rewrite !update_rows, !update_healthy.
  unfold healthy. rewrite Hq, Hc.
  now apply touch_first_comm.
Qed.

Lemma X12_updates_of_different_files_commute_witness :
  let session := Server.db_session Album.state in
  let movie := "BAACAgIAAxkBAAIBZ2" in
  let picture := "AgACAgIAAxkBAAIBaW" in
  let first := rows (snd (update_file_stats 20
                            (snd (update_file_stats 10 session movie "view"))
                            picture "download")) in
  let second := rows (snd (update_file_stats 40
                             (snd (update_file_stats 30 session picture
                                                     "download"))
                             movie "view")) in
  movie <> picture /\
  map forget_time first = map forget_time second /\
  map last_accessed first = [Some 10; Some 20] /\
  map last_accessed second = [Some 40; Some 30].
Proof.
  intros session movie picture first second.
  assert (H : movie <> picture) by discriminate.
  split; [exact H|]. split; [|split; reflexivity].
  apply (X12_updates_of_different_files_commute
           10 20 30 40 session movie "view" picture "download"
           eq_refl eq_refl H).
Defined.

End StatsUpdate.

(** ** database.py: the users *)

Section UsersOfTheBot.
Import Users PyLib.

Lemma truthy_append (a b : string) : truthy a = true -> truthy (a ++ b) = true.
Proof. destruct a; [discriminate | reflexivity]. Qed.

(** X13: [full_name] is never empty.  It is "Anonymous" when neither name
    is set (absent or empty), the one name that is set when the other is
    not, and the first name, a space and the last name when both are. *)
Theorem X13_full_name_is_never_empty :
  forall u : User,
    truthy (full_name u) = true /\
    (truthy_opt (first_name u) = false -> truthy_opt (last_name u) = false ->
     full_name u = "Anonymous") /\
    (forall f, first_name u = Some f -> truthy f = true ->
               truthy_opt (last_name u) = false -> full_name u = f) /\
    (forall l, last_name u = Some l -> truthy l = true ->
               truthy_opt (first_name u) = false -> full_name u = l) /\
    (forall f l, first_name u = Some f -> last_name u = Some l ->
                 truthy f = true -> truthy l = true ->
                 full_name u = f ++ " " ++ l).
Proof.
  intros u. unfold full_name. cbv zeta.
  destruct (first_name u) as [f|], (last_name u) as [l|]; cbn [truthy_opt];
    try destruct (truthy f) eqn:Hf; try destruct (truthy l) eqn:Hl;
    cbn [app join];
    rewrite ?(truthy_append _ _ Hf), ?Hf, ?Hl;
    cbn [truthy];
    (split; [reflexivity|]);
    repeat split; intros; try congruence;
    repeat match goal with
           | H : Some _ = Some _ |- _ => injection H as <-
           end; congruence.
Qed.

Lemma assigned_idem (v old : option string) :
  assigned v (assigned v old) = assigned v old.
Proof. now destruct v. Qed.

Lemma update_info_idem (kw : Kwargs) (u : User) :
  update_info kw (update_info kw u) = update_info kw u.
Proof.
  unfold update_info. cbn. now rewrite !assigned_idem.
Qed.

Lemma first_after_update (uid : Z) (kw : Kwargs) (us : list User) (u : User) :
  first_by_id uid us = Some u ->
  first_by_id uid (update_first uid kw us) = Some (update_info kw u).
Proof.
  unfold first_by_id.
  induction us as [|x us IH]; cbn [find update_first]; [discriminate|].
  destruct (id x =? uid) eqn:E.
  - intros H. injection H as <-. cbn [find].
    change (id (update_info kw x)) with (id x). now rewrite E.
  - intros H. cbn [find]. rewrite E. now apply IH.
Qed.

Lemma first_other_after_update (uid other : Z) (kw : Kwargs)
      (us : list User) :
  other <> uid ->
  first_by_id other (update_first uid kw us) = first_by_id other us.
Proof.
  intros Hne. unfold first_by_id.
  induction us as [|x us IH]; cbn [find update_first]; [reflexivity|].
  destruct (Z.eqb_spec (id x) uid) as [E|N]; cbn [find].
  - change (id (update_info kw x)) with (id x).
    destruct (Z.eqb_spec (id x) other); [congruence | reflexivity].
  - destruct (id x =? other); [reflexivity | exact IH].
Qed.

Lemma update_first_idem (uid : Z) (kw : Kwargs) (us : list User) :
  update_first uid kw (update_first uid kw us) = update_first uid kw us.
Proof.
  induction us as [|x us IH]; cbn [update_first]; [reflexivity|].
  destruct (id x =? uid) eqn:E; cbn [update_first].
  - change (id (update_info kw x)) with (id x).
    now rewrite E, update_info_idem.
  - now rewrite E, IH.
Qed.

Lemma update_first_length (uid : Z) (kw : Kwargs) (us : list User) :
  List.length (update_first uid kw us) = List.length us.
Proof.
  induction us as [|x us IH]; cbn [update_first]; [reflexivity|].
  destruct (id x =? uid); cbn [List.length]; [reflexivity | now rewrite IH].
Qed.

(** X14: for a user who is already stored, [get_or_create_user] creates
    nothing.  It returns the stored user with each argument that is not
    [None] written over the stored value, and an argument that is [None]
    leaves the stored value as it was; the ban and premium flags, the
    counters and the other users are not touched; and a second call with
    the same arguments changes nothing more. *)
Theorem X14_known_user_is_updated_not_created :
  forall (new_user : Z -> Kwargs -> User) (session : Session) (uid : Z)
         (kw : Kwargs) (u : User),
    query_raises session = None ->
    commit_raises session = None ->
    first_by_id uid (users session) = Some u ->
    exists (u' : User) (session' : Session),
      get_or_create_user new_user session uid kw = (Py.Ret u', session') /\
      first_by_id uid (users session') = Some u' /\
      List.length (users session') = List.length (users session) /\
      (forall other, other <> uid ->
         first_by_id other (users session')
         = first_by_id other (users session)) /\
      username u' = assigned (kw_username kw) (username u) /\
      first_name u' = assigned (kw_first_name kw) (first_name u) /\
      last_name u' = assigned (kw_last_name kw) (last_name u) /\
      language_code u' = assigned (kw_language_code kw) (language_code u) /\
      id u' = id u /\ is_banned u' = is_banned u /\
      is_premium u' = is_premium u /\
      files_uploaded u' = files_uploaded u /\
      total_size_uploaded u' = total_size_uploaded u /\
      get_or_create_user new_user session' uid kw = (Py.Ret u', session').
Proof.
  intros new_user session uid kw u Hq Hc Hf.
  exists (update_info kw u),
    (with_users (update_first uid kw (users session)) session).
  split; [unfold get_or_create_user; now rewrite Hq, Hf, Hc|].
  cbn [users with_users].
  split; [now apply first_after_update|].
  split; [apply update_first_length|].
  split; [intros other Hne; now apply first_other_after_update|].
  do 9 (split; [reflexivity|]).
  unfold get_or_create_user. cbn [with_users query_raises commit_raises users].
  rewrite Hq, Hc, (first_after_update _ _ _ _ Hf).
  now rewrite update_info_idem, update_first_idem.
Qed.

Lemma find_app_none {A : Type} (p : A -> bool) (xs ys : list A) :
  find p xs = None -> find p (xs ++ ys) = find p ys.
Proof.
  induction xs as [|x xs IH]; cbn [find app]; [reflexivity|].
  destruct (p x); [discriminate | exact IH].
Qed.

Lemma find_app_some {A : Type} (p : A -> bool) (xs ys : list A) (x : A) :
  find p xs = Some x -> find p (xs ++ ys) = Some x.
Proof.
  induction xs as [|y xs IH]; cbn [find app]; [discriminate|].
  destruct (p y); [tauto | exact IH].
Qed.

(** X15: for a user who is not stored yet, [get_or_create_user] adds one
    user, the one the constructor makes, after the others, and returns it.
    If the constructor gives it the id it was asked for, a query for the id
    finds it afterwards, the users stored before are found as before, and a
    second call adds no second user. *)
Theorem X15_unknown_user_is_created_once :
  forall (new_user : Z -> Kwargs -> User) (session : Session) (uid : Z)
         (kw : Kwargs),
    query_raises session = None ->
    commit_raises session = None ->
    first_by_id uid (users session) = None ->
    id (new_user uid kw) = uid ->
    let created := new_user uid kw in
    let session' := with_users (users session ++ [created]) session in
    get_or_create_user new_user session uid kw = (Py.Ret created, session') /\
    first_by_id uid (users session') = Some created /\
    (forall other u, first_by_id other (users session) = Some u ->
       first_by_id other (users session') = Some u) /\
    List.length
      (users (snd (get_or_create_user new_user session' uid kw)))
    = S (List.length (users session)).
Proof.
  intros new_user session uid kw Hq Hc Hf Hid created session'.
  assert (Hfound : first_by_id uid (users session') = Some created).
  { unfold first_by_id in *. cbn [users session' with_users].
    rewrite find_app_none by assumption. cbn [find].
    fold created in Hid. rewrite Hid, Z.eqb_refl. reflexivity. }
  split; [unfold get_or_create_user; now rewrite Hq, Hf, Hc|].
  split; [exact Hfound|].
  split.
  - intros other u Hu. unfold first_by_id in *. cbn [users session' with_users].
    now apply find_app_some.
  - unfold get_or_create_user.
    cbn [query_raises commit_raises session' with_users].
    rewrite Hq, Hc. fold session'. rewrite Hfound.
    cbn [snd users with_users]. rewrite update_first_length.
    unfold session'. cbn [users with_users].
    rewrite length_app. cbn [List.length]. lia.
Qed.

Lemma X14_known_user_is_updated_not_created_witness :
  exists (u' : User) (session' : Session),
    get_or_create_user Album.new_user Album.session 42 Album.ada
    = (Py.Ret u', session') /\
    username u' = Some "old_name" /\ last_name u' = Some "L" /\
    is_banned u' = true /\
    List.length (users session') = 1%nat.
Proof.
  destruct (X14_known_user_is_updated_not_created
              Album.new_user Album.session 42 Album.ada Album.stored
              eq_refl eq_refl eq_refl)
    as (u' & session' & Hrun & _ & Hlen & _ & Hu & _ & Hl & _ & _ & Hb & _).
  exists u', session'.
  split; [exact Hrun|]. split; [exact Hu|]. split; [exact Hl|].
  split; [exact Hb | exact Hlen].
Defined.

Lemma X15_unknown_user_is_created_once_witness :
  let created := Album.new_user 7 Album.ada in
  get_or_create_user Album.new_user Album.session 7 Album.ada
  = (Py.Ret created,
     with_users [Album.stored; created] Album.session) /\
  full_name created = "Ada" /\
  List.length
    (users (snd (get_or_create_user
                   Album.new_user
                   (with_users [Album.stored; created] Album.session)
                   7 Album.ada)))
  = 2%nat.
Proof.
  intros created.
  destruct (X15_unknown_user_is_created_once
              Album.new_user Album.session 7 Album.ada
              eq_refl eq_refl eq_refl eq_refl)
    as (Hrun & _ & _ & Hlen).
  split; [exact Hrun|]. split; [reflexivity | exact Hlen].
Defined.

End UsersOfTheBot.

(** ** server.py: what the server does as it is written *)

Section AsWritten.
Import Server.

(** [_serve_file] in the scope of server.py as written, case by case. *)
Lemma serve_file_as_written :
  forall (w : World) (mid : Z) (fn h mode : string) (st : State),
    let fetched :=
      {| db_session := db_session st;
         trace := trace st ++ [GetMessages (BIN_CHANNEL w) mid] |} in
    let logged e :=
      {| db_session := db_session st;
         trace := trace st ++ [GetMessages (BIN_CHANNEL w) mid; LogError e] |} in
    _serve_file server_scope w mid fn h mode st
    = match get_messages w (BIN_CHANNEL w) mid with
      | Ret None => (Ret (Text "File not found" 404), fetched)
      | Ret (Some message) =>
          match Utils.media message with
          | None => (Ret (Text "File not found" 404), fetched)
          | Some _ =>
              (Ret (Text "Internal server error" 500),
               logged (NameError "get_hash"))
          end
      | Raise e =>
          if is_MessageNotFound e
          then (Ret (Text "File not found" 404), fetched)
          else if is_Exception e
          then (Ret (Text "Internal server error" 500), logged e)
          else (Raise e, fetched)
      end.
Proof.
  intros w mid fn h mode st fetched logged.
  assert (Hlog : forall e,
             {| db_session := db_session fetched;
                trace := trace fetched ++ [LogError e] |} = logged e).
  { intros e. unfold logged, fetched. cbn [db_session trace].
    now rewrite <- app_assoc. }
  unfold _serve_file, _serve_file_try.
  rewrite bind_get_messages. cbv zeta. fold fetched.
  destruct (get_messages w (BIN_CHANNEL w) mid) as [[message|]|e].
  - destruct (Utils.media message); [|reflexivity].
    rewrite <- Hlog. reflexivity.
  - reflexivity.
  - unfold except_clauses.
    change (lookup server_scope "MessageNotFound") with (@ret unit tt).
    rewrite bind_ret.
    destruct (is_MessageNotFound e); [reflexivity|].
    destruct (is_Exception e); [|reflexivity].
    rewrite <- Hlog. reflexivity.
Qed.

(** X16: [_serve_file] in the scope of server.py as written.  A message
    that the platform does not have ([MessageNotFound] raised, or [None]
    returned) and a message without media are answered with 404 "File not
    found"; a message with media is answered with 500 after the
    [NameError]; another error of the platform is logged and answered with
    500, unless it is not an [Exception], in which case it is raised again.
    In each case the fetch is the only call made. *)
Theorem X16_serve_file_as_written :
  forall (w : World) (mid : Z) (fn h mode : string) (st : State),
    let fetched :=
      {| db_session := db_session st;
         trace := trace st ++ [GetMessages (BIN_CHANNEL w) mid] |} in
    let logged e :=
      {| db_session := db_session st;
         trace := trace st ++ [GetMessages (BIN_CHANNEL w) mid; LogError e] |} in
    _serve_file server_scope w mid fn h mode st
    = match get_messages w (BIN_CHANNEL w) mid with
      | Ret None => (Ret (Text "File not found" 404), fetched)
      | Ret (Some message) =>
          match Utils.media message with
          | None => (Ret (Text "File not found" 404), fetched)
          | Some _ =>
              (Ret (Text "Internal server error" 500),
               logged (NameError "get_hash"))
          end
      | Raise e =>
          if is_MessageNotFound e
          then (Ret (Text "File not found" 404), fetched)
          else if is_Exception e
          then (Ret (Text "Internal server error" 500), logged e)
          else (Raise e, fetched)
      end.
Proof. exact serve_file_as_written. Qed.

(** X17: as server.py is written, no request to [/watch/...] or [/dl/...]
    is ever served: whatever the platform, the request and the state, the
    handler leaves the database session as it was, calls the stats update
    not once, prepares no response head and writes no byte, and the only
    statuses it returns are 400, 404 and 500. *)
Theorem X17_no_request_is_served_as_written :
  forall (mode : string) (w : World) (req : Request) (st : State),
    let run := handler mode server_scope w req st in
    db_session (snd run) = db_session st /\
    (exists events,
        trace (snd run) = (trace st ++ events)%list /\
        stats_calls events = 0%nat /\
        writes events = [] /\
        forall e, In e events -> is_output e = false) /\
    (forall r, fst run = Ret r -> In (status_of r) [400; 404; 500]).
Proof.
  intros mode w req st run. unfold run, handler, bind, lift.
  assert (Hnil : trace st = (trace st ++ [])%list) by now rewrite app_nil_r.
  destruct (int (match_info_message_id req)) as [mid|e].
  2:{ cbn [fst snd]. split; [reflexivity|]. split; [|discriminate].
      exists []. repeat split; [exact Hnil | intros ? []]. }
  destruct (negb (truthy_opt (query_hash req))).
  { change (lookup server_scope "web") with (@ret unit tt).
    cbn [fst snd ret]. split; [reflexivity|]. split.
    - exists []. repeat split; [exact Hnil | intros ? []].
    - intros r Hr. injection Hr as <-. cbn. tauto. }
  rewrite serve_file_as_written.
  assert (Hfetch : forall c m e, In e [GetMessages c m] -> is_output e = false)
    by (intros c m e [<- | []]; reflexivity).
  assert (Hlogged : forall c m x e,
             In e [GetMessages c m; LogError x] -> is_output e = false)
    by (intros c m x e [<- | [<- | []]]; reflexivity).
  destruct (get_messages w (BIN_CHANNEL w) mid) as [[message|]|e];
    [destruct (Utils.media message)| |
     destruct (is_MessageNotFound e); [|destruct (is_Exception e)]];
    cbn [fst snd db_session trace];
    (split; [reflexivity|]);
    (split; [eexists; split; [reflexivity|]; repeat split; eauto|]);
    intros r Hr; try discriminate; injection Hr as <-; cbn; tauto.
Qed.

End AsWritten.

(** ** server.py: refusals, ranges and streaming once the names resolve *)

Section Resolved.
Import Server.

(** X18: in a scope where the names of [_serve_file] resolve, a hash that
    differs from the one computed from the message is answered with 403
    "Invalid hash" right after the fetch: the stats update is not called
    and nothing is sent. *)
Theorem X18_wrong_hash_is_403_once_names_resolve :
  forall (sc : Scope) (w : World) (mid : Z) (fn h mode : string) (st : State)
         (message : Utils.Message) (mm : Utils.MediaAttr),
    resolves sc = true ->
    get_messages w (BIN_CHANNEL w) mid = Ret (Some message) ->
    Utils.media message = Some mm ->
    Utils.get_hash message <> h ->
    _serve_file sc w mid fn h mode st
    = (Ret (Text "Invalid hash" 403),
       {| db_session := db_session st;
          trace := trace st ++ [GetMessages (BIN_CHANNEL w) mid] |}).
Proof.
  intros sc w mid fn h mode st message mm Hres Hmsg Hmedia Hne.
  unfold _serve_file, _serve_file_try.
  rewrite bind_get_messages, Hmsg. cbv zeta. rewrite Hmedia.
  rewrite bind_lookup_ok by (assumption || (cbn; tauto)).
  apply String.eqb_neq in Hne. rewrite Hne. cbn [negb].
  now rewrite bind_lookup_ok by (assumption || (cbn; tauto)).
Qed.

Lemma X18_wrong_hash_is_403_once_names_resolve_witness :
  let req := Fixture.get "123" (Some "wrong") None in
  resolves (Fixture.resolved req) = true /\
  Utils.get_hash Fixture.message <> "wrong" /\
  _serve_file (Fixture.resolved req) Fixture.world 123 "movie.mp4" "wrong"
              "download" Fixture.state
  = (Ret (Text "Invalid hash" 403),
     {| db_session := db_session Fixture.state;
        trace := trace Fixture.state
                 ++ [GetMessages (BIN_CHANNEL Fixture.world) 123] |}).
Proof.
  intros req.
  assert (Hne : Utils.get_hash Fixture.message <> "wrong").
  { assert (H : Utils.get_hash Fixture.message = Fixture.token)
      by (vm_compute; reflexivity).
    rewrite H. discriminate. }
  split; [reflexivity|]. split; [exact Hne|].
  apply (X18_wrong_hash_is_403_once_names_resolve
           (Fixture.resolved req) Fixture.world 123 "movie.mp4" "wrong"
           "download" Fixture.state Fixture.message
           {| Utils.media_file_id := None |}
           eq_refl eq_refl eq_refl Hne).
Defined.

(** X19: the start that [_parse_range] returns is never negative.  A
    header of the form [bytes=-<n>], which in HTTP asks for the last [n]
    bytes, is read as the interval from 0 to [n], clamped to the file,
    where [int] reads [n] or the size of the file has at most 4300
    digits; and the prefix [bytes=] is not required, the same numbers
    without it give the same interval. *)
Theorem X19_parse_range_start_and_suffix_form :
  (forall (range_header : string) (file_size : Z),
     0 <= fst (_parse_range range_header file_size)) /\
  (forall n file_size : Z, 0 <= n ->
     n < 10 ^ max_str_digits \/ file_size <= 10 ^ max_str_digits ->
     _parse_range ("bytes=-" ++ str n) file_size
     = (0, Z.min n (file_size - 1))) /\
  (forall a b file_size : Z, 0 <= a -> 0 <= b ->
     _parse_range (str a ++ "-" ++ str b) file_size
     = _parse_range ("bytes=" ++ str a ++ "-" ++ str b) file_size).
Proof.
  split; [|split].
  - intros range_header file_size. unfold _parse_range, _parse_range_try.
    destruct (split "-" (replace "bytes=" EmptyString range_header))
      as [|x [|y [|z l]]]; cbn [fst]; try lia.
    destruct (if truthy x then int x else Ret 0); cbn [fst]; try lia.
    destruct (if truthy y then int y else Ret (file_size - 1));
      cbn [fst]; lia.
  - intros n file_size Hn Hshort. pose proof (str_all_digits n Hn) as Dn.
    unfold _parse_range, _parse_range_try.
    change ("bytes=-" ++ str n) with ("bytes=" ++ String "-" (str n)).
    rewrite replace_bytes.
    2:{ cbn [all_chars].
        rewrite (digits_without "b") by (assumption || reflexivity).
        reflexivity. }
    cbn [split]. change (Ascii.eqb "-" "-") with true. cbv iota.
    rewrite split_no_sep
      by (apply digits_without; [reflexivity | assumption]).
    cbn [truthy]. rewrite str_truthy.
    destruct (int_str_cases n Hn) as [-> | [Hge ->]]; [reflexivity|].
    f_equal. lia.
  - intros a b file_size Ha Hb.
    pose proof (str_all_digits a Ha) as Da.
    pose proof (str_all_digits b Hb) as Db.
    assert (Hnob : all_chars (fun c => negb (Ascii.eqb c "b"))
                             (str a ++ "-" ++ str b) = true).
    { rewrite !all_chars_app. cbn [all_chars].
      rewrite !(digits_without "b") by (assumption || reflexivity).
      reflexivity. }
    unfold _parse_range, _parse_range_try.
    rewrite replace_bytes by exact Hnob.
    unfold replace. now rewrite replace_unchanged by exact Hnob.
Qed.

Lemma X19_parse_range_start_and_suffix_form_witness :
  0 <= 500 /\ 500 < 10 ^ max_str_digits /\
  _parse_range "bytes=-500" 1000 = (0, 500).
Proof.
  assert (Hs : 500 < 10 ^ max_str_digits) by (vm_compute; reflexivity).
  split; [lia|]. split; [exact Hs|].
  apply (proj1 (proj2 X19_parse_range_start_and_suffix_form) 500 1000);
    [lia | now left].
Defined.

(** X20: the head of the response that [_serve_file] computes.  One is
    returned only for a request without a [Range] header, or with an empty
    one: its status is 200, it carries the content type,
    [Accept-Ranges: bytes] and the cache control, [Content-Disposition] is
    [attachment] for the mode "download" and [inline] for any other,
    [Content-Length] is the size of the file, which is the length of the
    interval asked of the platform, and there is no [Content-Range].  For
    a [Range] header that is not empty no head is returned, whatever the
    header says: the assignment to the status raises [AttributeError], so
    a partial response is never prepared. *)
Theorem X20_response_head_headers :
  (forall (mode fn mime : string) (size : option Z) (range : option string)
          (status : Z) (hdrs : headers_t) (a b : Z),
      response_head mode fn mime size range = Ret (status, hdrs, a, b) ->
      status = 200 /\ truthy_opt range = false /\
      get_header "Content-Type" hdrs = Some mime /\
      get_header "Accept-Ranges" hdrs = Some "bytes" /\
      get_header "Cache-Control" hdrs = Some "public, max-age=3600" /\
      get_header "Content-Disposition" hdrs
      = Some ((if String.eqb mode "download" then "attachment" else "inline")
                ++ "; filename=" ++ quoted fn) /\
      get_header "Content-Length" hdrs = Some (str (b - a + 1)) /\
      get_header "Content-Range" hdrs = None /\
      exists n, size = Some n /\ a = 0 /\ b = n - 1) /\
  (forall (mode fn mime : string) (size : Z) (range : string),
      truthy range = true ->
      response_head mode fn mime (Some size) (Some range)
      = Raise (AttributeError "status")).
Proof.
  split.
  - intros mode fn mime size range status hdrs a b.
    unfold response_head. destruct size as [n|]; [|discriminate].
    cbn [str_opt].
    assert (Hn : n - 1 - 0 + 1 = n) by lia.
    destruct range as [h|]; [destruct (truthy h) eqn:Hh|];
      [destruct (_parse_range h n) as [x y]; discriminate| |];
      intros H; injection H as <- <- <- <-;
      cbn [truthy_opt]; rewrite ?Hh;
      destruct (String.eqb mode "download");
      rewrite ?Hn;
      (repeat (split; [reflexivity|])); exists n; repeat split.
  - intros mode fn mime size range Hr. unfold response_head.
    rewrite Hr. now destruct (_parse_range range size).
Qed.

Lemma X20_response_head_headers_witness :
  (exists hdrs,
      response_head "download" "movie.mp4" "video/mp4" (Some 1000) None
      = Ret (200, hdrs, 0, 999) /\
      get_header "Content-Length" hdrs = Some "1000" /\
      get_header "Content-Range" hdrs = None) /\
  truthy "bytes=0-99" = true /\
  response_head "download" "movie.mp4" "video/mp4" (Some 1000)
                (Some "bytes=0-99")
  = Raise (AttributeError "status").
Proof.
  destruct X20_response_head_headers as [Hhead Hrange].
  split.
  - eexists. split; [reflexivity|].
    match goal with |- get_header _ ?h = _ /\ _ =>
      destruct (Hhead "download" "movie.mp4" "video/mp4" (Some 1000) None
                      200 h 0 999 eq_refl)
        as (_ & _ & _ & _ & _ & _ & Hcl & Hcr & _) end.
    split; [exact Hcl | exact Hcr].
  - split; [reflexivity|].
    exact (Hrange "download" "movie.mp4" "video/mp4" 1000 "bytes=0-99"
                  eq_refl).
Defined.

End Resolved.

(** ** server.py: the order of the bytes *)

Section Streaming.
Import Server.

Lemma writes_app (a b : list event) :
  writes (a ++ b) = (writes a ++ writes b)%list.
Proof.
  induction a as [|e a IH]; cbn [app writes]; [reflexivity|].
  destruct e; cbn [app]; now rewrite IH.
Qed.

Lemma writes_map_Write (sent : list bytes) : writes (map Write sent) = sent.
Proof.
  induction sent as [|c sent IH]; cbn [map writes]; [reflexivity|].
  now rewrite IH.
Qed.

Lemma state_eta (st : State) :
  {| db_session := db_session st; trace := trace st ++ [] |} = st.
Proof. destruct st. cbn. now rewrite app_nil_r. Qed.

(** X22: the loop that sends the file writes the chunks that the platform
    yields in their order and nothing else: what it has written when it
    ends is an initial part of them.  It stops at the first write that
    raises, with that exception and without reading further; when every
    write went through it ends as the stream of the platform ended,
    returning only if that one ended without an exception.  The session
    is not touched. *)
Theorem X22_chunks_are_written_in_order :
  forall (w : World) (chunks : list bytes) (finish : option exn)
         (k : nat) (st : State),
    let run := stream_loop w k chunks finish st in
    exists sent rest : list bytes,
      chunks = (sent ++ rest)%list /\
      snd run
      = {| db_session := db_session st;
           trace := trace st ++ map Write sent |} /\
      writes (trace (snd run)) = (writes (trace st) ++ sent)%list /\
      (forall i, (i < List.length sent)%nat ->
                 write_raises w (k + i) = None) /\
      match rest with
      | [] => fst run = match finish with
                        | Some e => Raise e
                        | None => Ret tt
                        end
      | _ :: _ =>
          exists e, write_raises w (k + List.length sent) = Some e /\
                    fst run = Raise e
      end.
Proof.
  intros w chunks finish.
  assert (Hw : forall st sent,
             writes (trace st ++ map Write sent)
             = (writes (trace st) ++ sent)%list)
    by (intros; now rewrite writes_app, writes_map_Write).
  induction chunks as [|chunk chunks IH]; intros k st run.
  - exists [], []. unfold run. cbn [stream_loop app map List.length].
    split; [reflexivity|].
    split; [destruct finish; cbn [snd raise ret]; now rewrite state_eta|].
    split; [destruct finish; cbn [snd raise ret trace]; now rewrite app_nil_r|].
    split; [intros i Hi; inversion Hi|].
    now destruct finish.
  - unfold run. cbn [stream_loop]. unfold response_write.
    destruct (write_raises w k) as [e|] eqn:Hk.
    + exists [], (chunk :: chunks). cbn [app map List.length].
      split; [reflexivity|].
      split; [cbn [bind raise snd]; now rewrite state_eta|].
      split; [cbn [bind raise snd trace]; now rewrite app_nil_r|].
      split; [intros i Hi; inversion Hi|].
      exists e. rewrite Nat.add_0_r. split; [exact Hk | reflexivity].
    + rewrite bind_emit.
      destruct (IH (S k) {| db_session := db_session st;
                            trace := trace st ++ [Write chunk] |})
        as (sent & rest & Hsplit & Hsnd & _ & Hok & Hend).
      cbn [db_session trace] in Hsnd.
      exists (chunk :: sent), rest.
      split; [cbn [app]; now rewrite Hsplit|].
      assert (Hsnd' :
        snd (stream_loop w (S k) chunks finish
               {| db_session := db_session st;
                  trace := trace st ++ [Write chunk] |})
        = {| db_session := db_session st;
             trace := trace st ++ map Write (chunk :: sent) |}).
      { rewrite Hsnd. cbn [map]. now rewrite <- app_assoc. }
      split; [exact Hsnd'|].
      split; [rewrite Hsnd'; cbn [trace]; apply Hw|].
      split.
      * intros [|i] Hi; [now rewrite Nat.add_0_r|].
        rewrite Nat.add_succ_r. apply (Hok i). cbn [List.length] in Hi. lia.
      * cbn [List.length]. rewrite Nat.add_succ_r. exact Hend.
Qed.

(** A client that closes the connection after the first of four chunks. *)
Example stream_loop_disconnect :
  let chunks := fst (stream_media Fixture.world_disconnect Fixture.message
                                  0 1000) in
  let run := stream_loop Fixture.world_disconnect 0 chunks None
                         Fixture.state in
  List.length chunks = 4%nat /\
  fst run = Raise ConnectionResetError /\
  writes (trace (snd run)) = firstn 1 chunks.
Proof. cbv zeta. repeat split; vm_compute; reflexivity. Qed.

End Streaming.

(** ** server.py: the short links *)

Section ShortLinks.
Import Server ServerMore.

Lemma short_lookup_ok {B : Type} (sc : Scope) (name : string)
      (k : unit -> M B) (st : State) :
  resolves_short_link sc = true -> In name short_link_names ->
  bind (lookup sc name) k st = k tt st.
Proof.
  unfold resolves_short_link, bind, lookup. intros H Hin.
  rewrite forallb_forall in H. now rewrite (H _ Hin).
Qed.

(** With [get_hash] bound and the messages fetched, the loop stops at the
    first row whose message has the hash and fetches one message for each
    row up to that one. *)
Lemma find_by_hash_scanned (sc : Scope) (w : World) (h : string) :
  existsb (String.eqb "get_hash") (names sc) = true ->
  forall (rows : list Database.FileStats) (st : State),
    (forall fs, In fs (scanned w h rows) ->
       exists m, get_messages w (BIN_CHANNEL w) (Database.message_id fs)
                 = Ret m) ->
    find_by_hash sc w h rows st
    = (Ret (find (fun fs => String.eqb (hash_of_row w fs) h) rows),
       {| db_session := db_session st;
          trace := trace st ++ map (fetch_of w) (scanned w h rows) |}).
Proof.
  intros Hname rows.
  induction rows as [|fs rows IH]; intros st Hall.
  - cbn [find_by_hash find scanned map]. now rewrite state_eta.
  - cbn [find_by_hash find scanned map].
    destruct (Hall fs (or_introl eq_refl)) as [m Hm].
    rewrite bind_get_messages, Hm. cbv zeta.
    unfold bind at 1, lookup. rewrite Hname. cbn [ret].
    assert (Hrow : hash_of_row w fs = get_hash_of m)
      by (unfold hash_of_row; now rewrite Hm).
    cbn [scanned] in Hall. rewrite Hrow in Hall. rewrite !Hrow.
    destruct (String.eqb (get_hash_of m) h).
    + reflexivity.
    + rewrite IH by (intros fs' Hin; apply Hall; now right).
      cbn [db_session trace]. now rewrite <- app_assoc.
Qed.

(** A fetch that raises ends the loop with that exception. *)
Lemma find_by_hash_raises (sc : Scope) (w : World) (h : string) :
  existsb (String.eqb "get_hash") (names sc) = true ->
  forall (before after : list Database.FileStats) (fs : Database.FileStats)
         (e : exn) (st : State),
    (forall fs', In fs' before ->
       (exists m, get_messages w (BIN_CHANNEL w) (Database.message_id fs')
                  = Ret m) /\
       hash_of_row w fs' <> h) ->
    get_messages w (BIN_CHANNEL w) (Database.message_id fs) = Raise e ->
    find_by_hash sc w h (before ++ fs :: after) st
    = (Raise e,
       {| db_session := db_session st;
          trace := trace st ++ map (fetch_of w) (before ++ [fs]) |}).
Proof.
  intros Hname before after fs e.
  induction before as [|fs' before IH]; intros st Hall He.
  - cbn [app find_by_hash map]. rewrite bind_get_messages, He. reflexivity.
  - cbn [app find_by_hash map].
    destruct (Hall fs' (or_introl eq_refl)) as [[m Hm] Hne].
    rewrite bind_get_messages, Hm. cbv zeta.
    unfold bind at 1, lookup. rewrite Hname. cbn [ret].
    unfold hash_of_row in Hne. rewrite Hm in Hne.
    apply String.eqb_neq in Hne. rewrite Hne.
    rewrite IH by (try assumption; intros x Hin; apply Hall; now right).
    cbn [db_session trace]. now rewrite <- app_assoc.
Qed.

(** X23: as server.py is written, [get_hash] is not bound in the module,
    so [short_link_handler] never shows the page of a file.  With an empty
    table it answers 404 without a fetch; otherwise it fetches the message
    of the first row and raises, [NameError] if the fetch returned; the
    other rows are not looked at and the session is not touched. *)
Theorem X23_short_link_as_written :
  forall (w : World) (h : string) (st : State),
    let run := short_link_handler server_scope w h st in
    (forall fs h', fst run <> Ret (FilePage fs h')) /\
    db_session (snd run) = db_session st /\
    match Database.query_raises (db_session st) with
    | Some e => run = (Raise e, st)
    | None =>
        match Database.rows (db_session st) with
        | [] => run = (Ret (Plain (Text "File not found" 404)), st)
        | fs :: _ =>
            run
            = (match get_messages w (BIN_CHANNEL w) (Database.message_id fs)
               with
               | Ret _ => Raise (NameError "get_hash")
               | Raise e => Raise e
               end,
               {| db_session := db_session st;
                  trace := trace st ++ [fetch_of w fs] |})
        end
    end.
Proof.
  intros w h st run.
  assert (Hrun :
    run = match Database.query_raises (db_session st) with
          | Some e => (Raise e, st)
          | None =>
              match Database.rows (db_session st) with
              | [] => (Ret (Plain (Text "File not found" 404)), st)
              | fs :: _ =>
                  (match get_messages w (BIN_CHANNEL w)
                                      (Database.message_id fs) with
                   | Ret _ => Raise (NameError "get_hash")
                   | Raise e => Raise e
                   end,
                   {| db_session := db_session st;
                      trace := trace st ++ [fetch_of w fs] |})
              end
          end).
  { unfold run, short_link_handler.
    change (lookup server_scope "FileStats") with (@ret unit tt).
    rewrite bind_ret. unfold bind at 1.
    destruct (Database.query_raises (db_session st)) as [e|]; [reflexivity|].
    destruct (Database.rows (db_session st)) as [|fs rows].
    - reflexivity.
    - cbn [find_by_hash]. unfold bind at 1.
      rewrite bind_get_messages. cbv zeta.
      destruct (get_messages w (BIN_CHANNEL w) (Database.message_id fs));
        reflexivity. }
  rewrite Hrun.
  destruct (Database.query_raises (db_session st)) as [e|].
  { repeat split. discriminate. }
  destruct (Database.rows (db_session st)) as [|fs rows].
  { repeat split. discriminate. }
  repeat split.
  cbn [fst]. intros fs0 h'.
  destruct (get_messages w (BIN_CHANNEL w) (Database.message_id fs));
    discriminate.
Qed.

(** X24: in a scope where the names of [short_link_handler] resolve, with
    the query returning and the messages of the rows it goes through
    fetched, the handler shows the page of the first row, in the order of
    the table, whose message in the channel has the hash of the link, and
    answers 404 when there is none.  It fetches one message for each row
    up to that one, so the whole table when nothing matches, and leaves
    the session as it was. *)
Theorem X24_short_link_is_first_row_with_that_hash :
  forall (sc : Scope) (w : World) (h : string) (st : State),
    resolves_short_link sc = true ->
    Database.query_raises (db_session st) = None ->
    (forall fs, In fs (scanned w h (Database.rows (db_session st))) ->
       exists m, get_messages w (BIN_CHANNEL w) (Database.message_id fs)
                 = Ret m) ->
    short_link_handler sc w h st
    = (Ret match find (fun fs => String.eqb (hash_of_row w fs) h)
                      (Database.rows (db_session st)) with
           | Some fs => FilePage fs h
           | None => Plain (Text "File not found" 404)
           end,
       {| db_session := db_session st;
          trace := trace st ++
                   map (fetch_of w)
                       (scanned w h (Database.rows (db_session st))) |}).
Proof.
  intros sc w h st Hres Hq Hall.
  assert (Hname : existsb (String.eqb "get_hash") (names sc) = true).
  { unfold resolves_short_link in Hres. rewrite forallb_forall in Hres.
    apply Hres. cbn. tauto. }
  unfold short_link_handler.
  rewrite short_lookup_ok by (assumption || (cbn; tauto)).
  unfold bind at 1. rewrite Hq.
  unfold bind at 1. rewrite (find_by_hash_scanned sc w h Hname _ st Hall).
  destruct (find _ _) as [fs|].
  - rewrite short_lookup_ok by (assumption || (cbn; tauto)).
    now rewrite short_lookup_ok by (assumption || (cbn; tauto)).
  - now rewrite short_lookup_ok by (assumption || (cbn; tauto)).
Qed.

Lemma X24_short_link_is_first_row_with_that_hash_witness :
  let sc := Fixture.resolved (Fixture.get "123" None None) in
  short_link_handler sc Album.world Album.picture_token Album.state
  = (Ret (FilePage Album.picture_row Album.picture_token),
     {| db_session := db_session Album.state;
        trace := [GetMessages (BIN_CHANNEL Album.world) 123;
                  GetMessages (BIN_CHANNEL Album.world) 124] |}).
Proof.
  intros sc.
  assert (H1 : hash_of_row Album.world Fixture.row = Fixture.token)
    by (vm_compute; reflexivity).
  assert (H2 : hash_of_row Album.world Album.picture_row
               = Album.picture_token) by (vm_compute; reflexivity).
  assert (Hall : forall fs,
             In fs (scanned Album.world Album.picture_token
                            (Database.rows (db_session Album.state))) ->
             exists m, get_messages Album.world (BIN_CHANNEL Album.world)
                                    (Database.message_id fs) = Ret m).
  { intros fs Hin.
    assert (Hrows : In fs [Fixture.row; Album.picture_row]).
    { revert Hin. cbn [Album.state db_session Database.rows scanned].
      rewrite H1, H2. cbn. tauto. }
    destruct Hrows as [<- | [<- | []]]; eexists; vm_compute; reflexivity. }
  rewrite (X24_short_link_is_first_row_with_that_hash
             sc Album.world Album.picture_token Album.state
             eq_refl eq_refl Hall).
  cbn [Album.state db_session Database.rows scanned find trace].
  rewrite H1, H2. reflexivity.
Defined.

(** X25: the loop of [short_link_handler] has no [try]: when the fetch of
    a row raises before a row with the hash of the link is reached (a
    stored message that was deleted from the channel, say), the exception
    leaves the handler, and the rows after it are not looked at, also
    when one of them is the file of the link. *)
Theorem X25_short_link_fetch_failure_leaves_the_handler :
  forall (sc : Scope) (w : World) (h : string) (st : State)
         (before after : list Database.FileStats) (fs : Database.FileStats)
         (e : exn),
    resolves_short_link sc = true ->
    Database.query_raises (db_session st) = None ->
    Database.rows (db_session st) = (before ++ fs :: after)%list ->
    (forall fs', In fs' before ->
       (exists m, get_messages w (BIN_CHANNEL w) (Database.message_id fs')
                  = Ret m) /\
       hash_of_row w fs' <> h) ->
    get_messages w (BIN_CHANNEL w) (Database.message_id fs) = Raise e ->
    short_link_handler sc w h st
    = (Raise e,
       {| db_session := db_session st;
          trace := trace st ++ map (fetch_of w) (before ++ [fs]) |}).
Proof.
  intros sc w h st before after fs e Hres Hq Hrows Hall He.
  assert (Hname : existsb (String.eqb "get_hash") (names sc) = true).
  { unfold resolves_short_link in Hres. rewrite forallb_forall in Hres.
    apply Hres. cbn. tauto. }
  unfold short_link_handler.
  rewrite short_lookup_ok by (assumption || (cbn; tauto)).
  unfold bind at 1. rewrite Hq, Hrows.
  unfold bind at 1.
  now rewrite (find_by_hash_raises sc w h Hname before after fs e st Hall He).
Qed.

Lemma X25_short_link_fetch_failure_leaves_the_handler_witness :
  let sc := Fixture.resolved (Fixture.get "123" None None) in
  In Album.picture_row (Database.rows (db_session Album.state_lost)) /\
  hash_of_row Album.world Album.picture_row = Album.picture_token /\
  short_link_handler sc Album.world Album.picture_token Album.state_lost
  = (Raise MessageNotFound,
     {| db_session := db_session Album.state_lost;
        trace := [GetMessages (BIN_CHANNEL Album.world) 123;
                  GetMessages (BIN_CHANNEL Album.world) 99] |}).
Proof.
  intros sc.
  split; [cbn; tauto|]. split; [vm_compute; reflexivity|].
  assert (H1 : hash_of_row Album.world Fixture.row = Fixture.token)
    by (vm_compute; reflexivity).
  apply (X25_short_link_fetch_failure_leaves_the_handler
           sc Album.world Album.picture_token Album.state_lost
           [Fixture.row] [Album.picture_row] Album.lost_row MessageNotFound
           eq_refl eq_refl eq_refl).
  - intros fs' [<- | []]. split.
    + eexists. vm_compute. reflexivity.
    + rewrite H1. discriminate.
  - vm_compute. reflexivity.
Defined.

End ShortLinks.

(** ** server.py: the thumbnails *)

Section Thumbnails.
Import Server ServerMore.

(** What the [try] block of [thumbnail_handler] does for an image. *)
Lemma thumbnail_try_image (w : World) (fs : Files) (mid : Z)
      (data : bytes) (tr : list io_event) :
  thumbnail_try w fs mid = (Ret (Some data), tr) ->
  exists message photo path,
    get_messages w (BIN_CHANNEL w) mid = Ret (Some message) /\
    Utils.photo message = Some photo /\
    download_media fs (Utils.file_id photo) ("thumb_" ++ str mid ++ ".jpg")
    = Ret (Some path) /\
    read_file fs path = Ret data /\
    os_remove fs path = Ret tt /\
    tr = [Fetched (BIN_CHANNEL w) mid;
          Downloaded (Utils.file_id photo) ("thumb_" ++ str mid ++ ".jpg");
          Opened path; Removed path].
Proof.
  unfold thumbnail_try.
  destruct (get_messages w (BIN_CHANNEL w) mid) as [[message|]|e] eqn:Hm;
    [|discriminate..].
  destruct (Utils.photo message) as [photo|] eqn:Hp; [|discriminate].
  destruct (download_media fs _ _) as [[path|]|e] eqn:Hd; [|discriminate..].
  destruct (read_file fs path) as [body|e] eqn:Hr; [|discriminate].
  destruct (os_remove fs path) as [[]|e] eqn:Ho; [|discriminate].
  intros H. injection H as <- <-.
  exists message, photo, path. now repeat split.
Qed.

(** A file that was opened and could not be read is not removed. *)
Lemma thumbnail_try_left_over (w : World) (fs : Files) (mid : Z)
      (path : string) (e : exn) :
  In (Opened path) (snd (thumbnail_try w fs mid)) ->
  read_file fs path = Raise e ->
  fst (thumbnail_try w fs mid) = Raise e /\
  forall p, ~ In (Removed p) (snd (thumbnail_try w fs mid)).
Proof.
  unfold thumbnail_try.
  destruct (get_messages w (BIN_CHANNEL w) mid) as [[message|]|e0];
    cbn [snd fst]; try (intros [H | []]; discriminate).
  destruct (Utils.photo message) as [photo|];
    cbn [snd fst]; try (intros [H | []]; discriminate).
  destruct (download_media fs _ _) as [[p0|]|e0];
    cbn [snd fst app]; try (intros [H | [H | []]]; discriminate).
  destruct (read_file fs p0) as [body|e0] eqn:Hr.
  - destruct (os_remove fs p0) as [[]|e1]; cbn [snd fst app];
      intros [H | [H | [H | [H | []]]]] He; try discriminate;
      injection H as <-; rewrite Hr in He; discriminate.
  - cbn [snd fst app].
    intros [H | [H | [H | []]]] He; try discriminate.
    injection H as <-. rewrite Hr in He. injection He as <-.
    split; [reflexivity|].
    intros p [H | [H | [H | []]]]; discriminate.
Qed.

(** X26: for a path segment that is an integer, [thumbnail_handler]
    answers, whatever fails: no exception of class [Exception] leaves it,
    and what is not the image is 404 "No thumbnail" (a message that is not
    there, a message without a photo, a download or a file operation that
    raises).  The image is answered only when fetch, download, read and
    removal all succeeded, in that order, under the name
    [thumb_<message_id>.jpg].  When the downloaded file cannot be read,
    the answer is 404 and the file is not removed. *)
Theorem X26_thumbnail_is_image_or_404 :
  forall (w : World) (fs : Files) (path_id : string) (mid : Z),
    int path_id = Ret mid ->
    let run := thumbnail_handler w fs path_id in
    (forall e, fst run = Raise e -> is_Exception e = false) /\
    (forall r, fst run = Ret (NoImage r) -> r = Text "No thumbnail" 404) /\
    (forall data, fst run = Ret (Image data) ->
       exists message photo path,
         get_messages w (BIN_CHANNEL w) mid = Ret (Some message) /\
         Utils.photo message = Some photo /\
         download_media fs (Utils.file_id photo)
                        ("thumb_" ++ str mid ++ ".jpg") = Ret (Some path) /\
         read_file fs path = Ret data /\
         os_remove fs path = Ret tt /\
         snd run
         = [Fetched (BIN_CHANNEL w) mid;
            Downloaded (Utils.file_id photo) ("thumb_" ++ str mid ++ ".jpg");
            Opened path; Removed path]) /\
    (forall path e,
       In (Opened path) (snd run) -> read_file fs path = Raise e ->
       is_Exception e = true ->
       fst run = Ret (NoImage (Text "No thumbnail" 404)) /\
       forall p, ~ In (Removed p) (snd run)).
Proof.
  intros w fs path_id mid Hint run. unfold run, thumbnail_handler.
  rewrite Hint.
  pose proof (thumbnail_try_image w fs mid) as Himage.
  pose proof (thumbnail_try_left_over w fs mid) as Hleft.
  destruct (thumbnail_try w fs mid) as [[[data|]|e] tr]; cbn [fst snd] in *.
  - split; [discriminate|]. split; [discriminate|]. split.
    + intros d H. injection H as <-. exact (Himage data tr eq_refl).
    + intros path e Hin Hr _. destruct (Hleft path e Hin Hr). discriminate.
  - split; [discriminate|]. split; [intros r H; now injection H as <-|].
    split; [discriminate|].
    intros path e Hin Hr _. destruct (Hleft path e Hin Hr). discriminate.
  - destruct (is_Exception e) eqn:He; cbn [fst snd].
    + split; [discriminate|]. split; [intros r H; now injection H as <-|].
      split; [discriminate|].
      intros path e' Hin Hr _.
      assert (Hin' : In (Opened path) tr).
      { apply in_app_or in Hin as [Hin | [Hin | []]];
          [exact Hin | discriminate]. }
      destruct (Hleft path e' Hin' Hr) as [_ Hno].
      split; [reflexivity|].
      intros p Hp. apply in_app_or in Hp as [Hp | [Hp | []]];
        [exact (Hno p Hp) | discriminate].
    + split; [intros e' H; now injection H as <-|].
      split; [discriminate|]. split; [discriminate|].
      intros path e' Hin Hr He'.
      destruct (Hleft path e' Hin Hr) as [Hfst _].
      injection Hfst as <-. congruence.
Qed.

Lemma X26_thumbnail_is_image_or_404_witness :
  Py.int "124" = Ret 124 /\
  thumbnail_handler Album.world Album.files "124"
  = (Ret (Image "JFIF"),
     [Fetched (BIN_CHANNEL Album.world) 124;
      Downloaded "AgACAgIAAxkBAAIBaW" "thumb_124.jpg";
      Opened "downloads/thumb_124.jpg";
      Removed "downloads/thumb_124.jpg"]) /\
  fst (thumbnail_handler Album.world Album.files_unreadable "124")
  = Ret (NoImage (Text "No thumbnail" 404)) /\
  forall p,
    ~ In (Removed p)
         (snd (thumbnail_handler Album.world Album.files_unreadable "124")).
Proof.
  split; [vm_compute; reflexivity|].
  split; [vm_compute; reflexivity|].
  destruct (X26_thumbnail_is_image_or_404
              Album.world Album.files_unreadable "124" 124
              ltac:(vm_compute; reflexivity)) as (_ & _ & _ & Hleft).
  apply (Hleft "downloads/thumb_124.jpg" ConnectionResetError).
  - vm_compute. tauto.
  - reflexivity.
  - reflexivity.
Defined.

End Thumbnails.

(** ** server.py: the [message_id] of the path *)

Section PathIds.
Import Server ServerMore.

(** X21: the three handlers convert the [message_id] segment with [int]
    before their [try] blocks.  A segment that [int] does not read, which
    is every segment of more than 4300 digits besides those that are not
    integer literals, makes [stream_handler], [download_handler] and
    [thumbnail_handler] raise [ValueError] at once: no message is fetched,
    nothing is logged, the session is as it was and no response is
    returned. *)
Theorem X21_unreadable_id_leaves_the_handlers :
  (forall s e, int s = Raise e -> e = ValueError) /\
  (forall s, max_str_digits < count_digits (strip s) ->
             int s = Raise ValueError) /\
  (forall (mode : string) (sc : Scope) (w : World) (req : Request)
          (st : State) (e : exn),
      int (match_info_message_id req) = Raise e ->
      handler mode sc w req st = (Raise e, st)) /\
  (forall (w : World) (fs : Files) (path_id : string) (e : exn),
      int path_id = Raise e ->
      thumbnail_handler w fs path_id = (Raise e, [])).
Proof.
  split; [|split; [|split]].
  - intros s e. unfold int.
    destruct (match strip s with
              | String "-" r => option_map Z.opp (digits 0 false r)
              | String "+" r => digits 0 false r
              | _ => digits 0 false (strip s)
              end); [|congruence].
    destruct (max_str_digits <? count_digits (strip s)); congruence.
  - intros s Hlong. unfold int. apply Z.ltb_lt in Hlong. rewrite Hlong.
    now destruct (match strip s with
                  | String "-" r => option_map Z.opp (digits 0 false r)
                  | String "+" r => digits 0 false r
                  | _ => digits 0 false (strip s)
                  end).
  - intros mode sc w req st e He. unfold handler, bind, lift.
    now rewrite He.
  - intros w fs path_id e He. unfold thumbnail_handler. now rewrite He.
Qed.

Lemma X21_unreadable_id_leaves_the_handlers_witness :
  let req := Fixture.get Album.long_id (Some Fixture.token) None in
  max_str_digits < count_digits (strip Album.long_id) /\
  stream_handler server_scope Fixture.world req Fixture.state
  = (Raise ValueError, Fixture.state) /\
  thumbnail_handler Fixture.world Album.files Album.long_id
  = (Raise ValueError, []).
Proof.
  intros req.
  assert (Hlong : max_str_digits < count_digits (strip Album.long_id))
    by (vm_compute; reflexivity).
  destruct X21_unreadable_id_leaves_the_handlers as (_ & Hint & Hh & Ht).
  pose proof (Hint Album.long_id Hlong) as He.
  split; [exact Hlong|]. split.
  - exact (Hh "stream" server_scope Fixture.world req Fixture.state
              ValueError He).
  - exact (Ht Fixture.world Album.files Album.long_id ValueError He).
Defined.

End PathIds.

(** ** server.py: the argument of the stats update *)

Section FileIdOfMedia.
Import Server.

(** X27: binding the missing names is not enough to serve a file.  Once
    the names of [_serve_file] resolve, a request with the right hash for
    a message whose [media] value has no attribute [file_id], as in the
    messages that the platform delivers, is answered with 500 "Internal
    server error" right after the fetch: reading [message.media.file_id]
    raises [AttributeError], which is logged; the stats update is not
    called, the session is as it was, and nothing is sent. *)
Theorem X27_right_hash_is_500_without_file_id :
  forall (sc : Scope) (w : World) (mid : Z) (fn h mode : string) (st : State)
         (message : Utils.Message) (mm : Utils.MediaAttr),
    resolves sc = true ->
    get_messages w (BIN_CHANNEL w) mid = Ret (Some message) ->
    Utils.media message = Some mm ->
    Utils.media_file_id mm = None ->
    Utils.get_hash message = h ->
    _serve_file sc w mid fn h mode st
    = (Ret (Text "Internal server error" 500),
       {| db_session := db_session st;
          trace := trace st ++ [GetMessages (BIN_CHANNEL w) mid;
                                LogError (AttributeError "file_id")] |}).
Proof.
  intros sc w mid fn h mode st message mm Hres Hmsg Hmedia Hfid Hhash.
  unfold _serve_file, _serve_file_try.
  rewrite bind_get_messages, Hmsg. cbv zeta. rewrite Hmedia, Hfid.
  rewrite bind_lookup_ok by (assumption || (cbn; tauto)).
  rewrite Hhash, String.eqb_refl. cbn [negb].
  rewrite bind_lookup_ok by (assumption || (cbn; tauto)).
  unfold bind at 1, raise.
  rewrite except_clauses_resolved by exact Hres.
  cbn [is_MessageNotFound is_Exception db_session trace].
  now rewrite <- app_assoc.
Qed.

Lemma X27_right_hash_is_500_without_file_id_witness :
  let req := Fixture.get "123" (Some Fixture.token) None in
  let run := _serve_file (Fixture.resolved req) Fixture.world 123 "movie.mp4"
                         Fixture.token "stream" Fixture.state in
  resolves (Fixture.resolved req) = true /\
  Utils.get_hash Fixture.message = Fixture.token /\
  fst run = Ret (Text "Internal server error" 500) /\
  stats_calls (trace (snd run)) = 0%nat /\
  writes (trace (snd run)) = [].
Proof.
  intros req run.
  assert (Htoken : Utils.get_hash Fixture.message = Fixture.token)
    by (vm_compute; reflexivity).
  split; [reflexivity|]. split; [exact Htoken|].
  unfold run.
  rewrite (X27_right_hash_is_500_without_file_id
             (Fixture.resolved req) Fixture.world 123 "movie.mp4"
             Fixture.token "stream" Fixture.state Fixture.message
             {| Utils.media_file_id := None |}
             eq_refl eq_refl eq_refl eq_refl Htoken).
  split; [reflexivity|]. split; reflexivity.
Defined.

End FileIdOfMedia.

(** ** server.py: the page of a short link *)

Section PageOfALink.
Import Server ServerMore.

(** A row that the loop returns is a row of the table whose message was
    fetched and has the hash; the loop leaves the session alone. *)
Lemma find_by_hash_found (sc : Scope) (w : World) (h : string)
      (fs : Database.FileStats) :
  forall (rows : list Database.FileStats) (st st' : State),
    find_by_hash sc w h rows st = (Ret (Some fs), st') ->
    In fs rows /\ db_session st' = db_session st /\
    exists m, get_messages w (BIN_CHANNEL w) (Database.message_id fs) = Ret m
              /\ get_hash_of m = h.
Proof.
  induction rows as [|fs0 rows IH]; intros st st'; cbn [find_by_hash].
  - discriminate.
  - rewrite bind_get_messages. cbv zeta.
    destruct (get_messages w (BIN_CHANNEL w) (Database.message_id fs0))
      as [m|e] eqn:Hm; [|discriminate].
    unfold bind at 1.
    destruct (lookup_cases sc "get_hash"
                {| db_session := db_session st;
                   trace := trace st ++
                            [GetMessages (BIN_CHANNEL w)
                                         (Database.message_id fs0)] |})
      as [-> | ->]; [|discriminate].
    destruct (String.eqb (get_hash_of m) h) eqn:Heq.
    + intros H. injection H as <- <-. split; [now left|].
      split; [reflexivity|].
      exists m. split; [exact Hm | now apply String.eqb_eq].
    + intros H. destruct (IH _ _ H) as (Hin & Hdb & Hex).
      split; [now right|]. split; [exact Hdb | exact Hex].
Qed.

(** The page is what the loop found. *)
Lemma short_link_page (sc : Scope) (w : World) (h h' : string)
      (st st' : State) (fs : Database.FileStats) :
  short_link_handler sc w h st = (Ret (FilePage fs h'), st') ->
  h' = h /\
  Database.query_raises (db_session st) = None /\
  find_by_hash sc w h (Database.rows (db_session st)) st
  = (Ret (Some fs), st').
Proof.
  unfold short_link_handler. unfold bind at 1.
  destruct (lookup_cases sc "FileStats" st) as [-> | ->]; [|discriminate].
  unfold bind at 1.
  destruct (Database.query_raises (db_session st)); [discriminate|].
  unfold bind at 1.
  destruct (find_by_hash sc w h (Database.rows (db_session st)) st)
    as [[[fs'|]|e] st2] eqn:Hfind; [| |discriminate].
  - unfold bind at 1.
    destruct (lookup_cases sc "get_readable_file_size" st2) as [-> | ->];
      [|discriminate].
    unfold bind at 1.
    destruct (lookup_cases sc "web" st2) as [-> | ->]; [|discriminate].
    intros H. injection H as <- <- <-. now repeat split.
  - unfold bind at 1.
    destruct (lookup_cases sc "web" st2) as [-> | ->]; discriminate.
Qed.

(** X28: [short_link_handler] shows a page only for a file of the link.
    Whenever it returns the page of a row, in any scope and whatever the
    platform, the query went through, the row is in the table, its
    message was fetched from the channel and the hash computed from that
    message is the one of the link; for a link that is not empty the
    message is there and carries media.  The session is left as it
    was. *)
Theorem X28_page_is_for_a_row_with_that_hash :
  forall (sc : Scope) (w : World) (h h' : string) (st st' : State)
         (fs : Database.FileStats),
    short_link_handler sc w h st = (Ret (FilePage fs h'), st') ->
    h' = h /\
    Database.query_raises (db_session st) = None /\
    In fs (Database.rows (db_session st)) /\
    db_session st' = db_session st /\
    exists m,
      get_messages w (BIN_CHANNEL w) (Database.message_id fs) = Ret m /\
      get_hash_of m = h /\
      (h <> EmptyString ->
       exists message,
         m = Some message /\ Utils.get_hash message = h /\
         Utils.get_media_from_message message <> None).
Proof.
  intros sc w h h' st st' fs Hpage.
  destruct (short_link_page sc w h h' st st' fs Hpage) as (-> & Hq & Hfind).
  destruct (find_by_hash_found sc w h fs _ _ _ Hfind)
    as (Hin & Hdb & m & Hm & Hhash).
  split; [reflexivity|]. split; [exact Hq|]. split; [exact Hin|].
  split; [exact Hdb|].
  exists m. split; [exact Hm|]. split; [exact Hhash|].
  intros Hne. destruct m as [message|]; [|now elim Hne].
  exists message. split; [reflexivity|]. split; [exact Hhash|].
  intros Hnone. apply Hne. rewrite <- Hhash.
  cbn [get_hash_of]. unfold Utils.get_hash. now rewrite Hnone.
Qed.

Lemma X28_page_is_for_a_row_with_that_hash_witness :
  let sc := Fixture.resolved (Fixture.get "124" None None) in
  let run := short_link_handler sc Album.world Album.picture_token
                                Album.state in
  fst run = Ret (FilePage Album.picture_row Album.picture_token) /\
  In Album.picture_row (Database.rows (db_session Album.state)) /\
  exists m,
    get_messages Album.world (BIN_CHANNEL Album.world)
                 (Database.message_id Album.picture_row) = Ret m /\
    get_hash_of m = Album.picture_token.
Proof.
  intros sc run.
  assert (Hrun : run = (Ret (FilePage Album.picture_row Album.picture_token),
                        snd run)) by (vm_compute; reflexivity).
  destruct (X28_page_is_for_a_row_with_that_hash
              sc Album.world Album.picture_token Album.picture_token
              Album.state (snd run) Album.picture_row Hrun)
    as (_ & _ & Hin & _ & m & Hm & Hhash & _).
  split; [now rewrite Hrun|]. split; [exact Hin|].
  exists m. split; [exact Hm | exact Hhash].
Defined.

End PageOfALink.
